(** * ForecastFlow: the forecast orchestration layer of [models.py]

    A shallow embedding of [UniversalForecastModel] and [create_forecast]:
    data preparation, model selection, the three training tiers and the
    closed-form trend extrapolation.

    Conventions of the embedding
    - a pandas [Timestamp] is a record of its calendar fields; the date
      column of a raw frame holds values that [pd.to_datetime] turns into
      timestamps: a frame with a missing date ([NaT]) is not a frame of the
      embedding;
    - a float cell is [option Q]: [None] is NaN (a pandas null), [Some q]
      is a number, with exact rational arithmetic in place of rounding;
      NaN propagates through every arithmetic operation, [np.polyfit]
      included; the columns of a frame are numeric columns, a column of
      text is not a column of the embedding;
    - the object state ([self]) is a record threaded explicitly through
      every method, each method returning its result and the new state;
    - a caught exception is a branch: [try ... except: return None] is a
      function into [option];
    - AutoTS and the generic [pd.date_range] are external libraries; their
      behaviour is a parameter of the development (Section [Orchestration]),
      so every theorem holds for whatever they do. *)

From Stdlib Require Import ZArith QArith Bool List String Lia Permutation Sorted.
From Stdlib Require Import Qfield Lqa.
Import ListNotations.
Open Scope string_scope.
Open Scope nat_scope.

(** ** Timestamps *)

Record Timestamp := mkTimestamp {
  year : Z;
  month : Z;
  day : Z;
  nanos : Z   (* time of day, nanoseconds since midnight *)
}.

Definition ts_compare (a b : Timestamp) : comparison :=
  match (year a ?= year b)%Z with
  | Eq => match (month a ?= month b)%Z with
          | Eq => match (day a ?= day b)%Z with
                  | Eq => (nanos a ?= nanos b)%Z
                  | c => c
                  end
          | c => c
          end
  | c => c
  end.

Definition ts_eqb (a b : Timestamp) : bool :=
  match ts_compare a b with Eq => true | _ => false end.

Definition ts_ltb (a b : Timestamp) : bool :=
  match ts_compare a b with Lt => true | _ => false end.

Definition ts_leb (a b : Timestamp) : bool :=
  match ts_compare a b with Gt => false | _ => true end.

(** ** Float cells *)

Definition float := option Q.

Definition NaN : float := None.

Definition isnull (v : float) : bool :=
  match v with None => true | Some _ => false end.

Definition fadd (a b : float) : float :=
  match a, b with Some x, Some y => Some (x + y)%Q | _, _ => None end.

Definition fmul (a b : float) : float :=
  match a, b with Some x, Some y => Some (x * y)%Q | _, _ => None end.

Definition of_nat (n : nat) : Q := inject_Z (Z.of_nat n).

(** ** Frames and series *)

(** A row of a raw frame: its date cell, a timestamp, and its cell in
    every numeric column. *)
Record Row := mkRow {
  row_date : Timestamp;
  row_value : string -> float
}.

(** A raw [DataFrame]: the names of its numeric columns, the date column
    apart, and its rows in order. *)
Record DataFrame := mkDataFrame {
  df_columns : list string;
  df_rows : list Row
}.

(** A single-column frame indexed by date: [ts_data], [historical_data]
    and the forecast frame. *)
Definition Series := list (Timestamp * float).

Definition index (s : Series) : list Timestamp := map fst s.
Definition values (s : Series) : list float := map snd s.

(** ** pandas operations used by [prepare_data] *)

(** [df.drop_duplicates(subset=[date_column])]: the first row of every
    date is kept. *)
Fixpoint drop_duplicates_seen (seen : list Timestamp) (rows : list Row) : list Row :=
  match rows with
  | [] => []
  | r :: tl =>
      if existsb (ts_eqb (row_date r)) seen
      then drop_duplicates_seen seen tl
      else r :: drop_duplicates_seen (row_date r :: seen) tl
  end.

Definition drop_duplicates (rows : list Row) : list Row :=
  drop_duplicates_seen [] rows.

(** [df.sort_values(date_column)]: ascending by date.  The rows have
    distinct dates when it is called, so the result does not depend on the
    sorting algorithm. *)
Fixpoint insert_row (r : Row) (rows : list Row) : list Row :=
  match rows with
  | [] => [r]
  | r' :: tl =>
      if ts_leb (row_date r) (row_date r') then r :: rows
      else r' :: insert_row r tl
  end.

Fixpoint sort_values (rows : list Row) : list Row :=
  match rows with
  | [] => []
  | r :: tl => insert_row r (sort_values tl)
  end.

(** [Series.interpolate()] with its defaults (method linear, direction
    forward): the values are taken as equally spaced; a run of nulls
    between two numbers is filled on the straight line between them, a run
    of nulls at the end repeats the last number, and a run of nulls at the
    start is left as it is. *)

(** The number of nulls before the next number, and that number. *)
Fixpoint next_valid (vs : list float) : option (nat * Q) :=
  match vs with
  | [] => None
  | Some v :: _ => Some (0, v)
  | None :: tl =>
      match next_valid tl with
      | Some (k, v) => Some (S k, v)
      | None => None
      end
  end.

(** [prev] is the last number seen and [gap] the number of nulls since. *)
Fixpoint interpolate_after (prev : Q) (gap : nat) (vs : list float) : list float :=
  match vs with
  | [] => []
  | Some v :: tl => Some v :: interpolate_after v 0 tl
  | None :: tl =>
      match next_valid tl with
      | Some (k, next) =>
          Some (prev + (next - prev) * (of_nat (S gap) / of_nat (S gap + S k)))%Q
      | None => Some prev
      end :: interpolate_after prev (S gap) tl
  end.

Fixpoint interpolate (vs : list float) : list float :=
  match vs with
  | [] => []
  | None :: tl => None :: interpolate tl
  | Some v :: tl => Some v :: interpolate_after v 0 tl
  end.

(** [ts_data[value_column] = ts_data[value_column].interpolate()] *)
Definition interpolate_column (s : Series) : Series :=
  combine (index s) (interpolate (values s)).

(** ** Calendar arithmetic of pandas offsets *)

Definition is_leap (y : Z) : bool :=
  (((y mod 4 =? 0) && negb (y mod 100 =? 0)) || (y mod 400 =? 0))%Z.

Definition days_in_month (y m : Z) : Z :=
  if (m =? 2)%Z then (if is_leap y then 29 else 28)%Z
  else if ((m =? 4) || (m =? 6) || (m =? 9) || (m =? 11))%Z then 30%Z
  else 31%Z.

(** The first day of the following month, at the same time of day. *)
Definition first_of_next_month (t : Timestamp) : Timestamp :=
  if (month t =? 12)%Z
  then mkTimestamp (year t + 1) 1 1 (nanos t)
  else mkTimestamp (year t) (month t + 1) 1 (nanos t).

Definition end_of_month (t : Timestamp) : Timestamp :=
  mkTimestamp (year t) (month t) (days_in_month (year t) (month t)) (nanos t).

(** [t + timedelta(days=1)] *)
Definition next_day (t : Timestamp) : Timestamp :=
  if (day t <? days_in_month (year t) (month t))%Z
  then mkTimestamp (year t) (month t) (day t + 1) (nanos t)
  else first_of_next_month t.

(** [t + timedelta(days=n)] *)
Definition add_days (n : nat) (t : Timestamp) : Timestamp :=
  Nat.iter n next_day t.

(** [t + pd.offsets.MonthBegin(1)]: the day of [t] is never before the
    first of its month, so the offset always lands on the first day of the
    following month. *)
Definition month_begin_offset (t : Timestamp) : Timestamp :=
  first_of_next_month t.

Definition is_month_end (t : Timestamp) : bool :=
  (day t =? days_in_month (year t) (month t))%Z.

(** [t + pd.offsets.MonthEnd(1)]: the end of the month of [t] when [t] is
    before it, the end of the following month otherwise. *)
Definition month_end_offset (t : Timestamp) : Timestamp :=
  if (day t <? days_in_month (year t) (month t))%Z
  then end_of_month t
  else end_of_month (first_of_next_month t).

(** [MonthEnd().rollforward(t)] *)
Definition rollforward_month_end (t : Timestamp) : Timestamp :=
  if is_month_end t then t else month_end_offset t.

(** [pd.date_range(start=..., periods=..., freq=...)] generates [periods]
    stamps: the start rolled forward onto the offset, then one offset
    apart. *)
Fixpoint generate_range (step : Timestamp -> Timestamp) (cur : Timestamp)
    (periods : nat) : list Timestamp :=
  match periods with
  | 0 => []
  | S p => cur :: generate_range step (step cur) p
  end.

Definition date_range_D (start : Timestamp) (periods : nat) : list Timestamp :=
  generate_range next_day start periods.

Definition date_range_ME (start : Timestamp) (periods : nat) : list Timestamp :=
  generate_range month_end_offset (rollforward_month_end start) periods.

(** ** numpy operations used by the trend extrapolation *)

(** [np.arange(a, b)] *)
Definition np_arange (a b : nat) : list float :=
  map (fun i => Some (of_nat i)) (seq a (b - a)).

Fixpoint fsum (l : list float) : float :=
  match l with
  | [] => Some 0%Q
  | v :: tl => fadd v (fsum tl)
  end.

Fixpoint fmul_lists (xs ys : list float) : list float :=
  match xs, ys with
  | x :: xs', y :: ys' => fmul x y :: fmul_lists xs' ys'
  | _, _ => []
  end.

(** [np.polyfit(x, y, 1)]: the coefficients (slope, intercept) of the
    least-squares line through the points, from the normal equations; NaN
    in the data gives NaN coefficients.  The abscissae are [np.arange(n)]
    with [n >= 2] at the only call, so the system is never singular. *)
Definition np_polyfit1 (xs ys : list float) : float * float :=
  match fsum xs, fsum ys, fsum (fmul_lists xs xs), fsum (fmul_lists xs ys) with
  | Some sx, Some sy, Some sxx, Some sxy =>
      let n := of_nat (List.length xs) in
      let slope := ((n * sxy - sx * sy) / (n * sxx - sx * sx))%Q in
      let intercept := ((sy - slope * sx) / n)%Q in
      (Some slope, Some intercept)
  | _, _, _, _ => (NaN, NaN)
  end.

(** [l[-1]]; [None] is the [IndexError] of an empty sequence. *)
Fixpoint last_item {A : Type} (l : list A) : option A :=
  match l with
  | [] => None
  | [a] => Some a
  | _ :: tl => last_item tl
  end.

(** ** The AutoTS interface *)

(** What [model.predict()] does on a fitted AutoTS object: the object has
    no such method, the call raises, it returns [None] or an object without
    the attribute [forecast], or it returns an object with that attribute.
    The attribute is handed on without a look at it: it holds a frame, or
    [None]. *)
Inductive PredictOutcome :=
| NoPredictAttribute
| PredictRaises
| PredictWithoutForecast
| PredictReturns (forecast : option Series).

(** The fitted object returned by [AutoTS.fit]. *)
Record AutoTSModel := mkAutoTSModel {
  model_best_model_name : option string;
    (* [None]: no attribute [best_model_name], or the attribute is [None] *)
  model_predict : PredictOutcome
}.

Inductive FitOutcome :=
| FitRaises
| FitReturns (m : AutoTSModel).

Inductive ModelList :=
| ModelSet (name : string)
| ModelNames (names : list string).

(** The keyword arguments of the [AutoTS(...)] constructor; [None] is an
    argument left to the library default. *)
Record AutoTSConfig := mkAutoTSConfig {
  cfg_forecast_length : nat;
  cfg_frequency : string;
  cfg_model_list : ModelList;
  cfg_ensemble : option string;
  cfg_max_generations : nat;
  cfg_num_validations : nat;
  cfg_validation_method : option string;
  cfg_no_negatives : option bool;
  cfg_constraint : option Q;
  cfg_drop_most_recent : option nat;
  cfg_verbose : nat
}.

(** What [fit] is called on: the prepared single-column series, or, on one
    path of the fallback, the raw frame. *)
Inductive FitInput :=
| Prepared (ts_data : Series)
| RawFrame (data : DataFrame).

(** ** The model object *)

Record UniversalForecastModel := mkModel {
  forecast_length : nat;
  frequency : string;
  model_complexity : string;
  model : option AutoTSModel;
  best_model_name : option string;
  training_successful : bool;
  historical_data : option Series;
  fit_calls : list (AutoTSConfig * FitInput)
    (* ghost: the [AutoTS(...).fit(...)] calls made so far, oldest first *)
}.

(** [__init__] *)
Definition init (forecast_length : nat) (frequency model_complexity : string)
    : UniversalForecastModel :=
  mkModel forecast_length frequency model_complexity None None false None [].

Definition set_historical_data (self : UniversalForecastModel) (h : Series) :=
  mkModel (forecast_length self) (frequency self) (model_complexity self)
    (model self) (best_model_name self) (training_successful self)
    (Some h) (fit_calls self).

Definition set_model (self : UniversalForecastModel) (m : AutoTSModel) :=
  mkModel (forecast_length self) (frequency self) (model_complexity self)
    (Some m) (best_model_name self) (training_successful self)
    (historical_data self) (fit_calls self).

(** [self.best_model_name = name; self.training_successful = True] *)
Definition set_trained (self : UniversalForecastModel) (name : string) :=
  mkModel (forecast_length self) (frequency self) (model_complexity self)
    (model self) (Some name) true
    (historical_data self) (fit_calls self).

Definition record_fit (self : UniversalForecastModel) (cfg : AutoTSConfig)
    (input : FitInput) :=
  mkModel (forecast_length self) (frequency self) (model_complexity self)
    (model self) (best_model_name self) (training_successful self)
    (historical_data self) (fit_calls self ++ [(cfg, input)]).

(** Truth value of a Python string. *)
Definition truthy (s : string) : bool := negb (s =? "")%string.

(** ** [prepare_data] *)

Definition prepare_data (self : UniversalForecastModel) (data : DataFrame)
    (value_column : string) : option Series * UniversalForecastModel :=
  let df := sort_values (drop_duplicates (df_rows data)) in
  if List.length df <? 6 then (None, self)
  else if negb (existsb (String.eqb value_column) (df_columns data)) then (None, self)
  else
    let ts_data := map (fun r => (row_date r, row_value r value_column)) df in
    let self' := set_historical_data self ts_data in
    if existsb isnull (values ts_data)
    then (Some (interpolate_column ts_data), self')
    else (Some ts_data, self').

(** ** [get_model_list] *)

Definition get_model_list (self : UniversalForecastModel) (data_length : nat) : string :=
  if (model_complexity self =? "simple")%string then "superfast"
  else if (model_complexity self =? "medium")%string then "fast"
  else if (model_complexity self =? "complex")%string then "default"
  else "all".

(** ** The effort profile of [train]

    The [if data_length <= 12 ... elif data_length <= 24 ... else] block of
    [train]: (generations, validations). *)
Definition training_effort (data_length : nat) : nat * nat :=
  if data_length <=? 12 then (1, 1)
  else if data_length <=? 24 then (2, 2)
  else (3, 3).

(** The [AutoTS(...)] object built by [train]. *)
Definition primary_config (self : UniversalForecastModel) (data_length : nat)
    : AutoTSConfig :=
  let model_list := get_model_list self data_length in
  let (generations, validations) := training_effort data_length in
  mkAutoTSConfig (forecast_length self) (frequency self) (ModelSet model_list)
    (Some "simple") generations validations
    (Some "backwards") (Some true) (Some 2%Q) (Some 0) 0.

(** The [AutoTS(...)] object built by [_train_simple_fallback]. *)
Definition fallback_config (self : UniversalForecastModel) : AutoTSConfig :=
  mkAutoTSConfig (forecast_length self) (frequency self)
    (ModelNames ["LastValueNaive"; "AverageValueNaive"; "ETS"; "ARIMA"])
    None 1 1 None None None None 0.

(** The two ways [_train_simple_fallback] is called: with the raw data and
    the value column (from the exception handler of [train]), or with the
    prepared series alone. *)
Inductive FallbackArgs :=
| WithColumn (data : DataFrame) (value_column : string)
| Direct (ts_data : Series).

Section Orchestration.

(** [AutoTS(...).fit(input)], the constructor called with [cfg] *)
Variable autots_fit : AutoTSConfig -> FitInput -> FitOutcome.

(** [pd.date_range(start=start, periods=periods, freq=freq)] for a
    frequency other than 'D' and 'ME'; [None] when it raises. *)
Variable pd_date_range : Timestamp -> nat -> string -> option (list Timestamp).

(** *** [_simple_trend_forecast] *)

(** The [if len(values) < 2 ... else ...] block: the last value repeated
    ([values[-1]] raises on an empty array), or the fitted line evaluated at
    the positions after the history. *)
Definition trend_values (vals : list float) (horizon : nat) : option (list float) :=
  if List.length vals <? 2 then
    match last_item vals with
    | Some last_value => Some (repeat last_value horizon)
    | None => None
    end
  else
    let x := np_arange 0 (List.length vals) in
    let (slope, intercept) := np_polyfit1 x vals in
    let future_x := np_arange (List.length vals) (List.length vals + horizon) in
    Some (map (fun fx => fadd (fmul slope fx) intercept) future_x).

(** The [if self.frequency == 'D' ... elif ... == 'ME' ... else ...] block
    that builds the index of the forecast. *)
Definition trend_dates (freq : string) (last_date : Timestamp) (horizon : nat)
    : option (list Timestamp) :=
  if (freq =? "D")%string then
    Some (date_range_D (add_days 1 last_date) horizon)
  else if (freq =? "ME")%string then
    Some (date_range_ME (month_begin_offset last_date) horizon)
  else
    pd_date_range (add_days 30 last_date) horizon freq.

(** [pd.DataFrame(forecast_values, index=dates, columns=[...])]: raises
    when the two lengths differ. *)
Definition forecast_frame (forecast_values : list float) (dates : list Timestamp)
    : option Series :=
  if List.length forecast_values =? List.length dates
  then Some (combine dates forecast_values)
  else None.

(** Every exception raised in the body is caught by the method and turned
    into [None]; [historical_data.index[-1]] raises on an empty frame. *)
Definition _simple_trend_forecast (self : UniversalForecastModel) : option Series :=
  match historical_data self with
  | None => None
  | Some hist =>
      match trend_values (values hist) (forecast_length self) with
      | None => None
      | Some forecast_values =>
          match last_item (index hist) with
          | None => None
          | Some last_date =>
              match trend_dates (frequency self) last_date (forecast_length self) with
              | None => None
              | Some dates => forecast_frame forecast_values dates
              end
          end
      end
  end.

(** *** [_train_simple_fallback] *)

(** An exception of the fit is caught by the method, which returns
    [False]; [self.model] is assigned only when the fit returns. *)
Definition _train_simple_fallback (self : UniversalForecastModel)
    (args : FallbackArgs) : bool * UniversalForecastModel :=
  let (ts_data, self1) :=
    match args with
    | WithColumn data value_column =>
        if truthy value_column then
          match prepare_data self data value_column with
          | (Some ts, s) => (Some (Prepared ts), s)
          | (None, s) => (None, s)
          end
        else (Some (RawFrame data), self)
    | Direct ts => (Some (Prepared ts), self)
    end in
  match ts_data with
  | None => (false, self1)
  | Some input =>
      let cfg := fallback_config self1 in
      let self2 := record_fit self1 cfg input in
      match autots_fit cfg input with
      | FitRaises => (false, self2)
      | FitReturns m =>
          let self3 := set_model self2 m in
          match model_best_model_name m with
          | Some name =>
              if truthy name
              then (true, set_trained self3 (name ++ " (fallback)"))
              else (false, self3)
          | None => (false, self3)
          end
      end
  end.

(** *** [train] *)

(** The success test of the primary tier. *)
Definition primary_accepts (m : AutoTSModel) : option string :=
  match model_best_model_name m with
  | Some name =>
      if truthy name && negb (name =? "ZeroesNaive")%string then Some name else None
  | None => None
  end.

(** An exception of the primary fit sends [train] to its handler, which
    calls the fallback with the raw data and the value column; a fit that
    returns without an acceptable best model calls it with the prepared
    series. *)
Definition train (self : UniversalForecastModel) (data : DataFrame)
    (value_column : string) : bool * UniversalForecastModel :=
  match prepare_data self data value_column with
  | (None, self1) => (false, self1)
  | (Some ts_data, self1) =>
      let data_length := List.length ts_data in
      let cfg := primary_config self1 data_length in
      let self2 := record_fit self1 cfg (Prepared ts_data) in
      match autots_fit cfg (Prepared ts_data) with
      | FitRaises => _train_simple_fallback self2 (WithColumn data value_column)
      | FitReturns m =>
          let self3 := set_model self2 m in
          match primary_accepts m with
          | Some name => (true, set_trained self3 name)
          | None => _train_simple_fallback self3 (Direct ts_data)
          end
      end
  end.

(** *** [predict] *)

(** [forecast.forecast] of the prediction of the trained model when the
    prediction has that attribute, returned as it is, [None] included; the
    trend extrapolation in every other case. *)
Definition predict (self : UniversalForecastModel) : option Series :=
  match training_successful self, model self with
  | true, Some m =>
      match model_predict m with
      | PredictReturns forecast => forecast
      | _ => _simple_trend_forecast self
      end
  | _, _ => _simple_trend_forecast self
  end.

(** *** [create_forecast] *)

Definition create_forecast (data : DataFrame) (value_column : string)
    (forecast_months : nat) (model_complexity frequency : string)
    : option Series * UniversalForecastModel * bool :=
  let model := init forecast_months frequency model_complexity in
  let (success, model) := train model data value_column in
  if success then (predict model, model, true)
  else
    let forecast := _simple_trend_forecast model in
    (forecast, model, match forecast with Some _ => true | None => false end).

End Orchestration.

(** ** Reference notions used in the statements *)

(** The calendar month of a stamp, counted from year 0. *)
Definition month_index (t : Timestamp) : Z := (year t * 12 + month t - 1)%Z.

(** The stamp one calendar month after [t] in the sense of
    [t + pd.DateOffset(months=1)]: the same day of the following month,
    clamped to the length of that month. *)
Definition one_calendar_month_after (t : Timestamp) : Timestamp :=
  let n := first_of_next_month t in
  mkTimestamp (year n) (month n)
    (Z.min (day t) (days_in_month (year n) (month n))) (nanos t).

(** Ascending without repetition. *)
Definition strictly_ascending (l : list Timestamp) : Prop :=
  StronglySorted (fun a b => ts_ltb a b = true) l.

Definition no_nulls (vs : list float) : Prop :=
  Forall (fun v => isnull v = false) vs.

(** The series selected by [prepare_data] before any null is filled. *)
Definition selected_series (data : DataFrame) (value_column : string) : Series :=
  map (fun r => (row_date r, row_value r value_column))
    (sort_values (drop_duplicates (df_rows data))).

(** The series returned on success: the selected series with its nulls
    filled when it has any. *)
Definition prepared_series (data : DataFrame) (value_column : string) : Series :=
  let sel := selected_series data value_column in
  if existsb isnull (values sel) then interpolate_column sel else sel.

(** [ws] is [vs] with its nulls filled linearly and forward, the positions
    taken as equally spaced: numbers stay; a null between the nearest number
    before it (at position [p]) and the nearest number after it (at position
    [n]) becomes the point of the straight line between them; a null with a
    number before it and none after it becomes that number; a null with no
    number before it stays. *)
Definition linear_fill (vs ws : list float) : Prop :=
  List.length ws = List.length vs /\
  (forall i q, nth_error vs i = Some (Some q) -> nth_error ws i = Some (Some q)) /\
  (forall p i n u w,
      p < i < n ->
      nth_error vs p = Some (Some u) ->
      nth_error vs n = Some (Some w) ->
      (forall j, p < j < n -> nth_error vs j = Some NaN) ->
      exists q, nth_error ws i = Some (Some q) /\
                (q == u + (w - u) * (of_nat (i - p) / of_nat (n - p)))%Q) /\
  (forall p i u,
      p < i < List.length vs ->
      nth_error vs p = Some (Some u) ->
      (forall j, p < j < List.length vs -> nth_error vs j = Some NaN) ->
      nth_error ws i = Some (Some u)) /\
  (forall i, (forall j, j <= i -> nth_error vs j = Some NaN) ->
             nth_error ws i = Some NaN).

(** Equality of cells and of columns up to the value of the rationals. *)
Definition same_float (a b : float) : bool :=
  match a, b with
  | Some x, Some y => Qeq_bool x y
  | None, None => true
  | _, _ => false
  end.

Fixpoint same_floats (l1 l2 : list float) : bool :=
  match l1, l2 with
  | [], [] => true
  | a :: l1', b :: l2' => same_float a b && same_floats l1' l2'
  | _, _ => false
  end.

(** What training never changes: the horizon, the frequency, the tier. *)
Definition same_settings (a b : UniversalForecastModel) : Prop :=
  forecast_length a = forecast_length b /\
  frequency a = frequency b /\
  model_complexity a = model_complexity b.

(** The index of the forecast can be built after [last_date]: always for
    'D' and 'ME', which need no alias looked up; for another alias, when
    [pd.date_range] returns its [horizon] stamps from thirty days after
    [last_date]. *)
Definition index_can_be_built
    (pd_date_range : Timestamp -> nat -> string -> option (list Timestamp))
    (freq : string) (last_date : Timestamp) (horizon : nat) : Prop :=
  freq = "D" \/ freq = "ME" \/
  exists dates,
    pd_date_range (add_days 30 last_date) horizon freq = Some dates /\
    List.length dates = horizon.

(** [pd.date_range] raises on the alias. *)
Definition index_rejected
    (pd_date_range : Timestamp -> nat -> string -> option (list Timestamp))
    (freq : string) (last_date : Timestamp) (horizon : nat) : Prop :=
  freq <> "D" /\ freq <> "ME" /\
  pd_date_range (add_days 30 last_date) horizon freq = None.

(** The frequencies for which the index of the forecast can be built
    whatever the last date: 'D' and 'ME', which the method generates itself,
    and any other alias that [pd.date_range] accepts. *)
Definition frequency_supported
    (pd_date_range : Timestamp -> nat -> string -> option (list Timestamp))
    (freq : string) (horizon : nat) : Prop :=
  freq = "D" \/ freq = "ME" \/
  forall start, exists dates,
    pd_date_range start horizon freq = Some dates /\ List.length dates = horizon.

(** Sums and pointwise products of rationals, for the normal equations. *)
Fixpoint qsum (l : list Q) : Q :=
  match l with
  | [] => 0%Q
  | q :: tl => (q + qsum tl)%Q
  end.

Fixpoint qmul_lists (xs ys : list Q) : list Q :=
  match xs, ys with
  | x :: xs', y :: ys' => (x * y)%Q :: qmul_lists xs' ys'
  | _, _ => []
  end.

(** The points [(x, q)] of two lists lie on the line of slope [a] and
    intercept [b]. *)
Definition on_line (a b : Q) (xs qs : list Q) : Prop :=
  Forall2 (fun x q => (q == a * x + b)%Q) xs qs.

(** ** Sample inputs *)

(** A row of a frame with the columns 'price' and 'region'. *)
Definition price_row (y m d : Z) (price : float) : Row :=
  mkRow (mkTimestamp y m d 0)
    (fun c => if (c =? "price")%string then price else NaN).

Definition price_frame (rows : list Row) : DataFrame :=
  mkDataFrame ["price"; "region"] rows.

(** Six month ends on a line, given out of order and with one date
    repeated. *)
Definition six_months : DataFrame :=
  price_frame
    [ price_row 2024 3 31 (Some 120%Q); price_row 2024 1 31 (Some 100%Q);
      price_row 2024 2 29 (Some 110%Q); price_row 2024 1 31 (Some 999%Q);
      price_row 2024 4 30 (Some 130%Q); price_row 2024 5 31 (Some 140%Q);
      price_row 2024 6 30 (Some 150%Q) ].

(** Six month ends, the price of the earliest one missing. *)
Definition leading_null_frame : DataFrame :=
  price_frame
    [ price_row 2024 1 31 NaN; price_row 2024 2 29 (Some 110%Q);
      price_row 2024 3 31 (Some 120%Q); price_row 2024 4 30 (Some 130%Q);
      price_row 2024 5 31 (Some 140%Q); price_row 2024 6 30 (Some 150%Q) ].

(** Six month ends, two prices in the middle and the last one missing. *)
Definition interior_null_frame : DataFrame :=
  price_frame
    [ price_row 2024 1 31 (Some 100%Q); price_row 2024 2 29 NaN;
      price_row 2024 3 31 NaN; price_row 2024 4 30 (Some 130%Q);
      price_row 2024 5 31 (Some 140%Q); price_row 2024 6 30 NaN ].

(** Seven rows on five distinct dates. *)
Definition five_dates : DataFrame :=
  price_frame
    [ price_row 2024 1 31 (Some 100%Q); price_row 2024 2 29 (Some 110%Q);
      price_row 2024 1 31 (Some 101%Q); price_row 2024 3 31 (Some 120%Q);
      price_row 2024 4 30 (Some 130%Q); price_row 2024 2 29 (Some 111%Q);
      price_row 2024 5 31 (Some 140%Q) ].

(** AutoTS failing at every call. *)
Definition fit_always_raises (_ : AutoTSConfig) (_ : FitInput) : FitOutcome :=
  FitRaises.

(** AutoTS selecting the zero baseline from a named model set (the primary
    tier) and exponential smoothing from an explicit list of models (the
    fallback tier). *)
Definition fit_zeroes_then_ets (cfg : AutoTSConfig) (_ : FitInput) : FitOutcome :=
  match cfg_model_list cfg with
  | ModelSet _ => FitReturns (mkAutoTSModel (Some "ZeroesNaive") PredictRaises)
  | ModelNames _ => FitReturns (mkAutoTSModel (Some "ETS") PredictRaises)
  end.

(** [pd.date_range] rejecting every frequency alias handed to it. *)
Definition no_other_frequency (_ : Timestamp) (_ : nat) (_ : string)
    : option (list Timestamp) := None.

(** A model object as [create_apartment_forecast] builds it. *)
Definition fresh_model : UniversalForecastModel := init 3 "ME" "medium".

(** Six prices dated the 15th of the month. *)
Definition mid_month_frame : DataFrame :=
  price_frame
    [ price_row 2024 1 15 (Some 100%Q); price_row 2024 2 15 (Some 110%Q);
      price_row 2024 3 15 (Some 120%Q); price_row 2024 4 15 (Some 130%Q);
      price_row 2024 5 15 (Some 140%Q); price_row 2024 6 15 (Some 150%Q) ].

(** Ten month ends with the prices 100, 110, ..., 190. *)
Definition ten_months_line : Series :=
  [ (mkTimestamp 2024 1 31 0, Some 100%Q); (mkTimestamp 2024 2 29 0, Some 110%Q);
    (mkTimestamp 2024 3 31 0, Some 120%Q); (mkTimestamp 2024 4 30 0, Some 130%Q);
    (mkTimestamp 2024 5 31 0, Some 140%Q); (mkTimestamp 2024 6 30 0, Some 150%Q);
    (mkTimestamp 2024 7 31 0, Some 160%Q); (mkTimestamp 2024 8 31 0, Some 170%Q);
    (mkTimestamp 2024 9 30 0, Some 180%Q); (mkTimestamp 2024 10 31 0, Some 190%Q) ].

(** AutoTS selecting exponential smoothing at the primary tier, with a
    forecast of two periods ready. *)
Definition fit_ets_with_forecast (_ : AutoTSConfig) (_ : FitInput) : FitOutcome :=
  FitReturns
    (mkAutoTSModel (Some "ETS")
       (PredictReturns
          (Some [ (mkTimestamp 2024 7 31 0, Some 161%Q);
                  (mkTimestamp 2024 8 31 0, Some 172%Q) ]))).

(** ** The wrappers of [create_forecast] *)

(** [create_apartment_forecast]; the callers always pass the tier. *)
Definition create_apartment_forecast
    (autots_fit : AutoTSConfig -> FitInput -> FitOutcome)
    (pd_date_range : Timestamp -> nat -> string -> option (list Timestamp))
    (data : DataFrame) (forecast_months : nat) (model_complexity : string) :=
  create_forecast autots_fit pd_date_range data "price" forecast_months
    model_complexity "ME".

(** [create_salary_forecast] *)
Definition create_salary_forecast
    (autots_fit : AutoTSConfig -> FitInput -> FitOutcome)
    (pd_date_range : Timestamp -> nat -> string -> option (list Timestamp))
    (data : DataFrame) (forecast_months : nat) (model_complexity : string) :=
  create_forecast autots_fit pd_date_range data "salary" forecast_months
    model_complexity "ME".

(** The sum of the squared deviations of the points [(x, q)] from the line
    of slope [a] and intercept [b]. *)
Fixpoint squared_error (a b : Q) (xs qs : list Q) : Q :=
  match xs, qs with
  | x :: xs', q :: qs' =>
      ((q - (a * x + b)) * (q - (a * x + b)) + squared_error a b xs' qs')%Q
  | _, _ => 0%Q
  end.

(** Eight rows on six distinct month ends; the second row of 2024-02-29
    and of 2024-04-30 carries another price than the first. *)
Definition repeated_dates_frame : DataFrame :=
  price_frame
    [ price_row 2024 2 29 (Some 110%Q); price_row 2024 1 31 (Some 100%Q);
      price_row 2024 2 29 (Some 777%Q); price_row 2024 3 31 NaN;
      price_row 2024 4 30 (Some 130%Q); price_row 2024 4 30 NaN;
      price_row 2024 5 31 (Some 140%Q); price_row 2024 6 30 (Some 150%Q) ].

(** AutoTS raising at the primary tier and selecting the last-value model
    at the fallback tier. *)
Definition fit_raises_then_naive (cfg : AutoTSConfig) (_ : FitInput) : FitOutcome :=
  match cfg_model_list cfg with
  | ModelSet _ => FitRaises
  | ModelNames _ => FitReturns (mkAutoTSModel (Some "LastValueNaive") PredictRaises)
  end.

(** ** [auth.py]: the credential store and the session *)

(** A Python dict with string keys, in insertion order: assigning to a key
    that is present replaces its value in place, assigning to a new key
    appends it. *)
Fixpoint dict_get {V : Type} (key : string) (d : list (string * V)) : option V :=
  match d with
  | [] => None
  | (k, v) :: tl => if (key =? k)%string then Some v else dict_get key tl
  end.

Fixpoint dict_set {V : Type} (key : string) (value : V) (d : list (string * V))
    : list (string * V) :=
  match d with
  | [] => [(key, value)]
  | (k, v) :: tl =>
      if (key =? k)%string then (key, value) :: tl
      else (k, v) :: dict_set key value tl
  end.

Definition dict_keys {V : Type} (d : list (string * V)) : list string := map fst d.

(** The value stored for a user: [{'password': <hex digest>}]. *)
Record UserEntry := mkUserEntry { entry_password : string }.

Definition Users := list (string * UserEntry).

(** The file [users.json]: [None] when it does not exist, the object it
    holds otherwise ([json.dump] followed by [json.load] gives the object
    back). *)
Definition UsersFile := option Users.

(** [load_users] *)
Definition load_users (file : UsersFile) : Users :=
  match file with
  | Some users => users
  | None => []
  end.

Section Credentials.

(** [hashlib.sha256(s.encode()).hexdigest()] *)
Variable sha256_hexdigest : string -> string.

(** [save_user]: the file after the call. *)
Definition save_user (file : UsersFile) (username password : string) : UsersFile :=
  let users := load_users file in
  Some (dict_set username (mkUserEntry (sha256_hexdigest password)) users).

(** [authenticate] *)
Definition authenticate (file : UsersFile) (username password : string) : bool :=
  let users := load_users file in
  match dict_get username users with
  | Some entry => (entry_password entry =? sha256_hexdigest password)%string
  | None => false
  end.

End Credentials.

(** [st.session_state]: every key may be absent. *)
Record SessionState := mkSession {
  ss_authenticated : option bool;
  ss_username : option string;
  ss_tokens : option (list (string * string));
  ss_demo_redirect : option bool
}.

(** [init_session_state] *)
Definition init_session_state (ss : SessionState) : SessionState :=
  mkSession
    (match ss_authenticated ss with Some a => Some a | None => Some false end)
    (match ss_username ss with Some u => Some u | None => Some "" end)
    (match ss_tokens ss with Some t => Some t | None => Some [] end)
    (ss_demo_redirect ss).

(** What the widgets of the sidebar hold in one run of the script. *)
Record SidebarInput := mkSidebarInput {
  login_user : string;
  login_pass : string;
  login_btn : bool;
  reg_user : string;
  reg_pass : string;
  confirm_pass : string;
  reg_btn : bool;
  avito_token : string;
  hh_token : string;
  logout_btn : bool
}.

(** How a run of a function of the script ends: it returns, or
    [st.rerun()] stops the script. *)
Inductive Run (A : Type) :=
| Returns (a : A)
| Rerun.
Arguments Returns {A} a.
Arguments Rerun {A}.

Definition is_true (o : option bool) : bool :=
  match o with Some b => b | None => false end.

Definition tokens_of (ss : SessionState) : list (string * string) :=
  match ss_tokens ss with Some t => t | None => [] end.

Section Sidebar.

Variable sha256_hexdigest : string -> string.

(** The login tab. *)
Definition login_tab (w : SidebarInput) (ss : SessionState) (file : UsersFile)
    : Run unit * SessionState :=
  if login_btn w then
    if truthy (login_user w) && truthy (login_pass w) then
      if authenticate sha256_hexdigest file (login_user w) (login_pass w) then
        (Rerun,
         mkSession (Some true) (Some (login_user w)) (ss_tokens ss)
           (ss_demo_redirect ss))
      else (Returns tt, ss)
    else (Returns tt, ss)
  else (Returns tt, ss).

(** The registration tab. *)
Definition register_tab (w : SidebarInput) (file : UsersFile) : UsersFile :=
  if reg_btn w then
    if truthy (reg_user w) && truthy (reg_pass w) then
      if (reg_pass w =? confirm_pass w)%string
      then save_user sha256_hexdigest file (reg_user w) (reg_pass w)
      else file
    else file
  else file.

(** [render_auth_sidebar]: how the run ends, the session and the file
    after it. *)
Definition render_auth_sidebar (w : SidebarInput) (ss : SessionState)
    (file : UsersFile) : Run bool * SessionState * UsersFile :=
  let ss := init_session_state ss in
  if negb (is_true (ss_authenticated ss)) then
    match login_tab w ss file with
    | (Rerun, ss') => (Rerun, ss', file)
    | (Returns _, ss') =>
        let file' := register_tab w file in
        (Returns (is_true (ss_authenticated ss')), ss', file')
    end
  else
    let tokens1 :=
      if truthy (avito_token w) then dict_set "avito" (avito_token w) (tokens_of ss)
      else tokens_of ss in
    let tokens2 :=
      if truthy (hh_token w) then dict_set "hh" (hh_token w) tokens1
      else tokens1 in
    let ss1 := mkSession (ss_authenticated ss) (ss_username ss) (Some tokens2)
                 (ss_demo_redirect ss) in
    if logout_btn w then
      (Rerun, mkSession (Some false) (Some "") (Some []) (ss_demo_redirect ss), file)
    else (Returns (is_true (ss_authenticated ss1)), ss1, file).

End Sidebar.

(** A sequence of registrations, oldest first, applied to the file. *)
Definition register_all (sha256_hexdigest : string -> string) (file : UsersFile)
    (registrations : list (string * string)) : UsersFile :=
  fold_left (fun f r => save_user sha256_hexdigest f (fst r) (snd r))
    registrations file.

(** The password of the latest registration of a user name. *)
Fixpoint last_registered (username : string) (registrations : list (string * string))
    : option string :=
  match registrations with
  | [] => None
  | (u, p) :: tl =>
      match last_registered username tl with
      | Some p' => Some p'
      | None => if (username =? u)%string then Some p else None
      end
  end.

(** A digest for the examples: the text itself between two marks. *)
Definition sample_digest (s : string) : string := ("<" ++ s ++ ">")%string.

(** A session that has never run the script, and sidebar inputs with
    every field empty and no button pressed. *)
Definition new_session : SessionState := mkSession None None None None.

Definition idle_input : SidebarInput :=
  mkSidebarInput "" "" false "" "" "" false "" "" false.

Definition login_input (user pass : string) : SidebarInput :=
  mkSidebarInput user pass true "" "" "" false "" "" false.

Definition register_input (user pass confirm : string) : SidebarInput :=
  mkSidebarInput "" "" false user pass confirm true "" "" false.

(** ** [api_clients.py]: the synthetic series *)

(** A stamp whose month and day exist in the calendar. *)
Definition valid_date (t : Timestamp) : Prop :=
  (1 <= month t <= 12)%Z /\ (1 <= day t <= days_in_month (year t) (month t))%Z.

Definition last_of_previous_month (t : Timestamp) : Timestamp :=
  if (month t =? 1)%Z
  then mkTimestamp (year t - 1) 12 31 (nanos t)
  else mkTimestamp (year t) (month t - 1)
         (days_in_month (year t) (month t - 1)) (nanos t).

(** [t - timedelta(days=1)] *)
Definition previous_day (t : Timestamp) : Timestamp :=
  if (1 <? day t)%Z
  then mkTimestamp (year t) (month t) (day t - 1) (nanos t)
  else last_of_previous_month t.

(** [t - timedelta(days=n)] *)
Definition sub_days (n : nat) (t : Timestamp) : Timestamp :=
  Nat.iter n previous_day t.

Fixpoint take_while {A : Type} (p : A -> bool) (l : list A) : list A :=
  match l with
  | [] => []
  | a :: tl => if p a then a :: take_while p tl else []
  end.

(** [pd.date_range(start=..., end=..., freq='ME')]: the start rolled
    forward onto a month end, then one month end after the other for as
    long as the stamp is not after the end.  The stamps tried are bounded by
    the number of calendar months from the start to the end, which is
    enough (lemma [date_range_ME_until_complete]). *)
Definition date_range_ME_until (start stop : Timestamp) : list Timestamp :=
  take_while (fun t => ts_leb t stop)
    (generate_range month_end_offset (rollforward_month_end start)
       (Z.to_nat (month_index stop - month_index start) + 1)).

(** The first lines shared by [get_apartment_prices] and
    [get_salary_data]: the dates of the series, [now] being
    [datetime.now()]. *)
Definition synthetic_dates (now : Timestamp) (period_months : nat) : list Timestamp :=
  let min_period := Nat.max period_months 12 in
  let end_date := now in
  let start_date := sub_days (min_period * 30) end_date in
  date_range_ME_until start_date end_date.

(** A frame with one numeric column holding [drawn i] in row [i], and
    the given other numeric columns, left empty. *)
Definition synthetic_frame (column : string) (others : list string)
    (dates : list Timestamp) (drawn : nat -> Z) : DataFrame :=
  mkDataFrame (column :: others)
    (map (fun id =>
            mkRow (snd id)
              (fun c => if (c =? column)%string
                        then Some (inject_Z (drawn (fst id))) else NaN))
       (combine (seq 0 (List.length dates)) dates)).

(** [AvitoAPIClient.get_apartment_prices]: [drawn i] is the integer that
    [prices.astype(int)] holds in row [i], whatever the region, the rooms and
    the random noise made it.  The columns 'region' and 'rooms' hold text:
    they are not columns of the embedded frame. *)
Definition get_apartment_prices (now : Timestamp) (drawn : nat -> Z)
    (period_months : nat) : DataFrame :=
  synthetic_frame "price" []
    (synthetic_dates now period_months) drawn.

(** [HHAPIClient.get_salary_data]; the column 'language' holds text and
    is left out in the same way. *)
Definition get_salary_data (now : Timestamp) (drawn : nat -> Z)
    (period_months : nat) : DataFrame :=
  synthetic_frame "salary" []
    (synthetic_dates now period_months) drawn.

(** ** [app.py]: the dispatch of [main] and the two forecast pages *)

(** The three labels of the radio button of the sidebar. *)
Inductive AppMode := ApartmentsMode | SalariesMode | DemoMode.

(** What a run of [main] ends up rendering below the sidebar. *)
Inductive Page :=
| LoginPrompt          (* the invitation to log in; [main] returns *)
| AvitoTokenNeeded     (* the warning that asks for the Avito token *)
| ApartmentPage        (* [render_apartment_forecast()] *)
| HHTokenNeeded        (* the warning that asks for the HH token *)
| SalaryPage           (* [render_salary_forecast()] *)
| DemoPage.            (* [render_demo_mode()] *)

Record MainInput := mkMainInput {
  sidebar : SidebarInput;
  app_mode : AppMode;
  demo_btn : bool   (* the button under a token warning *)
}.

(** ['key' in tokens and tokens['key']], as a truth value. *)
Definition has_token (key : string) (ss : SessionState) : bool :=
  match dict_get key (tokens_of ss) with
  | Some token => truthy token
  | None => false
  end.

Definition set_demo_redirect (ss : SessionState) : SessionState :=
  mkSession (ss_authenticated ss) (ss_username ss) (ss_tokens ss) (Some true).

Section Main.

Variable sha256_hexdigest : string -> string.

(** [main]: how the run ends (the page rendered, or [st.rerun()]), the
    session and the users file after it. *)
Definition main (w : MainInput) (ss : SessionState) (file : UsersFile)
    : Run Page * SessionState * UsersFile :=
  match render_auth_sidebar sha256_hexdigest (sidebar w) ss file with
  | (Rerun, ss1, file1) => (Rerun, ss1, file1)
  | (Returns is_authenticated, ss1, file1) =>
      if negb is_authenticated then (Returns LoginPrompt, ss1, file1)
      else
        let has_avito_token := has_token "avito" ss1 in
        let has_hh_token := has_token "hh" ss1 in
        match app_mode w with
        | ApartmentsMode =>
            if negb has_avito_token then
              if demo_btn w then (Rerun, set_demo_redirect ss1, file1)
              else (Returns AvitoTokenNeeded, ss1, file1)
            else (Returns ApartmentPage, ss1, file1)
        | SalariesMode =>
            if negb has_hh_token then
              if demo_btn w then (Rerun, set_demo_redirect ss1, file1)
              else (Returns HHTokenNeeded, ss1, file1)
            else (Returns SalaryPage, ss1, file1)
        | DemoMode => (Returns DemoPage, ss1, file1)
        end
  end.

End Main.

(** The widgets of a forecast page. *)
Record PageInput := mkPageInput {
  period : nat;
  page_forecast_months : nat;
  page_model_complexity : string;
  page_btn : bool
}.

(** The branch a run of a forecast page takes; what is drawn on the
    screen in each branch is left out. *)
Inductive PageOutcome :=
| NothingRequested
| TokenWarning
| ForecastShown (forecast : Series) (trained : UniversalForecastModel)
| ForecastError.

Section Pages.

Variable autots_fit : AutoTSConfig -> FitInput -> FitOutcome.
Variable pd_date_range : Timestamp -> nat -> string -> option (list Timestamp).

(** [datetime.now()] when the client is called, and the integers of the
    generated column. *)
Variable now : Timestamp.
Variable drawn : nat -> Z.

Definition show_forecast
    (result : option Series * UniversalForecastModel * bool) : PageOutcome :=
  match result with
  | (Some forecast, trained, true) => ForecastShown forecast trained
  | _ => ForecastError
  end.

(** [render_apartment_forecast]; the client returns its frame. *)
Definition render_apartment_forecast (w : PageInput) (ss : SessionState)
    : PageOutcome :=
  if page_btn w then
    match dict_get "avito" (tokens_of ss) with
    | None => TokenWarning
    | Some _ =>
        let data := get_apartment_prices now drawn (period w) in
        show_forecast
          (create_apartment_forecast autots_fit pd_date_range data
             (page_forecast_months w) (page_model_complexity w))
    end
  else NothingRequested.

(** [render_salary_forecast] *)
Definition render_salary_forecast (w : PageInput) (ss : SessionState)
    : PageOutcome :=
  if page_btn w then
    match dict_get "hh" (tokens_of ss) with
    | None => TokenWarning
    | Some _ =>
        let data := get_salary_data now drawn (period w) in
        show_forecast
          (create_salary_forecast autots_fit pd_date_range data
             (page_forecast_months w) (page_model_complexity w))
    end
  else NothingRequested.

End Pages.

(** The token dictionary that a run of the sidebar leaves when it starts in
    an authenticated session: the typed tokens stored over the old ones. *)
Definition tokens_after (w : SidebarInput) (ss : SessionState) : list (string * string) :=
  let tokens1 :=
    if truthy (avito_token w) then dict_set "avito" (avito_token w) (tokens_of ss)
    else tokens_of ss in
  if truthy (hh_token w) then dict_set "hh" (hh_token w) tokens1 else tokens1.

(** A logged-in session with the given tokens, and the inputs of a run in
    which only the mode is chosen. *)
Definition logged_in (tokens : list (string * string)) : SessionState :=
  mkSession (Some true) (Some "anna") (Some tokens) None.

Definition choose_mode (mode : AppMode) (demo : bool) : MainInput :=
  mkMainInput idle_input mode demo.

(** ** [app.py]: the demonstration mode *)



Section DemoPage.

Variable autots_fit : AutoTSConfig -> FitInput -> FitOutcome.
Variable pd_date_range : Timestamp -> nat -> string -> option (list Timestamp).
Variable now : Timestamp.
Variable drawn : nat -> Z.


End DemoPage.

(** ** The prediction that holds no forecast *)

(** The object is trained and the prediction of its model has the attribute
    [forecast] holding [None]: what [predict] then returns. *)
Definition predicts_none (self : UniversalForecastModel) : bool :=
  training_successful self &&
  match model self with
  | Some m =>
      match model_predict m with
      | PredictReturns None => true
      | _ => false
      end
  | None => false
  end.

(** AutoTS selecting exponential smoothing at the primary tier, its
    prediction holding no forecast. *)
Definition fit_ets_without_forecast (_ : AutoTSConfig) (_ : FitInput) : FitOutcome :=
  FitReturns (mkAutoTSModel (Some "ETS") (PredictReturns None)).

(** What a page shows of a result that carries the success flag: the
    forecast, or the error message when there is none. *)
Definition shown_or_missing (outcome : PageOutcome)
    (result : option Series * UniversalForecastModel * bool) : Prop :=
  snd result = true /\
  match fst (fst result) with
  | Some forecast =>
      outcome = ForecastShown forecast (snd (fst result)) /\
      predicts_none (snd (fst result)) = false
  | None =>
      outcome = ForecastError /\ predicts_none (snd (fst result)) = true
  end.

(** * Properties *)

(** ** The library models on documented cases *)

(** The columns of the example in the pandas documentation of
    [interpolate]. *)
Example interpolate_trailing_repeats :
  same_floats (interpolate [Some 0%Q; NaN; Some 2%Q; NaN])
              [Some 0%Q; Some 1%Q; Some 2%Q; Some 2%Q] = true.
Proof. reflexivity. Qed.

Example interpolate_leading_stays :
  interpolate [NaN; Some 2%Q; Some 3%Q; Some 4%Q] = [NaN; Some 2%Q; Some 3%Q; Some 4%Q].
Proof. reflexivity. Qed.

Example interpolate_run_of_two :
  same_floats (interpolate [Some (-1)%Q; NaN; NaN; Some (-4)%Q])
              [Some (-1)%Q; Some (-2)%Q; Some (-3)%Q; Some (-4)%Q] = true.
Proof. reflexivity. Qed.

Example interpolate_midpoint :
  same_floats (interpolate [Some 1%Q; NaN; Some 9%Q; Some 16%Q])
              [Some 1%Q; Some 5%Q; Some 9%Q; Some 16%Q] = true.
Proof. reflexivity. Qed.

Example interpolate_all_null : interpolate [NaN; NaN; NaN] = [NaN; NaN; NaN].
Proof. reflexivity. Qed.

Example february_lengths :
  days_in_month 2024 2 = 29%Z /\ days_in_month 2023 2 = 28%Z /\
  days_in_month 1900 2 = 28%Z /\ days_in_month 2000 2 = 29%Z.
Proof. repeat split. Qed.

Example month_begin_from_month_end :
  month_begin_offset (mkTimestamp 2024 1 31 0) = mkTimestamp 2024 2 1 0.
Proof. reflexivity. Qed.

Example month_begin_from_month_start :
  month_begin_offset (mkTimestamp 2024 1 1 0) = mkTimestamp 2024 2 1 0.
Proof. reflexivity. Qed.

Example month_begin_over_new_year :
  month_begin_offset (mkTimestamp 2024 12 15 0) = mkTimestamp 2025 1 1 0.
Proof. reflexivity. Qed.

Example month_end_from_mid_month :
  month_end_offset (mkTimestamp 2024 1 15 0) = mkTimestamp 2024 1 31 0.
Proof. reflexivity. Qed.

Example month_end_from_month_end :
  month_end_offset (mkTimestamp 2023 2 28 0) = mkTimestamp 2023 3 31 0.
Proof. reflexivity. Qed.

Example date_range_month_ends :
  date_range_ME (mkTimestamp 2024 2 1 0) 3
  = [mkTimestamp 2024 2 29 0; mkTimestamp 2024 3 31 0; mkTimestamp 2024 4 30 0].
Proof. reflexivity. Qed.

Example date_range_month_ends_from_month_end :
  date_range_ME (mkTimestamp 2024 12 31 0) 2
  = [mkTimestamp 2024 12 31 0; mkTimestamp 2025 1 31 0].
Proof. reflexivity. Qed.

Example date_range_days :
  date_range_D (add_days 1 (mkTimestamp 2024 2 28 0)) 3
  = [mkTimestamp 2024 2 29 0; mkTimestamp 2024 3 1 0; mkTimestamp 2024 3 2 0].
Proof. reflexivity. Qed.

Example thirty_days_later :
  add_days 30 (mkTimestamp 2024 6 30 0) = mkTimestamp 2024 7 30 0.
Proof. reflexivity. Qed.

(** [np.polyfit([0, 1, 2], [1, 3, 2], 1)] is [[0.5, 1.5]]. *)
Example polyfit_three_points :
  let (slope, intercept) :=
    np_polyfit1 (np_arange 0 3) [Some 1%Q; Some 3%Q; Some 2%Q] in
  same_float slope (Some (1 # 2)%Q) && same_float intercept (Some (3 # 2)%Q) = true.
Proof. reflexivity. Qed.

Example polyfit_with_nan :
  np_polyfit1 (np_arange 0 3) [Some 1%Q; NaN; Some 2%Q] = (NaN, NaN).
Proof. reflexivity. Qed.

(** ** The methods on sample inputs *)

Example prepare_six_months :
  fst (prepare_data fresh_model six_months "price")
  = Some [ (mkTimestamp 2024 1 31 0, Some 100%Q); (mkTimestamp 2024 2 29 0, Some 110%Q);
           (mkTimestamp 2024 3 31 0, Some 120%Q); (mkTimestamp 2024 4 30 0, Some 130%Q);
           (mkTimestamp 2024 5 31 0, Some 140%Q); (mkTimestamp 2024 6 30 0, Some 150%Q) ].
Proof. reflexivity. Qed.

Example prepare_missing_column :
  prepare_data fresh_model six_months "salary" = (None, fresh_model).
Proof. reflexivity. Qed.

Example prepare_fills_interior_and_trailing :
  match fst (prepare_data fresh_model interior_null_frame "price") with
  | Some s =>
      same_floats (values s)
        [Some 100%Q; Some 110%Q; Some 120%Q; Some 130%Q; Some 140%Q; Some 140%Q]
  | None => false
  end = true.
Proof. reflexivity. Qed.

(** The primary tier succeeds and its forecast is returned as it is. *)
Example create_forecast_primary :
  match create_forecast fit_ets_with_forecast no_other_frequency six_months "price"
          2 "medium" "ME" with
  | (Some forecast, model, true) =>
      same_floats (values forecast) [Some 161%Q; Some 172%Q]
      && match best_model_name model with
         | Some name => (name =? "ETS")%string
         | None => false
         end
      && training_successful model
  | _ => false
  end = true.
Proof. reflexivity. Qed.

(** The zero baseline wins the primary tier, the fallback tier succeeds, and
    the prediction of the fallback model raises: the trend is returned. *)
Example create_forecast_fallback_then_trend :
  match create_forecast fit_zeroes_then_ets no_other_frequency six_months "price"
          3 "medium" "ME" with
  | (Some forecast, model, true) =>
      same_floats (values forecast) [Some 160%Q; Some 170%Q; Some 180%Q]
      && match best_model_name model with
         | Some name => (name =? "ETS (fallback)")%string
         | None => false
         end
      && (List.length (fit_calls model) =? 2)
  | _ => false
  end = true.
Proof. vm_compute. reflexivity. Qed.

(** Both tiers raise: the trend is returned, with the success flag. *)
Example create_forecast_trend_only :
  match create_forecast fit_always_raises no_other_frequency six_months "price"
          3 "medium" "ME" with
  | (Some forecast, model, true) =>
      same_floats (values forecast) [Some 160%Q; Some 170%Q; Some 180%Q]
      && negb (training_successful model)
      && (List.length (fit_calls model) =? 2)
  | _ => false
  end = true.
Proof. vm_compute. reflexivity. Qed.

(** A frequency alias that [pd.date_range] rejects leaves no forecast. *)
Example create_forecast_rejected_frequency :
  fst (fst (create_forecast fit_always_raises no_other_frequency six_months "price"
              3 "medium" "fortnight")) = None.
Proof. vm_compute. reflexivity. Qed.

(** ** The order on timestamps *)

Lemma ts_compare_eq (a b : Timestamp) : ts_compare a b = Eq <-> a = b.
Proof.
  destruct a as [ya ma da na], b as [yb mb db nb]; unfold ts_compare; simpl.
  split.
  - destruct (Z.compare_spec ya yb); try discriminate.
    destruct (Z.compare_spec ma mb); try discriminate.
    destruct (Z.compare_spec da db); try discriminate.
    destruct (Z.compare_spec na nb); try discriminate.
    intros _; congruence.
  - intros E; injection E as -> -> -> ->.
    now rewrite !Z.compare_refl.
Qed.

Lemma ts_eqb_eq (a b : Timestamp) : ts_eqb a b = true <-> a = b.
Proof.
  unfold ts_eqb. rewrite <- ts_compare_eq.
  destruct (ts_compare a b); split; congruence.
Qed.

Lemma ts_compare_antisym (a b : Timestamp) :
  ts_compare b a = CompOpp (ts_compare a b).
Proof.
  destruct a as [ya ma da na], b as [yb mb db nb]; unfold ts_compare; simpl.
  rewrite (Z.compare_antisym ya yb), (Z.compare_antisym ma mb),
    (Z.compare_antisym da db), (Z.compare_antisym na nb).
  destruct (ya ?= yb)%Z, (ma ?= mb)%Z, (da ?= db)%Z, (na ?= nb)%Z; reflexivity.
Qed.

Lemma ts_leb_total (a b : Timestamp) : ts_leb a b = false -> ts_ltb b a = true.
Proof.
  unfold ts_leb, ts_ltb. rewrite (ts_compare_antisym a b).
  destruct (ts_compare a b); simpl; congruence.
Qed.

Lemma ts_leb_neq_ltb (a b : Timestamp) :
  ts_leb a b = true -> a <> b -> ts_ltb a b = true.
Proof.
  unfold ts_leb, ts_ltb. intros L N.
  destruct (ts_compare a b) eqn:E; try congruence.
  apply ts_compare_eq in E. contradiction.
Qed.

Lemma ts_ltb_leb (a b : Timestamp) : ts_ltb a b = true -> ts_leb a b = true.
Proof.
  unfold ts_leb, ts_ltb. destruct (ts_compare a b); congruence.
Qed.

Lemma ts_ltb_irrefl (a : Timestamp) : ts_ltb a a = false.
Proof.
  unfold ts_ltb. now rewrite (proj2 (ts_compare_eq a a) eq_refl).
Qed.

Lemma ts_ltb_asym (a b : Timestamp) : ts_ltb a b = true -> ts_leb b a = false.
Proof.
  unfold ts_leb, ts_ltb. rewrite (ts_compare_antisym a b).
  destruct (ts_compare a b); simpl; congruence.
Qed.

Lemma ts_ltb_trans (a b c : Timestamp) :
  ts_ltb a b = true -> ts_ltb b c = true -> ts_ltb a c = true.
Proof.
  destruct a as [ya ma da na], b as [yb mb db nb], c as [yc mc dc nc].
  unfold ts_ltb, ts_compare; simpl.
  destruct (Z.compare_spec ya yb), (Z.compare_spec yb yc),
    (Z.compare_spec ma mb), (Z.compare_spec mb mc),
    (Z.compare_spec da db), (Z.compare_spec db dc),
    (Z.compare_spec na nb), (Z.compare_spec nb nc);
    try discriminate; intros _ _;
    repeat match goal with
    | |- context [(?x ?= ?y)%Z] => destruct (Z.compare_spec x y)
    end; try reflexivity; lia.
Qed.

(** ** Deduplication and sorting *)

Lemma seen_spec (d : Timestamp) (seen : list Timestamp) :
  existsb (ts_eqb d) seen = true <-> In d seen.
Proof.
  rewrite existsb_exists. split.
  - intros [x [Hin Heq]]. apply ts_eqb_eq in Heq. now subst.
  - intros Hin. exists d. split; [assumption | now apply ts_eqb_eq].
Qed.

Lemma drop_duplicates_seen_fresh (rows : list Row) :
  forall seen r, In r (drop_duplicates_seen seen rows) -> ~ In (row_date r) seen.
Proof.
  induction rows as [|r0 tl IH]; simpl; intros seen r Hin; [contradiction|].
  destruct (existsb (ts_eqb (row_date r0)) seen) eqn:E.
  - now apply IH.
  - destruct Hin as [<- | Hin].
    + rewrite <- seen_spec. congruence.
    + intros Hs. apply (IH _ _ Hin). now right.
Qed.

Lemma drop_duplicates_seen_NoDup (rows : list Row) :
  forall seen, NoDup (map row_date (drop_duplicates_seen seen rows)).
Proof.
  induction rows as [|r0 tl IH]; simpl; intros seen; [constructor|].
  destruct (existsb (ts_eqb (row_date r0)) seen); [apply IH|].
  simpl. constructor; [|apply IH].
  rewrite in_map_iff. intros [r [Hd Hin]].
  apply drop_duplicates_seen_fresh in Hin. apply Hin. left. congruence.
Qed.

Lemma drop_duplicates_seen_In (rows : list Row) :
  forall seen r, In r (drop_duplicates_seen seen rows) -> In r rows.
Proof.
  induction rows as [|r0 tl IH]; simpl; intros seen r Hin; [assumption|].
  destruct (existsb (ts_eqb (row_date r0)) seen).
  - right. eapply IH; eassumption.
  - destruct Hin as [-> | Hin]; [now left | right; eapply IH; eassumption].
Qed.

(** Every date of the raw rows survives deduplication. *)
Lemma drop_duplicates_seen_dates (rows : list Row) :
  forall seen r, In r rows -> ~ In (row_date r) seen ->
    In (row_date r) (map row_date (drop_duplicates_seen seen rows)).
Proof.
  induction rows as [|r0 tl IH]; simpl; intros seen r Hin Hs; [contradiction|].
  destruct (existsb (ts_eqb (row_date r0)) seen) eqn:E.
  - destruct Hin as [-> | Hin].
    + apply seen_spec in E. contradiction.
    + now apply IH.
  - simpl. destruct Hin as [-> | Hin]; [now left|].
    destruct (ts_eqb (row_date r0) (row_date r)) eqn:Eq.
    + left. now apply ts_eqb_eq.
    + right. apply IH; [assumption|].
      intros [H | H]; [|contradiction].
      apply ts_eqb_eq in H. congruence.
Qed.

Lemma insert_row_perm (r : Row) (rows : list Row) :
  Permutation (r :: rows) (insert_row r rows).
Proof.
  induction rows as [|r' tl IH]; simpl; [reflexivity|].
  destruct (ts_leb (row_date r) (row_date r')); [reflexivity|].
  rewrite perm_swap. now constructor.
Qed.

Lemma sort_values_perm (rows : list Row) : Permutation rows (sort_values rows).
Proof.
  induction rows as [|r tl IH]; simpl; [constructor|].
  rewrite <- insert_row_perm. now constructor.
Qed.

Lemma sort_values_length (rows : list Row) :
  List.length (sort_values rows) = List.length rows.
Proof. symmetry. apply Permutation_length, sort_values_perm. Qed.

Lemma insert_row_ascending (r : Row) (rows : list Row) :
  strictly_ascending (map row_date rows) ->
  ~ In (row_date r) (map row_date rows) ->
  strictly_ascending (map row_date (insert_row r rows)).
Proof.
  unfold strictly_ascending.
  induction rows as [|r' tl IH]; simpl; intros Hs Hn.
  - repeat constructor.
  - inversion Hs as [|? ? Hs' Hall]; subst.
    destruct (ts_leb (row_date r) (row_date r')) eqn:E; simpl.
    + assert (Hlt : ts_ltb (row_date r) (row_date r') = true).
      { apply ts_leb_neq_ltb; [assumption|]. intros Heq. apply Hn. now left. }
      constructor; [assumption|].
      constructor; [assumption|].
      eapply Forall_impl; [|exact Hall].
      intros t Ht. simpl in Ht. eapply ts_ltb_trans; eassumption.
    + constructor.
      * apply IH; [assumption|]. intros Hin. apply Hn. now right.
      * apply ts_leb_total in E.
        rewrite Forall_forall in *. intros t Ht.
        apply in_map_iff in Ht. destruct Ht as [x [<- Hx]].
        apply (Permutation_in _ (Permutation_sym (insert_row_perm r tl))) in Hx.
        destruct Hx as [<- | Hx]; [assumption|].
        apply Hall. now apply in_map.
Qed.

Lemma sort_values_ascending (rows : list Row) :
  NoDup (map row_date rows) ->
  strictly_ascending (map row_date (sort_values rows)).
Proof.
  induction rows as [|r tl IH]; simpl; intros Hnd.
  - constructor.
  - inversion Hnd as [|? ? Hn Hnd']; subst.
    apply insert_row_ascending; [now apply IH|].
    intros Hin. apply Hn.
    eapply Permutation_in; [|exact Hin].
    apply Permutation_map, Permutation_sym, sort_values_perm.
Qed.

Lemma strictly_ascending_NoDup (l : list Timestamp) :
  strictly_ascending l -> NoDup l.
Proof.
  unfold strictly_ascending. induction 1 as [|a l Hs IH Hall]; constructor; [|assumption].
  intros Hin. rewrite Forall_forall in Hall.
  specialize (Hall _ Hin). rewrite ts_ltb_irrefl in Hall. discriminate.
Qed.

(** ** Interpolation *)

Lemma interpolate_after_length (vs : list float) :
  forall prev gap, List.length (interpolate_after prev gap vs) = List.length vs.
Proof.
  induction vs as [|[v|] tl IH]; simpl; intros; [reflexivity| |]; now rewrite IH.
Qed.

Lemma interpolate_length (vs : list float) :
  List.length (interpolate vs) = List.length vs.
Proof.
  induction vs as [|[v|] tl IH]; simpl; [reflexivity| |].
  - now rewrite interpolate_after_length.
  - now rewrite IH.
Qed.

Lemma interpolate_after_no_nulls (vs : list float) :
  forall prev gap, no_nulls (interpolate_after prev gap vs).
Proof.
  unfold no_nulls.
  induction vs as [|[v|] tl IH]; simpl; intros prev gap.
  - constructor.
  - constructor; [reflexivity | apply IH].
  - constructor; [|apply IH].
    destruct (next_valid tl) as [[k next]|]; reflexivity.
Qed.

(** Numbers are kept where they are. *)
Lemma interpolate_after_keeps (vs : list float) :
  forall prev gap i q,
    nth_error vs i = Some (Some q) ->
    nth_error (interpolate_after prev gap vs) i = Some (Some q).
Proof.
  induction vs as [|[v|] tl IH]; intros prev gap [|i] q H; simpl in *;
    try discriminate; try assumption; now apply IH.
Qed.

Lemma interpolate_keeps (vs : list float) (i : nat) (q : Q) :
  nth_error vs i = Some (Some q) ->
  nth_error (interpolate vs) i = Some (Some q).
Proof.
  revert i. induction vs as [|[v|] tl IH]; intros [|i] H; simpl in *;
    try discriminate; try assumption.
  - now apply interpolate_after_keeps.
  - now apply IH.
Qed.

Lemma interpolate_identity (vs : list float) :
  existsb isnull vs = false -> interpolate vs = vs.
Proof.
  assert (Hafter : forall l prev gap,
             existsb isnull l = false -> interpolate_after prev gap l = l).
  { induction l as [|[v|] tl IH]; simpl; intros; try discriminate;
      [reflexivity | f_equal; now apply IH]. }
  destruct vs as [|[v|] tl]; simpl; intros H; try discriminate;
    [reflexivity | f_equal; now apply Hafter].
Qed.

Lemma combine_index_values (s : Series) : combine (index s) (values s) = s.
Proof.
  unfold index, values. induction s as [|[t v] tl IH]; simpl; [reflexivity|].
  now rewrite IH.
Qed.

Lemma index_interpolate_column (s : Series) : index (interpolate_column s) = index s.
Proof.
  unfold interpolate_column, index.
  assert (H : forall (a : list Timestamp) (b : list float),
             List.length a = List.length b -> map fst (combine a b) = a).
  { induction a as [|x a IH]; intros [|y b] Hl; simpl in *; try discriminate;
      [reflexivity | f_equal; apply IH; lia]. }
  apply H. unfold values. now rewrite interpolate_length, !length_map.
Qed.

Lemma values_interpolate_column (s : Series) :
  values (interpolate_column s) = interpolate (values s).
Proof.
  unfold interpolate_column, values at 1.
  assert (H : forall (a : list Timestamp) (b : list float),
             List.length a = List.length b -> map snd (combine a b) = b).
  { induction a as [|x a IH]; intros [|y b] Hl; simpl in *; try discriminate;
      [reflexivity | f_equal; apply IH; lia]. }
  apply H. unfold index, values. now rewrite interpolate_length, !length_map.
Qed.

(** ** [prepare_data] *)

Lemma prepare_data_cases (self : UniversalForecastModel) (data : DataFrame)
    (value_column : string) :
  (prepare_data self data value_column = (None, self) /\
   (List.length (drop_duplicates (df_rows data)) < 6 \/
    existsb (String.eqb value_column) (df_columns data) = false)) \/
  (prepare_data self data value_column =
     (Some (prepared_series data value_column),
      set_historical_data self (selected_series data value_column)) /\
   6 <= List.length (drop_duplicates (df_rows data)) /\
   existsb (String.eqb value_column) (df_columns data) = true).
Proof.
  unfold prepare_data, prepared_series, selected_series.
  rewrite sort_values_length.
  destruct (Nat.ltb_spec (List.length (drop_duplicates (df_rows data))) 6) as [Hlt|Hge].
  - left. split; [reflexivity | now left].
  - destruct (existsb (String.eqb value_column) (df_columns data)); simpl.
    + right. split; [|split; [assumption | reflexivity]].
      now destruct (existsb isnull _).
    + left. split; [reflexivity | now right].
Qed.

Lemma prepare_data_success (self self' : UniversalForecastModel) (data : DataFrame)
    (value_column : string) (s : Series) :
  prepare_data self data value_column = (Some s, self') ->
  s = prepared_series data value_column /\
  self' = set_historical_data self (selected_series data value_column) /\
  6 <= List.length (drop_duplicates (df_rows data)) /\
  existsb (String.eqb value_column) (df_columns data) = true.
Proof.
  intros H.
  destruct (prepare_data_cases self data value_column) as [[E _] | [E [Hl Hc]]];
    rewrite E in H; [discriminate|].
  injection H as <- <-. auto.
Qed.

Lemma selected_series_length (data : DataFrame) (value_column : string) :
  List.length (selected_series data value_column) =
  List.length (drop_duplicates (df_rows data)).
Proof.
  unfold selected_series. now rewrite length_map, sort_values_length.
Qed.

Lemma index_selected_series (data : DataFrame) (value_column : string) :
  index (selected_series data value_column) =
  map row_date (sort_values (drop_duplicates (df_rows data))).
Proof.
  unfold index, selected_series. rewrite map_map. reflexivity.
Qed.

Lemma index_prepared_series (data : DataFrame) (value_column : string) :
  index (prepared_series data value_column) =
  index (selected_series data value_column).
Proof.
  unfold prepared_series.
  destruct (existsb isnull _); [apply index_interpolate_column | reflexivity].
Qed.

Lemma prepared_series_length (data : DataFrame) (value_column : string) :
  List.length (prepared_series data value_column) =
  List.length (drop_duplicates (df_rows data)).
Proof.
  rewrite <- (selected_series_length data value_column).
  rewrite <- (length_map fst (prepared_series data value_column)).
  rewrite <- (length_map fst (selected_series data value_column)).
  change (List.length (index (prepared_series data value_column)) =
          List.length (index (selected_series data value_column))).
  now rewrite index_prepared_series.
Qed.

(** *** [interpolate] is the linear fill *)

Lemma next_valid_found (k : nat) :
  forall (l : list float) (w : Q),
    (forall j, j < k -> nth_error l j = Some NaN) ->
    nth_error l k = Some (Some w) ->
    next_valid l = Some (k, w).
Proof.
  induction k as [|k IH]; intros l w Hnull Hk.
  - destruct l as [|[v|] tl]; simpl in *; congruence.
  - destruct l as [|[v|] tl]; simpl in Hk; [discriminate | |].
    + specialize (Hnull 0 ltac:(lia)). discriminate Hnull.
    + simpl. rewrite (IH tl w); [reflexivity | | exact Hk].
      intros j Hj. apply (Hnull (S j)). lia.
Qed.

Lemma next_valid_absent (l : list float) :
  (forall j, j < List.length l -> nth_error l j = Some NaN) ->
  next_valid l = None.
Proof.
  induction l as [|[v|] tl IH]; intros Hnull; [reflexivity | |].
  - specialize (Hnull 0 ltac:(simpl; lia)). discriminate Hnull.
  - simpl. rewrite IH; [reflexivity|].
    intros j Hj. apply (Hnull (S j)). simpl. lia.
Qed.

(** Inside a run of nulls that follows the number [prev]. *)
Lemma interpolate_after_in_run (i : nat) :
  forall (vs : list float) (prev : Q) (gap : nat),
    (forall j, j <= i -> nth_error vs j = Some NaN) ->
    nth_error (interpolate_after prev gap vs) i =
    Some (match next_valid (skipn (S i) vs) with
          | Some (k, next) =>
              Some (prev + (next - prev)
                           * (of_nat (S (gap + i)) / of_nat (S (gap + i) + S k)))%Q
          | None => Some prev
          end).
Proof.
  induction i as [|i IH]; intros vs prev gap Hnull.
  - pose proof (Hnull 0 (le_n 0)) as H0.
    destruct vs as [|[v|] tl]; simpl in H0; try discriminate.
    simpl. rewrite Nat.add_0_r. reflexivity.
  - pose proof (Hnull 0 ltac:(lia)) as H0.
    destruct vs as [|[v|] tl]; simpl in H0; try discriminate.
    simpl nth_error. rewrite IH.
    + replace (S gap + i) with (gap + S i) by lia. reflexivity.
    + intros j Hj. apply (Hnull (S j)). lia.
Qed.

(** After a number, the fill starts afresh from it. *)
Lemma interpolate_after_restart (p : nat) :
  forall (vs : list float) (prev : Q) (gap : nat) (u : Q) (i : nat),
    nth_error vs p = Some (Some u) ->
    nth_error (interpolate_after prev gap vs) (S p + i) =
    nth_error (interpolate_after u 0 (skipn (S p) vs)) i.
Proof.
  induction p as [|p IH]; intros vs prev gap u i Hp.
  - destruct vs as [|[v|] tl]; simpl in Hp; try discriminate.
    injection Hp as ->. reflexivity.
  - destruct vs as [|[v|] tl]; simpl in Hp; [discriminate | |].
    + simpl. apply (IH tl v 0 u i Hp).
    + simpl. apply (IH tl prev (S gap) u i Hp).
Qed.

Lemma interpolate_restart (p : nat) :
  forall (vs : list float) (u : Q) (i : nat),
    nth_error vs p = Some (Some u) ->
    nth_error (interpolate vs) (S p + i) =
    nth_error (interpolate_after u 0 (skipn (S p) vs)) i.
Proof.
  induction p as [|p IH]; intros vs u i Hp.
  - destruct vs as [|[v|] tl]; simpl in Hp; try discriminate.
    injection Hp as ->. reflexivity.
  - destruct vs as [|[v|] tl]; simpl in Hp; [discriminate | |].
    + simpl. apply (interpolate_after_restart p tl v 0 u i Hp).
    + simpl. apply (IH tl u i Hp).
Qed.

Lemma interpolate_leading (i : nat) :
  forall vs : list float,
    (forall j, j <= i -> nth_error vs j = Some NaN) ->
    nth_error (interpolate vs) i = Some NaN.
Proof.
  induction i as [|i IH]; intros vs Hnull.
  - pose proof (Hnull 0 (le_n 0)) as H0.
    destruct vs as [|[v|] tl]; simpl in H0; try discriminate. reflexivity.
  - pose proof (Hnull 0 ltac:(lia)) as H0.
    destruct vs as [|[v|] tl]; simpl in H0; try discriminate.
    simpl. apply IH. intros j Hj. apply (Hnull (S j)). lia.
Qed.

Lemma interpolate_linear_fill (vs : list float) : linear_fill vs (interpolate vs).
Proof.
  unfold linear_fill.
  split; [apply interpolate_length|].
  split; [intros i q; apply interpolate_keeps|].
  split; [|split].
  - intros p i n u w [Hpi Hin] Hp Hn Hnull.
    assert (Hi : nth_error (interpolate vs) i
                 = nth_error (interpolate_after u 0 (skipn (S p) vs)) (i - S p)).
    { rewrite <- (interpolate_restart p vs u _ Hp). f_equal. lia. }
    rewrite Hi, interpolate_after_in_run.
    + rewrite (next_valid_found (n - S i) _ w).
      * eexists. split; [reflexivity|].
        replace (S (0 + (i - S p))) with (i - p) by lia.
        replace (i - p + S (n - S i)) with (n - p) by lia.
        reflexivity.
      * intros j Hj. rewrite !nth_error_skipn. apply Hnull. lia.
      * rewrite !nth_error_skipn. rewrite <- Hn. f_equal. lia.
    + intros j Hj. rewrite nth_error_skipn. apply Hnull. lia.
  - intros p i u [Hpi Hil] Hp Hnull.
    assert (Hi : nth_error (interpolate vs) i
                 = nth_error (interpolate_after u 0 (skipn (S p) vs)) (i - S p)).
    { rewrite <- (interpolate_restart p vs u _ Hp). f_equal. lia. }
    rewrite Hi, interpolate_after_in_run.
    + rewrite next_valid_absent; [reflexivity|].
      intros j Hj. rewrite !length_skipn in Hj.
      rewrite !nth_error_skipn. apply Hnull. lia.
    + intros j Hj. rewrite nth_error_skipn. apply Hnull. lia.
  - intros i Hnull. now apply interpolate_leading.
Qed.

(** The values of the prepared series are the linear fill of the selected
    ones, whether or not [prepare_data] finds a null to fill. *)
Lemma values_prepared_series (data : DataFrame) (value_column : string) :
  values (prepared_series data value_column)
  = interpolate (values (selected_series data value_column)).
Proof.
  unfold prepared_series.
  destruct (existsb isnull (values (selected_series data value_column))) eqn:E.
  - apply values_interpolate_column.
  - symmetry. now apply interpolate_identity.
Qed.

(** ** State invariants of the training tiers *)

Section TrainInvariant.

Variable autots_fit : AutoTSConfig -> FitInput -> FitOutcome.

Lemma prepare_data_settings self data value_column :
  same_settings self (snd (prepare_data self data value_column)).
Proof.
  destruct (prepare_data_cases self data value_column) as [[E _] | [E _]];
    rewrite E; simpl; repeat split.
Qed.

Lemma fallback_settings self args :
  same_settings self (snd (_train_simple_fallback autots_fit self args)).
Proof.
  unfold _train_simple_fallback.
  destruct args as [data value_column | ts].
  - destruct (truthy value_column).
    + pose proof (prepare_data_settings self data value_column) as Hs.
      destruct (prepare_data self data value_column) as [[ts|] s]; simpl in *;
        [|exact Hs].
      destruct (autots_fit _ _) as [|m]; simpl; [exact Hs|].
      destruct (model_best_model_name m) as [name|]; [|exact Hs].
      destruct (truthy name); exact Hs.
    + destruct (autots_fit _ _) as [|m]; simpl; [repeat split|].
      destruct (model_best_model_name m) as [name|]; [|repeat split].
      destruct (truthy name); repeat split.
  - destruct (autots_fit _ _) as [|m]; simpl; [repeat split|].
    destruct (model_best_model_name m) as [name|]; [|repeat split].
    destruct (truthy name); repeat split.
Qed.

(** Once [prepare_data] has succeeded inside [train], the retained
    history is still the selected series when [train] returns. *)
Lemma train_keeps_history self data value_column s self1 :
  prepare_data self data value_column = (Some s, self1) ->
  historical_data (snd (train autots_fit self data value_column)) =
  Some (selected_series data value_column).
Proof.
  intros Hp. unfold train. rewrite Hp.
  apply prepare_data_success in Hp. destruct Hp as [-> [-> [Hl Hc]]].
  destruct (autots_fit _ _) as [|m].
  - unfold _train_simple_fallback.
    destruct (truthy value_column).
    + match goal with |- context [prepare_data ?st data value_column] =>
        destruct (prepare_data_cases st data value_column) as [[E [Hx|Hx]] | [E _]];
          [lia | congruence | rewrite E]
      end.
      destruct (autots_fit _ _) as [|m]; simpl; [reflexivity|].
      destruct (model_best_model_name m) as [name|]; [|reflexivity].
      destruct (truthy name); reflexivity.
    + destruct (autots_fit _ _) as [|m]; simpl; [reflexivity|].
      destruct (model_best_model_name m) as [name|]; [|reflexivity].
      destruct (truthy name); reflexivity.
  - destruct (primary_accepts m); [reflexivity|].
    unfold _train_simple_fallback.
    destruct (autots_fit _ _) as [|m']; simpl; [reflexivity|].
    destruct (model_best_model_name m') as [name|]; [|reflexivity].
    destruct (truthy name); reflexivity.
Qed.

Lemma train_settings self data value_column :
  same_settings self (snd (train autots_fit self data value_column)).
Proof.
  unfold train.
  pose proof (prepare_data_settings self data value_column) as Hs.
  destruct (prepare_data self data value_column) as [[ts|] self1]; simpl in Hs;
    [|exact Hs].
  destruct (autots_fit _ _) as [|m].
  - match goal with |- same_settings _ (snd (_train_simple_fallback _ ?st ?a)) =>
      pose proof (fallback_settings st a) as Hf end.
    destruct Hs as [H1 [H2 H3]], Hf as [F1 [F2 F3]]; simpl in *.
    repeat split; congruence.
  - destruct (primary_accepts m); [exact Hs|].
    match goal with |- same_settings _ (snd (_train_simple_fallback _ ?st ?a)) =>
      pose proof (fallback_settings st a) as Hf end.
    destruct Hs as [H1 [H2 H3]], Hf as [F1 [F2 F3]]; simpl in *.
    repeat split; congruence.
Qed.

End TrainInvariant.

(** ** The trend extrapolation *)

Lemma generate_range_length (step : Timestamp -> Timestamp) (periods : nat) :
  forall cur, List.length (generate_range step cur periods) = periods.
Proof.
  induction periods as [|p IH]; simpl; intros; [reflexivity | now rewrite IH].
Qed.

Lemma np_arange_length (a b : nat) : List.length (np_arange a b) = b - a.
Proof. unfold np_arange. now rewrite length_map, length_seq. Qed.

Lemma last_item_some {A : Type} (l : list A) : l <> [] -> exists a, last_item l = Some a.
Proof.
  induction l as [|x [|y tl] IH]; intros Hne; [contradiction | now exists x |].
  destruct IH as [a Ha]; [discriminate|]. exists a. exact Ha.
Qed.

Lemma trend_values_length (vals l : list float) (horizon : nat) :
  trend_values vals horizon = Some l -> List.length l = horizon.
Proof.
  unfold trend_values.
  destruct (List.length vals <? 2).
  - destruct (last_item vals); [|discriminate].
    intros H; injection H as <-. apply repeat_length.
  - destruct (np_polyfit1 _ _) as [slope intercept].
    intros H; injection H as <-.
    rewrite length_map, np_arange_length. lia.
Qed.

Lemma trend_values_some (vals : list float) (horizon : nat) :
  vals <> [] -> exists l, trend_values vals horizon = Some l.
Proof.
  intros Hne. unfold trend_values.
  destruct (List.length vals <? 2).
  - destruct (last_item_some vals Hne) as [a ->]. eauto.
  - destruct (np_polyfit1 _ _) as [slope intercept]. eauto.
Qed.

Lemma combine_length_eq {A B : Type} (a : list A) (b : list B) :
  List.length a = List.length b ->
  List.length (combine a b) = List.length a /\
  map fst (combine a b) = a /\ map snd (combine a b) = b.
Proof.
  revert b. induction a as [|x a IH]; intros [|y b] Hl; simpl in *;
    try discriminate; [auto|].
  destruct (IH b) as [H1 [H2 H3]]; [lia|].
  rewrite H1, H2, H3. auto.
Qed.

Section TrendForecast.

Variable pd_date_range : Timestamp -> nat -> string -> option (list Timestamp).

Lemma trend_dates_supported (freq : string) (horizon : nat) (last_date : Timestamp) :
  frequency_supported pd_date_range freq horizon ->
  exists dates,
    trend_dates pd_date_range freq last_date horizon = Some dates /\
    List.length dates = horizon.
Proof.
  unfold trend_dates. intros [-> | [-> | H]].
  - simpl. eexists. split; [reflexivity|]. apply generate_range_length.
  - simpl. eexists. split; [reflexivity|]. apply generate_range_length.
  - destruct (freq =? "D")%string.
    + eexists. split; [reflexivity|]. apply generate_range_length.
    + destruct (freq =? "ME")%string.
      * eexists. split; [reflexivity|]. apply generate_range_length.
      * apply H.
Qed.

(** On a non-empty history and a supported frequency the extrapolation
    returns a frame: its values are the trend values, its index the trend
    dates, its length the horizon. *)
Lemma trend_forecast_total (self : UniversalForecastModel) (hist : Series) :
  historical_data self = Some hist ->
  hist <> [] ->
  frequency_supported pd_date_range (frequency self) (forecast_length self) ->
  exists forecast forecast_values last_date dates,
    _simple_trend_forecast pd_date_range self = Some forecast /\
    trend_values (values hist) (forecast_length self) = Some forecast_values /\
    last_item (index hist) = Some last_date /\
    trend_dates pd_date_range (frequency self) last_date (forecast_length self)
      = Some dates /\
    List.length forecast = forecast_length self /\
    index forecast = dates /\
    values forecast = forecast_values.
Proof.
  intros Hh Hne Hf. unfold _simple_trend_forecast. rewrite Hh.
  destruct (trend_values_some (values hist) (forecast_length self)) as [fv Hfv].
  { destruct hist; [contradiction | discriminate]. }
  destruct (last_item_some (index hist)) as [last Hlast].
  { destruct hist; [contradiction | discriminate]. }
  destruct (trend_dates_supported _ _ last Hf) as [dates [Hd Hlen]].
  rewrite Hfv, Hlast, Hd.
  pose proof (trend_values_length _ _ _ Hfv) as Hfl.
  unfold forecast_frame.
  assert (E : List.length fv = List.length dates) by congruence.
  rewrite (proj2 (Nat.eqb_eq _ _) E).
  destruct (combine_length_eq dates fv (eq_sym E)) as [C1 [C2 C3]].
  exists (combine dates fv), fv, last, dates.
  repeat split; try reflexivity; try assumption. congruence.
Qed.

Lemma trend_dates_built (freq : string) (horizon : nat) (last_date : Timestamp) :
  index_can_be_built pd_date_range freq last_date horizon ->
  exists dates,
    trend_dates pd_date_range freq last_date horizon = Some dates /\
    List.length dates = horizon.
Proof.
  unfold trend_dates. intros [-> | [-> | H]].
  - simpl. eexists. split; [reflexivity|]. apply generate_range_length.
  - simpl. eexists. split; [reflexivity|]. apply generate_range_length.
  - destruct (freq =? "D")%string.
    + eexists. split; [reflexivity|]. apply generate_range_length.
    + destruct (freq =? "ME")%string.
      * eexists. split; [reflexivity|]. apply generate_range_length.
      * exact H.
Qed.

Lemma trend_dates_rejected (freq : string) (horizon : nat) (last_date : Timestamp) :
  index_rejected pd_date_range freq last_date horizon ->
  trend_dates pd_date_range freq last_date horizon = None.
Proof.
  intros [HD [HME Hnone]]. unfold trend_dates.
  apply String.eqb_neq in HD, HME. now rewrite HD, HME.
Qed.

(** The extrapolation on a history with a last date: a frame of the length
    of the horizon when the index can be built, nothing when the alias is
    rejected. *)
Lemma trend_forecast_built (self : UniversalForecastModel) (hist : Series)
    (last_date : Timestamp) :
  historical_data self = Some hist ->
  last_item (index hist) = Some last_date ->
  index_can_be_built pd_date_range (frequency self) last_date (forecast_length self) ->
  exists forecast forecast_values dates,
    _simple_trend_forecast pd_date_range self = Some forecast /\
    trend_values (values hist) (forecast_length self) = Some forecast_values /\
    trend_dates pd_date_range (frequency self) last_date (forecast_length self)
      = Some dates /\
    List.length forecast = forecast_length self /\
    index forecast = dates /\
    values forecast = forecast_values.
Proof.
  intros Hh Hlast Hf. unfold _simple_trend_forecast. rewrite Hh.
  destruct (trend_values_some (values hist) (forecast_length self)) as [fv Hfv].
  { destruct hist; [discriminate Hlast | discriminate]. }
  destruct (trend_dates_built _ _ last_date Hf) as [dates [Hd Hlen]].
  rewrite Hfv, Hlast, Hd.
  pose proof (trend_values_length _ _ _ Hfv) as Hfl.
  unfold forecast_frame.
  assert (E : List.length fv = List.length dates) by congruence.
  rewrite (proj2 (Nat.eqb_eq _ _) E).
  destruct (combine_length_eq dates fv (eq_sym E)) as [C1 [C2 C3]].
  exists (combine dates fv), fv, dates.
  repeat split; try reflexivity; try assumption. congruence.
Qed.

Lemma trend_forecast_rejected (self : UniversalForecastModel) (hist : Series)
    (last_date : Timestamp) :
  historical_data self = Some hist ->
  last_item (index hist) = Some last_date ->
  index_rejected pd_date_range (frequency self) last_date (forecast_length self) ->
  _simple_trend_forecast pd_date_range self = None.
Proof.
  intros Hh Hlast Hr. unfold _simple_trend_forecast. rewrite Hh, Hlast.
  rewrite (trend_dates_rejected _ _ _ Hr).
  now destruct (trend_values _ _).
Qed.

End TrendForecast.

(** ** Rejection of short series *)

(** C4: a raw series with fewer than 6 rows after deduplication of its
    dates is rejected by [prepare_data] with [None], whatever the state, the
    column and the libraries; [train] then returns [False] with the object
    unchanged, so no [AutoTS] fit has been called, and [create_forecast]
    returns no forecast and no success. *)
Theorem short_series_rejected
    (autots_fit : AutoTSConfig -> FitInput -> FitOutcome)
    (pd_date_range : Timestamp -> nat -> string -> option (list Timestamp))
    (self : UniversalForecastModel) (data : DataFrame) (value_column : string)
    (forecast_months : nat) (model_complexity frequency : string) :
  List.length (drop_duplicates (df_rows data)) < 6 ->
  prepare_data self data value_column = (None, self) /\
  train autots_fit self data value_column = (false, self) /\
  fit_calls (snd (train autots_fit self data value_column)) = fit_calls self /\
  create_forecast autots_fit pd_date_range data value_column
      forecast_months model_complexity frequency
    = (None, init forecast_months frequency model_complexity, false).
Proof.
  intros Hlt.
  assert (Hp : forall s, prepare_data s data value_column = (None, s)).
  { intros s. destruct (prepare_data_cases s data value_column) as [[E _] | [_ [Hl _]]];
      [exact E | lia]. }
  assert (Ht : forall s, train autots_fit s data value_column = (false, s)).
  { intros s. unfold train. now rewrite Hp. }
  repeat split.
  - apply Hp.
  - apply Ht.
  - now rewrite Ht.
  - unfold create_forecast. rewrite Ht. reflexivity.
Qed.

Lemma short_series_rejected_witness :
  List.length (drop_duplicates (df_rows five_dates)) < 6 /\
  train fit_zeroes_then_ets fresh_model five_dates "price" = (false, fresh_model).
Proof.
  split.
  - vm_compute. lia.
  - apply (short_series_rejected fit_zeroes_then_ets no_other_frequency
             fresh_model five_dates "price" 3 "medium" "ME").
    vm_compute. lia.
Defined.

(** ** The last tier *)

(** C1, as the code has it: when data preparation succeeds and [train]
    nevertheless returns [False] (the primary tier and the fallback tier
    have both failed), the object holds the selected series as its history,
    and what [create_forecast] returns is decided by the index of the
    forecast.  When the index can be built after the last date of the
    history (always for 'D' and 'ME', for another alias when [pd.date_range]
    accepts it), [create_forecast] returns a forecast and the success flag:
    the frame that [_simple_trend_forecast] builds from the retained
    history, its values the trend values of the selected series, its length
    the requested horizon.  When [pd.date_range] raises on the alias, the
    handler of [_simple_trend_forecast] returns [None], and
    [create_forecast] returns no forecast and no success. *)
Theorem trend_forecast_after_failed_tiers
    (autots_fit : AutoTSConfig -> FitInput -> FitOutcome)
    (pd_date_range : Timestamp -> nat -> string -> option (list Timestamp))
    (data : DataFrame) (value_column : string)
    (forecast_months : nat) (model_complexity frequency : string) :
  fst (prepare_data (init forecast_months frequency model_complexity)
         data value_column) <> None ->
  fst (train autots_fit (init forecast_months frequency model_complexity)
         data value_column) = false ->
  let result := create_forecast autots_fit pd_date_range data value_column
                  forecast_months model_complexity frequency in
  exists last_date model,
    snd (fst result) = model /\
    historical_data model = Some (selected_series data value_column) /\
    last_item (index (selected_series data value_column)) = Some last_date /\
    (index_can_be_built pd_date_range frequency last_date forecast_months ->
     exists forecast,
       result = (Some forecast, model, true) /\
       List.length forecast = forecast_months /\
       _simple_trend_forecast pd_date_range model = Some forecast /\
       trend_values (values (selected_series data value_column)) forecast_months
         = Some (values forecast)) /\
    (index_rejected pd_date_range frequency last_date forecast_months ->
     result = (None, model, false)).
Proof.
  intros Hprep Hfail. cbv zeta.
  set (self := init forecast_months frequency model_complexity) in *.
  destruct (prepare_data_cases self data value_column) as [[E _] | [E [Hlen _]]].
  { rewrite E in Hprep. now contradiction Hprep. }
  pose proof (train_keeps_history autots_fit _ _ _ _ _ E) as Hhist.
  pose proof (train_settings autots_fit self data value_column) as [Hfl [Hfr _]].
  unfold create_forecast. fold self.
  destruct (train autots_fit self data value_column) as [success model] eqn:Et.
  simpl in Hfail, Hhist, Hfl, Hfr. subst success.
  destruct (last_item_some (index (selected_series data value_column)))
    as [last_date Hlast].
  { pose proof (selected_series_length data value_column) as L.
    destruct (selected_series data value_column); [simpl in L; lia | discriminate]. }
  exists last_date, model.
  split; [now destruct (_simple_trend_forecast pd_date_range model)|].
  split; [exact Hhist|]. split; [exact Hlast|]. split.
  - intros Hbuilt.
    destruct (trend_forecast_built pd_date_range model _ last_date Hhist Hlast)
      as [forecast [fv [dates [Hf [Hv [_ [Hl [_ Hvals]]]]]]]].
    { rewrite <- Hfl, <- Hfr. exact Hbuilt. }
    exists forecast. rewrite Hf.
    repeat split; try assumption.
    + rewrite Hl, <- Hfl. reflexivity.
    + rewrite Hvals. rewrite <- Hfl in Hv. exact Hv.
  - intros Hrej.
    rewrite (trend_forecast_rejected pd_date_range model _ last_date Hhist Hlast).
    + reflexivity.
    + rewrite <- Hfl, <- Hfr. exact Hrej.
Qed.

Lemma trend_forecast_after_failed_tiers_witness :
  exists forecast model,
    create_forecast fit_always_raises no_other_frequency six_months "price"
        3 "medium" "ME"
      = (Some forecast, model, true) /\
    List.length forecast = 3.
Proof.
  destruct (trend_forecast_after_failed_tiers fit_always_raises no_other_frequency
              six_months "price" 3 "medium" "ME")
    as [last_date [model [_ [_ [_ [Hbuilt _]]]]]].
  - vm_compute. discriminate.
  - vm_compute. reflexivity.
  - destruct Hbuilt as [forecast [H1 [H2 _]]]; [right; left; reflexivity|].
    exists forecast, model. split; assumption.
Defined.

(** C1 as stated fails for a frequency alias that [pd.date_range] does not
    know: the six months are prepared, both tiers fail, and [create_forecast]
    returns no forecast and no success where the claim has a forecast of
    three periods. *)
Lemma failed_tiers_leave_no_forecast :
  fst (prepare_data (init 3 "fortnight" "medium") six_months "price") <> None /\
  fst (train fit_always_raises (init 3 "fortnight" "medium") six_months "price")
    = false /\
  fst (fst (create_forecast fit_always_raises no_other_frequency six_months "price"
              3 "medium" "fortnight")) = None /\
  snd (create_forecast fit_always_raises no_other_frequency six_months "price"
         3 "medium" "fortnight") = false /\
  ~ exists forecast model,
      create_forecast fit_always_raises no_other_frequency six_months "price"
          3 "medium" "fortnight"
        = (Some forecast, model, true) /\
      List.length forecast = 3.
Proof.
  split; [vm_compute; discriminate|].
  split; [vm_compute; reflexivity|].
  split; [vm_compute; reflexivity|].
  split; [vm_compute; reflexivity|].
  intros [forecast [model [H _]]].
  apply (f_equal snd) in H. vm_compute in H. discriminate H.
Qed.

(** ** The zero baseline at the primary tier *)

Lemma truthy_nonempty (s : string) : s <> "" -> truthy s = true.
Proof.
  intros H. unfold truthy. destruct (String.eqb_spec s ""); [contradiction | reflexivity].
Qed.

(** C2: when the primary fit selects 'ZeroesNaive', [train] records no
    success for it and runs [_train_simple_fallback] on the prepared series:
    the fit log gains the primary call and then the fallback call.  Whatever
    non-empty best model name the fallback fit reports is accepted and stored
    with the suffix " (fallback)"; if [train] succeeds the stored name carries
    that suffix, and if it fails the stored name and the success flag are
    those from before the call. *)
Theorem zeroes_naive_sent_to_fallback
    (autots_fit : AutoTSConfig -> FitInput -> FitOutcome)
    (self self1 : UniversalForecastModel) (data : DataFrame) (value_column : string)
    (ts_data : Series) (m : AutoTSModel) :
  prepare_data self data value_column = (Some ts_data, self1) ->
  autots_fit (primary_config self1 (List.length ts_data)) (Prepared ts_data)
    = FitReturns m ->
  model_best_model_name m = Some "ZeroesNaive" ->
  let primary := primary_config self1 (List.length ts_data) in
  let after_primary := set_model (record_fit self1 primary (Prepared ts_data)) m in
  let fallback := fallback_config after_primary in
  let result := train autots_fit self data value_column in
  training_successful after_primary = training_successful self /\
  best_model_name after_primary = best_model_name self /\
  result = _train_simple_fallback autots_fit after_primary (Direct ts_data) /\
  fit_calls (snd result)
    = (fit_calls self ++ [(primary, Prepared ts_data); (fallback, Prepared ts_data)])%list /\
  (forall m' name,
      autots_fit fallback (Prepared ts_data) = FitReturns m' ->
      model_best_model_name m' = Some name ->
      name <> "" ->
      fst result = true /\
      model (snd result) = Some m' /\
      best_model_name (snd result) = Some (name ++ " (fallback)") /\
      training_successful (snd result) = true) /\
  (fst result = true ->
     exists m' name,
       autots_fit fallback (Prepared ts_data) = FitReturns m' /\
       model_best_model_name m' = Some name /\
       best_model_name (snd result) = Some (name ++ " (fallback)")) /\
  (fst result = false ->
     best_model_name (snd result) = best_model_name self /\
     training_successful (snd result) = training_successful self).
Proof.
  intros Hp Hfit Hname primary after_primary fallback result.
  pose proof (prepare_data_success _ _ _ _ _ Hp) as [_ [Hself1 _]].
  assert (Hres : result = _train_simple_fallback autots_fit after_primary (Direct ts_data)).
  { unfold result, train. rewrite Hp. cbv zeta. rewrite Hfit.
    unfold primary_accepts. rewrite Hname. reflexivity. }
  assert (Hts : training_successful after_primary = training_successful self)
    by (subst self1; reflexivity).
  assert (Hbn : best_model_name after_primary = best_model_name self)
    by (subst self1; reflexivity).
  assert (Hlog : fit_calls after_primary
                 = (fit_calls self ++ [(primary, Prepared ts_data)])%list)
    by (subst self1; reflexivity).
  split; [exact Hts|]. split; [exact Hbn|]. split; [exact Hres|].
  rewrite Hres. clearbody after_primary.
  unfold _train_simple_fallback. fold fallback.
  destruct (autots_fit fallback (Prepared ts_data)) as [|m'] eqn:Ef.
  - simpl. rewrite Hlog, <- app_assoc.
    split; [reflexivity|]. split; [|split].
    + intros m2 name E; discriminate E.
    + discriminate.
    + intros _. split; assumption.
  - destruct (model_best_model_name m') as [name|] eqn:En.
    + destruct (truthy name) eqn:Etr; simpl; rewrite Hlog, <- app_assoc;
        (split; [reflexivity|]); (split; [|split]).
      * intros m2 name2 E E2 _. injection E as <-. rewrite En in E2.
        injection E2 as <-. repeat split.
      * intros _. exists m', name. repeat split. exact En.
      * discriminate.
      * intros m2 name2 E E2 Hne. injection E as <-. rewrite En in E2.
        injection E2 as <-. rewrite (truthy_nonempty _ Hne) in Etr. discriminate.
      * discriminate.
      * intros _. split; assumption.
    + simpl. rewrite Hlog, <- app_assoc.
      split; [reflexivity|]. split; [|split].
      * intros m2 name2 E E2 _. injection E as <-. rewrite En in E2. discriminate.
      * discriminate.
      * intros _. split; assumption.
Qed.

Lemma zeroes_naive_sent_to_fallback_witness :
  fst (train fit_zeroes_then_ets fresh_model six_months "price") = true /\
  best_model_name (snd (train fit_zeroes_then_ets fresh_model six_months "price"))
    = Some "ETS (fallback)".
Proof.
  pose proof (zeroes_naive_sent_to_fallback fit_zeroes_then_ets fresh_model
                (set_historical_data fresh_model (selected_series six_months "price"))
                six_months "price" (prepared_series six_months "price")
                (mkAutoTSModel (Some "ZeroesNaive") PredictRaises)
                ltac:(vm_compute; reflexivity) eq_refl eq_refl) as H.
  cbv zeta in H.
  destruct H as [_ [_ [_ [_ [Hacc _]]]]].
  destruct (Hacc (mkAutoTSModel (Some "ETS") PredictRaises) "ETS" eq_refl eq_refl
              ltac:(discriminate)) as [H1 [_ [H3 _]]].
  split; assumption.
Defined.

(** ** Model selection *)

(** C5: the candidate set and the effort handed to the primary [AutoTS]
    object are a function of the complexity tier and the data length alone
    (two objects of the same tier get the same ones); 'simple' gives
    'superfast', 'medium' gives 'fast', 'complex' gives 'default' and 'all'
    gives 'all'; the effort (generations, validations) is (1, 1) up to
    length 12, (2, 2) above 12 and up to 24, (3, 3) above 24, hence strictly
    increasing across the two thresholds. *)
Theorem selection_by_tier_and_length
    (self other simple medium complex all : UniversalForecastModel)
    (n short mid long : nat) :
  model_complexity self = model_complexity other ->
  model_complexity simple = "simple" ->
  model_complexity medium = "medium" ->
  model_complexity complex = "complex" ->
  model_complexity all = "all" ->
  short <= 12 ->
  12 < mid <= 24 ->
  24 < long ->
  (cfg_model_list (primary_config self n) = cfg_model_list (primary_config other n) /\
   cfg_max_generations (primary_config self n)
     = cfg_max_generations (primary_config other n) /\
   cfg_num_validations (primary_config self n)
     = cfg_num_validations (primary_config other n)) /\
  (cfg_model_list (primary_config self n) = ModelSet (get_model_list self n) /\
   (cfg_max_generations (primary_config self n),
    cfg_num_validations (primary_config self n)) = training_effort n) /\
  (get_model_list simple n = "superfast" /\
   get_model_list medium n = "fast" /\
   get_model_list complex n = "default" /\
   get_model_list all n = "all") /\
  (training_effort short = (1, 1) /\
   training_effort mid = (2, 2) /\
   training_effort long = (3, 3)) /\
  (fst (training_effort short) < fst (training_effort mid) /\
   fst (training_effort mid) < fst (training_effort long) /\
   snd (training_effort short) < snd (training_effort mid) /\
   snd (training_effort mid) < snd (training_effort long)).
Proof.
  intros Hsame Hs Hm Hc Ha Hshort Hmid Hlong.
  assert (E1 : training_effort short = (1, 1)).
  { unfold training_effort. destruct (Nat.leb_spec short 12); [reflexivity | lia]. }
  assert (E2 : training_effort mid = (2, 2)).
  { unfold training_effort.
    destruct (Nat.leb_spec mid 12); [lia|].
    destruct (Nat.leb_spec mid 24); [reflexivity | lia]. }
  assert (E3 : training_effort long = (3, 3)).
  { unfold training_effort.
    destruct (Nat.leb_spec long 12); [lia|].
    destruct (Nat.leb_spec long 24); [lia | reflexivity]. }
  assert (Hcfg : forall s, primary_config s n =
            mkAutoTSConfig (forecast_length s) (frequency s)
              (ModelSet (get_model_list s n)) (Some "simple")
              (fst (training_effort n)) (snd (training_effort n))
              (Some "backwards") (Some true) (Some 2%Q) (Some 0) 0).
  { intros s. unfold primary_config. now destruct (training_effort n). }
  split; [|split; [|split; [|split]]].
  - rewrite !Hcfg. simpl. unfold get_model_list. rewrite Hsame. auto.
  - rewrite Hcfg. simpl. split; [reflexivity|]. now destruct (training_effort n).
  - unfold get_model_list. rewrite Hs, Hm, Hc, Ha. repeat split.
  - auto.
  - rewrite E1, E2, E3. simpl. lia.
Qed.

Lemma selection_by_tier_and_length_witness :
  get_model_list (init 12 "ME" "simple") 18 = "superfast" /\
  training_effort 6 = (1, 1) /\ training_effort 18 = (2, 2) /\
  training_effort 30 = (3, 3).
Proof.
  destruct (selection_by_tier_and_length
              (init 12 "ME" "medium") (init 6 "D" "medium")
              (init 12 "ME" "simple") (init 12 "ME" "medium")
              (init 12 "ME" "complex") (init 12 "ME" "all")
              18 6 18 30)
    as [_ [_ [[Hs _] [[E1 [E2 E3]] _]]]];
    try reflexivity; try lia.
  repeat split; assumption.
Defined.

(** C10: [get_model_list] never looks at the data length, returns the
    same candidate set for two objects of the same tier, and maps every tier
    other than 'simple', 'medium' and 'complex' to 'all'. *)
Theorem candidate_set_ignores_length
    (self same_tier unknown_tier : UniversalForecastModel) (n n' : nat) :
  model_complexity self = model_complexity same_tier ->
  model_complexity unknown_tier <> "simple" ->
  model_complexity unknown_tier <> "medium" ->
  model_complexity unknown_tier <> "complex" ->
  get_model_list self n = get_model_list self n' /\
  get_model_list self n = get_model_list same_tier n' /\
  get_model_list unknown_tier n = "all".
Proof.
  intros Hsame Hs Hm Hc. unfold get_model_list. rewrite Hsame.
  repeat split.
  destruct (String.eqb_spec (model_complexity unknown_tier) "simple"); [contradiction|].
  destruct (String.eqb_spec (model_complexity unknown_tier) "medium"); [contradiction|].
  destruct (String.eqb_spec (model_complexity unknown_tier) "complex"); [contradiction|].
  reflexivity.
Qed.

Lemma candidate_set_ignores_length_witness :
  get_model_list (init 12 "ME" "medium") 6 = get_model_list (init 12 "ME" "medium") 600 /\
  get_model_list (init 12 "ME" "thorough") 6 = "all".
Proof.
  destruct (candidate_set_ignores_length
              (init 12 "ME" "medium") (init 3 "D" "medium") (init 12 "ME" "thorough")
              6 600)
    as [H1 [_ H3]]; try reflexivity; try discriminate.
  split; assumption.
Defined.

(** ** The prepared series *)

Lemma ascending_head_is_least (rows : list Row) (r : Row) :
  strictly_ascending (map row_date rows) ->
  In r rows ->
  (forall r', In r' rows -> ts_leb (row_date r) (row_date r') = true) ->
  exists tl, rows = r :: tl.
Proof.
  unfold strictly_ascending. intros Hs Hin Hmin.
  destruct rows as [|h tl]; [contradiction|].
  destruct Hin as [-> | Hin]; [now exists tl|].
  exfalso. simpl in Hs. inversion Hs as [|? ? _ Hall]; subst.
  rewrite Forall_forall in Hall.
  assert (Hlt : ts_ltb (row_date h) (row_date r) = true)
    by (apply Hall; now apply in_map).
  apply ts_ltb_asym in Hlt. rewrite Hmin in Hlt; [discriminate | now left].
Qed.

Lemma existsb_isnull_false (vs : list float) :
  existsb isnull vs = false -> no_nulls vs.
Proof.
  unfold no_nulls. induction vs as [|v tl IH]; simpl; intros H; [constructor|].
  apply orb_false_iff in H. destruct H as [Hv Ht]. constructor; auto.
Qed.

Lemma selected_rows_ascending (data : DataFrame) :
  strictly_ascending (map row_date (sort_values (drop_duplicates (df_rows data)))).
Proof. apply sort_values_ascending, drop_duplicates_seen_NoDup. Qed.

Lemma selected_row_In (data : DataFrame) (r : Row) :
  In r (sort_values (drop_duplicates (df_rows data))) <-> In r (drop_duplicates (df_rows data)).
Proof.
  split; intros H.
  - eapply Permutation_in; [apply Permutation_sym, sort_values_perm | exact H].
  - eapply Permutation_in; [apply sort_values_perm | exact H].
Qed.

(** C3, as the code has it: for a raw series with at least 6 distinct
    dates and the value column present, [prepare_data] returns a series whose
    index is strictly ascending, free of duplicates and made of exactly the
    dates of the raw series, and whose values are the selected values with
    their nulls filled linearly and forward.  It has no null when the value
    at the earliest date (of the first row carrying that date) is a number,
    and starts with a null when that value is null. *)
Theorem prepared_series_sorted_and_filled
    (self : UniversalForecastModel) (data : DataFrame) (value_column : string)
    (earliest : Row) :
  6 <= List.length (drop_duplicates (df_rows data)) ->
  In value_column (df_columns data) ->
  In earliest (drop_duplicates (df_rows data)) ->
  (forall r, In r (df_rows data) -> ts_leb (row_date earliest) (row_date r) = true) ->
  exists s,
    fst (prepare_data self data value_column) = Some s /\
    strictly_ascending (index s) /\
    NoDup (index s) /\
    (forall t, In t (index s) <-> In t (map row_date (df_rows data))) /\
    linear_fill (values (selected_series data value_column)) (values s) /\
    (isnull (row_value earliest value_column) = false -> no_nulls (values s)) /\
    (isnull (row_value earliest value_column) = true -> hd_error (values s) = Some NaN).
Proof.
  intros Hlen Hcol Hin Hmin.
  destruct (prepare_data_cases self data value_column) as [[_ [Hl|Hc]] | [E _]].
  { lia. }
  { exfalso.
    assert (Hex : existsb (String.eqb value_column) (df_columns data) = true).
    { apply existsb_exists. exists value_column. split; [assumption | apply String.eqb_refl]. }
    congruence. }
  exists (prepared_series data value_column). rewrite E.
  split; [reflexivity|].
  assert (Hidx : index (prepared_series data value_column)
                 = map row_date (sort_values (drop_duplicates (df_rows data)))).
  { now rewrite index_prepared_series, index_selected_series. }
  pose proof (selected_rows_ascending data) as Hasc.
  split; [now rewrite Hidx|].
  split; [rewrite Hidx; now apply strictly_ascending_NoDup|].
  split.
  { intros t. rewrite Hidx. split; intros Ht.
    - apply in_map_iff in Ht. destruct Ht as [r [<- Hr]].
      apply in_map, (drop_duplicates_seen_In _ []), selected_row_In, Hr.
    - apply in_map_iff in Ht. destruct Ht as [r [<- Hr]].
      assert (Hd : In (row_date r) (map row_date (drop_duplicates (df_rows data))))
        by (apply drop_duplicates_seen_dates; [assumption | intros []]).
      apply in_map_iff in Hd. destruct Hd as [r' [Hd Hr']].
      rewrite <- Hd. apply in_map, selected_row_In, Hr'. }
  split.
  { rewrite values_prepared_series. apply interpolate_linear_fill. }
  destruct (ascending_head_is_least _ earliest Hasc) as [tl Htl].
  { now apply selected_row_In. }
  { intros r' Hr'. apply Hmin, (drop_duplicates_seen_In _ []), selected_row_In, Hr'. }
  unfold prepared_series, selected_series. rewrite Htl. simpl map.
  split; intros Hnull.
  - destruct (existsb isnull _) eqn:Ex.
    + rewrite values_interpolate_column. unfold values. simpl.
      destruct (row_value earliest value_column) as [v|]; [|discriminate].
      constructor; [reflexivity | apply interpolate_after_no_nulls].
    + now apply existsb_isnull_false.
  - unfold values at 1. simpl. rewrite Hnull. simpl.
    rewrite values_interpolate_column. unfold values. simpl.
    destruct (row_value earliest value_column) as [v|]; [discriminate | reflexivity].
Qed.

Lemma prepared_series_sorted_and_filled_witness :
  exists s,
    fst (prepare_data fresh_model interior_null_frame "price") = Some s /\
    no_nulls (values s).
Proof.
  destruct (prepared_series_sorted_and_filled fresh_model interior_null_frame "price"
              (price_row 2024 1 31 (Some 100%Q)))
    as [s [Hs [_ [_ [_ [_ [Hfilled _]]]]]]].
  - vm_compute. lia.
  - simpl. left. reflexivity.
  - simpl. left. reflexivity.
  - intros r Hr. simpl in Hr.
    repeat (destruct Hr as [<- | Hr]; [reflexivity|]). contradiction.
  - exists s. split; [exact Hs | apply Hfilled; reflexivity].
Defined.

(** C3 as stated fails: six distinct month ends whose earliest price is
    missing are accepted, and the series returned still starts with that
    null. *)
Lemma leading_null_not_filled :
  6 <= List.length (drop_duplicates (df_rows leading_null_frame)) /\
  existsb isnull (values (selected_series leading_null_frame "price")) = true /\
  exists s,
    fst (prepare_data fresh_model leading_null_frame "price") = Some s /\
    hd_error (values s) = Some NaN /\
    ~ no_nulls (values s).
Proof.
  split; [vm_compute; lia|]. split; [reflexivity|].
  eexists. split; [vm_compute; reflexivity|]. split; [reflexivity|].
  intros H. inversion H as [|? ? Hnull _]. discriminate Hnull.
Qed.

(** ** The retained history *)

(** C9, as the code has it: after a successful [prepare_data] the object
    retains the selected series as it is before null filling.  It has the
    index of the returned series, whose values are its own with the nulls
    filled linearly and forward; it is the returned series when it has no
    null, and otherwise the returned series is its interpolation.  It is
    still the retained history when [train] returns, whichever tiers ran, so
    it is what the trend extrapolation reads. *)
Theorem retained_history_is_unfilled
    (autots_fit : AutoTSConfig -> FitInput -> FitOutcome)
    (self self1 : UniversalForecastModel) (data : DataFrame) (value_column : string)
    (s : Series) :
  prepare_data self data value_column = (Some s, self1) ->
  exists hist,
    historical_data self1 = Some hist /\
    hist = selected_series data value_column /\
    index hist = index s /\
    linear_fill (values hist) (values s) /\
    (existsb isnull (values hist) = false -> hist = s) /\
    (existsb isnull (values hist) = true -> s = interpolate_column hist) /\
    historical_data (snd (train autots_fit self data value_column)) = Some hist.
Proof.
  intros Hp.
  pose proof (train_keeps_history autots_fit _ _ _ _ _ Hp) as Htrain.
  apply prepare_data_success in Hp. destruct Hp as [-> [-> _]].
  exists (selected_series data value_column).
  split; [reflexivity|]. split; [reflexivity|].
  split; [symmetry; apply index_prepared_series|].
  split; [rewrite values_prepared_series; apply interpolate_linear_fill|].
  unfold prepared_series.
  destruct (existsb isnull (values (selected_series data value_column))) eqn:Ex.
  - split; [discriminate|]. split; [reflexivity | exact Htrain].
  - split; [reflexivity|]. split; [discriminate | exact Htrain].
Qed.

Lemma retained_history_is_unfilled_witness :
  historical_data
    (snd (train fit_always_raises fresh_model interior_null_frame "price"))
  = Some (selected_series interior_null_frame "price").
Proof.
  destruct (retained_history_is_unfilled fit_always_raises fresh_model
              (set_historical_data fresh_model
                 (selected_series interior_null_frame "price"))
              interior_null_frame "price"
              (prepared_series interior_null_frame "price"))
    as [hist [_ [-> [_ [_ [_ [_ H]]]]]]].
  - vm_compute. reflexivity.
  - exact H.
Defined.

(** C9 as stated fails: with two prices missing in the middle of six month
    ends, the series returned has them filled (110 for February) while the
    history retained still has the nulls, so the two differ. *)
Lemma retained_history_differs_from_prepared :
  exists s self1 hist q,
    prepare_data fresh_model interior_null_frame "price" = (Some s, self1) /\
    historical_data self1 = Some hist /\
    nth_error (values s) 1 = Some (Some q) /\ (q == 110)%Q /\
    nth_error (values hist) 1 = Some NaN /\
    hist <> s.
Proof.
  do 4 eexists.
  split; [vm_compute; reflexivity|].
  split; [reflexivity|].
  split; [reflexivity|].
  split; [reflexivity|].
  split; [reflexivity|].
  intros E. apply (f_equal (fun l => nth_error (values l) 1)) in E.
  discriminate E.
Qed.

(** ** The index of a monthly trend forecast *)

Lemma days_in_month_bounds (y m : Z) : (28 <= days_in_month y m <= 31)%Z.
Proof.
  unfold days_in_month.
  destruct (m =? 2)%Z; [destruct (is_leap y); lia|].
  destruct ((m =? 4) || (m =? 6) || (m =? 9) || (m =? 11))%Z; lia.
Qed.

Lemma month_index_first_of_next_month (t : Timestamp) :
  month_index (first_of_next_month t) = (month_index t + 1)%Z.
Proof.
  unfold month_index, first_of_next_month.
  destruct (Z.eqb_spec (month t) 12) as [E|E]; simpl; lia.
Qed.

Lemma is_month_end_end_of_month (t : Timestamp) : is_month_end (end_of_month t) = true.
Proof. unfold is_month_end, end_of_month; simpl. apply Z.eqb_refl. Qed.

Lemma month_end_offset_on_month_end (t : Timestamp) :
  is_month_end t = true ->
  month_end_offset t = end_of_month (first_of_next_month t).
Proof.
  unfold is_month_end, month_end_offset. intros H. apply Z.eqb_eq in H.
  destruct (Z.ltb_spec (day t) (days_in_month (year t) (month t))); [lia | reflexivity].
Qed.

Lemma rollforward_after_month_begin (t : Timestamp) :
  rollforward_month_end (month_begin_offset t) = end_of_month (first_of_next_month t).
Proof.
  unfold rollforward_month_end, month_begin_offset, is_month_end, month_end_offset.
  pose proof (days_in_month_bounds (year (first_of_next_month t))
                (month (first_of_next_month t))) as Hb.
  assert (Hd : day (first_of_next_month t) = 1%Z).
  { unfold first_of_next_month. now destruct (month t =? 12)%Z. }
  rewrite Hd.
  destruct (Z.eqb_spec 1 (days_in_month (year (first_of_next_month t))
                            (month (first_of_next_month t)))); [lia|].
  destruct (Z.ltb_spec 1 (days_in_month (year (first_of_next_month t))
                            (month (first_of_next_month t)))); [reflexivity | lia].
Qed.

Lemma nanos_first_of_next_month (t : Timestamp) : nanos (first_of_next_month t) = nanos t.
Proof. unfold first_of_next_month. now destruct (month t =? 12)%Z. Qed.

Lemma generate_range_nth (step : Timestamp -> Timestamp) (periods : nat) :
  forall cur k, k < periods ->
    nth_error (generate_range step cur periods) k = Some (Nat.iter k step cur).
Proof.
  induction periods as [|p IH]; intros cur k Hk; [lia|].
  destruct k as [|k]; [reflexivity|].
  simpl generate_range. simpl nth_error. rewrite IH by lia.
  f_equal. symmetry. apply Nat.iter_succ_r.
Qed.

Lemma generate_range_step (step : Timestamp -> Timestamp) (periods : nat) :
  forall cur k t t',
    nth_error (generate_range step cur periods) k = Some t ->
    nth_error (generate_range step cur periods) (S k) = Some t' ->
    t' = step t.
Proof.
  intros cur k t t' H H'.
  assert (Hk : S k < periods).
  { rewrite <- (generate_range_length step periods cur).
    apply nth_error_Some. congruence. }
  rewrite generate_range_nth in H by lia. rewrite generate_range_nth in H' by lia.
  injection H as <-. injection H' as <-. reflexivity.
Qed.

(** The [k]-th month end after a month end. *)
Lemma iter_month_end_offset (k : nat) (t : Timestamp) :
  is_month_end t = true ->
  is_month_end (Nat.iter k month_end_offset t) = true /\
  month_index (Nat.iter k month_end_offset t) = (month_index t + Z.of_nat k)%Z /\
  nanos (Nat.iter k month_end_offset t) = nanos t.
Proof.
  intros Ht. induction k as [|k [IH1 [IH2 IH3]]].
  - simpl. repeat split; [assumption | lia].
  - rewrite Nat.iter_succ. rewrite (month_end_offset_on_month_end _ IH1).
    split; [apply is_month_end_end_of_month|]. split.
    + change (month_index (end_of_month ?x)) with (month_index x).
      rewrite month_index_first_of_next_month, IH2. lia.
    + change (nanos (end_of_month ?x)) with (nanos x).
      now rewrite nanos_first_of_next_month.
Qed.

(** C6, as the code has it: for frequency 'ME' and a non-empty history
    the trend forecast has the requested length and its stamps are month
    ends of consecutive calendar months, each one [MonthEnd] offset after the
    one before and at the time of day of the last historical stamp; the first
    is the end of the calendar month following the month of the last
    historical stamp, which is one [MonthEnd] offset after that stamp when
    the stamp is itself a month end. *)
Theorem month_end_forecast_index
    (pd_date_range : Timestamp -> nat -> string -> option (list Timestamp))
    (self : UniversalForecastModel) (hist : Series) (last_date : Timestamp) :
  historical_data self = Some hist ->
  frequency self = "ME" ->
  last_item (index hist) = Some last_date ->
  exists forecast,
    _simple_trend_forecast pd_date_range self = Some forecast /\
    List.length forecast = forecast_length self /\
    (forall k, k < forecast_length self ->
       exists t,
         nth_error (index forecast) k = Some t /\
         is_month_end t = true /\
         month_index t = (month_index last_date + 1 + Z.of_nat k)%Z /\
         nanos t = nanos last_date) /\
    (forall k t t',
       nth_error (index forecast) k = Some t ->
       nth_error (index forecast) (S k) = Some t' ->
       t' = month_end_offset t) /\
    (is_month_end last_date = true ->
     forall t, hd_error (index forecast) = Some t -> t = month_end_offset last_date).
Proof.
  intros Hh Hf Hlast.
  destruct (trend_forecast_total pd_date_range self hist Hh)
    as [forecast [fv [last [dates [Hfc [_ [Hl [Hd [Hlen [Hidx _]]]]]]]]]].
  { intros ->. discriminate Hlast. }
  { right. left. exact Hf. }
  rewrite Hlast in Hl. injection Hl as <-.
  rewrite Hf in Hd. unfold trend_dates in Hd. simpl in Hd. injection Hd as <-.
  exists forecast. split; [exact Hfc|]. split; [exact Hlen|].
  rewrite Hidx. unfold date_range_ME. rewrite rollforward_after_month_begin.
  set (first := end_of_month (first_of_next_month last_date)).
  assert (Hfirst : is_month_end first = true) by apply is_month_end_end_of_month.
  split; [|split].
  - intros k Hk. exists (Nat.iter k month_end_offset first).
    split; [now apply generate_range_nth|].
    destruct (iter_month_end_offset k first Hfirst) as [I1 [I2 I3]].
    split; [exact I1|]. split.
    + rewrite I2. unfold first.
      change (month_index (end_of_month ?x)) with (month_index x).
      rewrite month_index_first_of_next_month. lia.
    + rewrite I3. unfold first.
      change (nanos (end_of_month ?x)) with (nanos x).
      apply nanos_first_of_next_month.
  - apply generate_range_step.
  - intros Hme t Ht. rewrite (month_end_offset_on_month_end _ Hme).
    destruct (forecast_length self); simpl in Ht; [discriminate|].
    now injection Ht as <-.
Qed.

Lemma month_end_forecast_index_witness :
  exists forecast,
    _simple_trend_forecast no_other_frequency
      (set_historical_data fresh_model (selected_series six_months "price"))
      = Some forecast /\
    index forecast
      = [mkTimestamp 2024 7 31 0; mkTimestamp 2024 8 31 0; mkTimestamp 2024 9 30 0].
Proof.
  destruct (month_end_forecast_index no_other_frequency
              (set_historical_data fresh_model (selected_series six_months "price"))
              (selected_series six_months "price") (mkTimestamp 2024 6 30 0)
              eq_refl eq_refl eq_refl)
    as [forecast [Hf _]].
  exists forecast. split; [exact Hf|].
  vm_compute in Hf. injection Hf as <-. reflexivity.
Defined.

(** C6 as stated fails: from six prices dated the 15th, the last on
    2024-06-15, the monthly trend forecast starts on 2024-07-31.  That is
    neither one calendar month after the last date (2024-07-15) nor one
    month-end period after it (2024-06-30). *)
Lemma monthly_forecast_starts_later_than_one_month :
  exists forecast model first,
    create_forecast fit_always_raises no_other_frequency mid_month_frame "price"
        3 "medium" "ME"
      = (Some forecast, model, true) /\
    last_item (index (selected_series mid_month_frame "price"))
      = Some (mkTimestamp 2024 6 15 0) /\
    hd_error (index forecast) = Some first /\
    first = mkTimestamp 2024 7 31 0 /\
    first <> one_calendar_month_after (mkTimestamp 2024 6 15 0) /\
    first <> month_end_offset (mkTimestamp 2024 6 15 0).
Proof.
  do 3 eexists.
  split; [vm_compute; reflexivity|].
  split; [reflexivity|].
  split; [reflexivity|].
  split; [reflexivity|].
  split; vm_compute; discriminate.
Qed.

(** ** Least squares on a line *)

Lemma fsum_numbers (qs : list Q) : fsum (map Some qs) = Some (qsum qs).
Proof. induction qs as [|q tl IH]; simpl; [reflexivity | now rewrite IH]. Qed.

Lemma fmul_lists_numbers (xs ys : list Q) :
  fmul_lists (map Some xs) (map Some ys) = map Some (qmul_lists xs ys).
Proof.
  revert ys. induction xs as [|x xs IH]; intros [|y ys]; simpl; try reflexivity.
  now rewrite IH.
Qed.

Lemma np_arange_numbers (a b : nat) :
  np_arange a b = map Some (map of_nat (seq a (b - a))).
Proof. unfold np_arange. now rewrite map_map. Qed.

Lemma of_nat_S (n : nat) : (of_nat (S n) == of_nat n + 1)%Q.
Proof.
  unfold of_nat. rewrite Nat2Z.inj_succ, <- Z.add_1_r, inject_Z_plus. reflexivity.
Qed.

Lemma of_nat_add (n m : nat) : (of_nat (n + m) == of_nat n + of_nat m)%Q.
Proof. unfold of_nat. now rewrite Nat2Z.inj_add, inject_Z_plus. Qed.

Lemma of_nat_ge (n m : nat) : m <= n -> (of_nat m <= of_nat n)%Q.
Proof.
  intros H. unfold of_nat. rewrite <- Zle_Qle. lia.
Qed.

Lemma qsum_app (l1 l2 : list Q) : (qsum (l1 ++ l2) == qsum l1 + qsum l2)%Q.
Proof.
  induction l1 as [|q tl IH]; simpl; [ring | rewrite IH; ring].
Qed.

Lemma qmul_lists_app (a b c d : list Q) :
  List.length a = List.length c ->
  qmul_lists (a ++ b) (c ++ d) = (qmul_lists a c ++ qmul_lists b d)%list.
Proof.
  revert c. induction a as [|x a IH]; intros [|y c] Hl; simpl in *; try discriminate;
    [reflexivity | f_equal; apply IH; lia].
Qed.

(** Closed forms of the sums of [np.arange(n)] and of its squares. *)
Lemma sum_arange (n : nat) :
  (2 * qsum (map of_nat (seq 0 n)) == of_nat n * (of_nat n - 1))%Q.
Proof.
  induction n as [|n IH].
  - simpl. unfold of_nat. simpl. ring.
  - rewrite seq_S, map_app, qsum_app. simpl.
    rewrite Qmult_plus_distr_r, IH, of_nat_S. ring.
Qed.

Lemma sum_arange_squares (n : nat) :
  (6 * qsum (qmul_lists (map of_nat (seq 0 n)) (map of_nat (seq 0 n)))
   == (of_nat n - 1) * of_nat n * (2 * of_nat n - 1))%Q.
Proof.
  induction n as [|n IH].
  - simpl. unfold of_nat. simpl. ring.
  - rewrite seq_S, map_app, qmul_lists_app by reflexivity.
    rewrite qsum_app. simpl.
    rewrite Qmult_plus_distr_r, IH, of_nat_S. ring.
Qed.

Lemma on_line_sums (a b : Q) (xs qs : list Q) :
  on_line a b xs qs ->
  (qsum qs == a * qsum xs + b * of_nat (List.length xs))%Q /\
  (qsum (qmul_lists xs qs) == a * qsum (qmul_lists xs xs) + b * qsum xs)%Q.
Proof.
  unfold on_line. induction 1 as [|x q xs qs Hq _ [IH1 IH2]].
  - simpl. unfold of_nat. simpl. split; ring.
  - simpl List.length. simpl qsum. simpl qmul_lists. simpl qsum.
    rewrite of_nat_S, IH1, IH2, Hq. split; ring.
Qed.

Lemma arange_not_degenerate (n : nat) :
  2 <= n ->
  let xs := map of_nat (seq 0 n) in
  ~ (of_nat n * qsum (qmul_lists xs xs) - qsum xs * qsum xs == 0)%Q.
Proof.
  intros Hn xs.
  pose proof (sum_arange n) as H1. pose proof (sum_arange_squares n) as H2.
  fold xs in H1, H2.
  pose proof (of_nat_ge n 2 Hn) as HN.
  change (of_nat 2) with 2%Q in HN.
  set (N := of_nat n) in *.
  set (Sx := qsum xs) in *. set (Sxx := qsum (qmul_lists xs xs)) in *.
  assert (E : (12 * (N * Sxx - Sx * Sx) == (N * N) * ((N - 1) * (N + 1)))%Q).
  { setoid_replace (12 * (N * Sxx - Sx * Sx))%Q
      with (2 * N * (6 * Sxx) - 3 * ((2 * Sx) * (2 * Sx)))%Q by ring.
    rewrite H1, H2. ring. }
  assert (P : (0 < (N * N) * ((N - 1) * (N + 1)))%Q).
  { apply Qmult_lt_0_compat; apply Qmult_lt_0_compat; lra. }
  intros Z. rewrite Z in E. lra.
Qed.

Lemma polyfit_on_line (a b : Q) (n : nat) (qs : list Q) :
  2 <= n ->
  on_line a b (map of_nat (seq 0 n)) qs ->
  exists slope intercept,
    np_polyfit1 (np_arange 0 n) (map Some qs) = (Some slope, Some intercept) /\
    (slope == a)%Q /\ (intercept == b)%Q.
Proof.
  intros Hn Hline.
  rewrite np_arange_numbers, Nat.sub_0_r.
  unfold np_polyfit1.
  rewrite !fsum_numbers, !fmul_lists_numbers, !fsum_numbers.
  rewrite !length_map, length_seq.
  eexists. eexists. split; [reflexivity|].
  destruct (on_line_sums a b _ _ Hline) as [Hy Hxy].
  rewrite !length_map, length_seq in Hy.
  pose proof (arange_not_degenerate n Hn) as HD. cbv zeta in HD.
  pose proof (of_nat_ge n 2 Hn) as HN. change (of_nat 2) with 2%Q in HN.
  set (xs := map of_nat (seq 0 n)) in *.
  set (N := of_nat n) in *.
  set (Sx := qsum xs) in *. set (Sxx := qsum (qmul_lists xs xs)) in *.
  set (Sy := qsum qs) in *. set (Sxy := qsum (qmul_lists xs qs)) in *.
  assert (Hslope : ((N * Sxy - Sx * Sy) / (N * Sxx - Sx * Sx) == a)%Q).
  { rewrite Hy, Hxy. field. exact HD. }
  split; [exact Hslope|].
  rewrite Hslope, Hy. field. lra.
Qed.

(** A column of numbers on a line, as a list of rationals. *)
Lemma line_values_numbers (a b : Q) (vals : list float) :
  forall start,
    (forall i, i < List.length vals ->
       exists q, nth_error vals i = Some (Some q) /\ (q == a * of_nat (start + i) + b)%Q) ->
    exists qs,
      vals = map Some qs /\
      on_line a b (map of_nat (seq start (List.length vals))) qs.
Proof.
  induction vals as [|v tl IH]; intros start H.
  - exists []. split; [reflexivity | constructor].
  - destruct (H 0) as [q [Hq Hline]]; [simpl; lia|].
    simpl in Hq. injection Hq as ->. rewrite Nat.add_0_r in Hline.
    destruct (IH (S start)) as [qs [-> Hqs]].
    { intros i Hi. destruct (H (S i)) as [q' [Hq' Hl']]; [simpl; lia|].
      exists q'. split; [exact Hq'|].
      now rewrite Nat.add_succ_r in Hl'. }
    exists (q :: qs). split; [reflexivity|].
    simpl. constructor; assumption.
Qed.

Lemma nth_error_map_seq {A : Type} (f : nat -> A) (start len k : nat) :
  k < len -> nth_error (map f (seq start len)) k = Some (f (start + k)).
Proof.
  intros Hk. rewrite nth_error_map, nth_error_seq.
  destruct (Nat.ltb_spec k len); [reflexivity | lia].
Qed.

(** ** The values of the trend forecast *)

(** C8, as the code has it: when the history has at least 2 points and its
    values are the numbers [a * i + b] at the positions [i = 0, 1, ...], the
    least-squares fit has slope [a] and intercept [b].  When the index of
    the forecast can be built after the last date of the history (always for
    'D' and 'ME'), the trend forecast has the requested length with
    [slope * (n + k) + intercept] at position [k], [n] being the length of
    the history: the value [a * (n + k) + b] of the same line.  When
    [pd.date_range] raises on the alias there is no forecast.  Arithmetic is
    exact here, where the code rounds. *)
Theorem linear_history_continued
    (pd_date_range : Timestamp -> nat -> string -> option (list Timestamp))
    (self : UniversalForecastModel) (hist : Series) (a b : Q) :
  historical_data self = Some hist ->
  2 <= List.length hist ->
  (forall i, i < List.length hist ->
     exists q, nth_error (values hist) i = Some (Some q) /\
               (q == a * of_nat i + b)%Q) ->
  exists last_date slope intercept,
    last_item (index hist) = Some last_date /\
    np_polyfit1 (np_arange 0 (List.length hist)) (values hist)
      = (Some slope, Some intercept) /\
    (slope == a)%Q /\ (intercept == b)%Q /\
    (index_can_be_built pd_date_range (frequency self) last_date
       (forecast_length self) ->
     exists forecast,
       _simple_trend_forecast pd_date_range self = Some forecast /\
       List.length forecast = forecast_length self /\
       forall k, k < forecast_length self ->
         nth_error (values forecast) k
           = Some (Some (slope * of_nat (List.length hist + k) + intercept)%Q) /\
         (slope * of_nat (List.length hist + k) + intercept
          == a * of_nat (List.length hist + k) + b)%Q) /\
    (index_rejected pd_date_range (frequency self) last_date
       (forecast_length self) ->
     _simple_trend_forecast pd_date_range self = None).
Proof.
  intros Hh Hlen Hline.
  destruct (last_item_some (index hist)) as [last_date Hlast].
  { destruct hist; [simpl in Hlen; lia | discriminate]. }
  assert (Hn : List.length (values hist) = List.length hist)
    by (unfold values; apply length_map).
  destruct (line_values_numbers a b (values hist) 0) as [qs [Hqs Hon]].
  { rewrite Hn. exact Hline. }
  rewrite Hn in Hon.
  destruct (polyfit_on_line a b _ qs Hlen Hon) as [slope [intercept [Hfit [Hs Hi]]]].
  rewrite <- Hqs in Hfit.
  exists last_date, slope, intercept.
  split; [exact Hlast|]. split; [exact Hfit|].
  split; [exact Hs|]. split; [exact Hi|]. split.
  - intros Hbuilt.
    destruct (trend_forecast_built pd_date_range self hist last_date Hh Hlast Hbuilt)
      as [forecast [fv [dates [Hfc [Hv [_ [Hl [_ Hvals]]]]]]]].
    exists forecast. split; [exact Hfc|]. split; [exact Hl|].
    intros k Hk. split; [|now rewrite Hs, Hi].
    rewrite Hvals. unfold trend_values in Hv. rewrite Hn in Hv.
    destruct (Nat.ltb_spec (List.length hist) 2); [lia|].
    rewrite Hfit in Hv. injection Hv as <-.
    unfold np_arange. rewrite map_map.
    rewrite nth_error_map_seq by lia. reflexivity.
  - apply (trend_forecast_rejected pd_date_range self hist last_date Hh Hlast).
Qed.

Lemma linear_history_continued_witness :
  exists forecast q,
    _simple_trend_forecast no_other_frequency
      (set_historical_data fresh_model ten_months_line) = Some forecast /\
    nth_error (values forecast) 0 = Some (Some q) /\ (q == 200)%Q.
Proof.
  destruct (linear_history_continued no_other_frequency
              (set_historical_data fresh_model ten_months_line)
              ten_months_line 10 100 eq_refl)
    as [last_date [slope [intercept [_ [_ [_ [_ [Hbuilt _]]]]]]]].
  - simpl. lia.
  - intros i Hi.
    do 10 (destruct i as [|i]; [eexists; split; reflexivity|]).
    simpl in Hi. lia.
  - destruct Hbuilt as [forecast [Hf [_ Hk]]]; [right; left; reflexivity|].
    destruct (Hk 0) as [H0 E0]; [simpl; lia|].
    exists forecast. eexists. split; [exact Hf|]. split; [exact H0|].
    rewrite E0. reflexivity.
Defined.

(** C8 as stated fails for a frequency alias that [pd.date_range] does not
    know: the ten prices 100, 110, ..., 190 lie on a line, and the method
    returns no forecast at all. *)
Lemma linear_history_without_index :
  historical_data (set_historical_data (init 3 "fortnight" "medium") ten_months_line)
    = Some ten_months_line /\
  (forall i, i < List.length ten_months_line ->
     exists q, nth_error (values ten_months_line) i = Some (Some q) /\
               (q == 10 * of_nat i + 100)%Q) /\
  _simple_trend_forecast no_other_frequency
    (set_historical_data (init 3 "fortnight" "medium") ten_months_line) = None /\
  ~ exists forecast,
      _simple_trend_forecast no_other_frequency
        (set_historical_data (init 3 "fortnight" "medium") ten_months_line)
        = Some forecast /\
      List.length forecast = 3.
Proof.
  split; [reflexivity|]. split.
  - intros i Hi.
    do 10 (destruct i as [|i]; [eexists; split; reflexivity|]).
    simpl in Hi. lia.
  - split; [vm_compute; reflexivity|].
    intros [forecast [H _]]. vm_compute in H. discriminate H.
Qed.

(** C7, as the code has it: on a history of a single point, when the index
    of the forecast can be built after the date of that point (always for
    'D' and 'ME'), the trend forecast is a frame of the requested length
    whose values all repeat the value of that point, whatever it is; when
    [pd.date_range] raises on the alias there is no forecast; on an empty
    history there is no last value and the method returns no forecast. *)
Theorem single_point_history_flat
    (pd_date_range : Timestamp -> nat -> string -> option (list Timestamp))
    (self empty : UniversalForecastModel) (t : Timestamp) (v : float) :
  historical_data self = Some [(t, v)] ->
  historical_data empty = Some [] ->
  (index_can_be_built pd_date_range (frequency self) t (forecast_length self) ->
   exists forecast,
     _simple_trend_forecast pd_date_range self = Some forecast /\
     List.length forecast = forecast_length self /\
     values forecast = repeat v (forecast_length self)) /\
  (index_rejected pd_date_range (frequency self) t (forecast_length self) ->
   _simple_trend_forecast pd_date_range self = None) /\
  _simple_trend_forecast pd_date_range empty = None.
Proof.
  intros Hh He. split; [|split].
  - intros Hbuilt.
    destruct (trend_forecast_built pd_date_range self _ t Hh eq_refl Hbuilt)
      as [forecast [fv [dates [Hfc [Hv [_ [Hl [_ Hvals]]]]]]]].
    exists forecast. split; [exact Hfc|]. split; [exact Hl|].
    rewrite Hvals. unfold trend_values in Hv. simpl in Hv. now injection Hv as <-.
  - apply (trend_forecast_rejected pd_date_range self _ t Hh eq_refl).
  - unfold _simple_trend_forecast. rewrite He. reflexivity.
Qed.

Lemma single_point_history_flat_witness :
  exists forecast,
    _simple_trend_forecast no_other_frequency
      (set_historical_data fresh_model [(mkTimestamp 2024 1 31 0, Some 5000%Q)])
      = Some forecast /\
    values forecast = [Some 5000%Q; Some 5000%Q; Some 5000%Q].
Proof.
  destruct (single_point_history_flat no_other_frequency
              (set_historical_data fresh_model [(mkTimestamp 2024 1 31 0, Some 5000%Q)])
              (set_historical_data fresh_model [])
              (mkTimestamp 2024 1 31 0) (Some 5000%Q) eq_refl eq_refl)
    as [Hbuilt _].
  destruct Hbuilt as [forecast [Hf [_ Hv]]]; [right; left; reflexivity|].
  exists forecast. split; [exact Hf | exact Hv].
Defined.

(** C7 as stated fails on the empty history: asked for three periods, the
    method returns no frame at all, not a flat series of three values.  It
    fails on a single point too when [pd.date_range] does not know the
    frequency alias: there is no frame either. *)
Lemma empty_history_no_forecast :
  historical_data (set_historical_data fresh_model []) = Some [] /\
  forecast_length (set_historical_data fresh_model []) = 3 /\
  _simple_trend_forecast no_other_frequency (set_historical_data fresh_model []) = None /\
  (~ exists forecast,
      _simple_trend_forecast no_other_frequency (set_historical_data fresh_model [])
        = Some forecast /\
      List.length forecast = 3) /\
  _simple_trend_forecast no_other_frequency
    (set_historical_data (init 3 "fortnight" "medium")
       [(mkTimestamp 2024 1 31 0, Some 5000%Q)]) = None.
Proof.
  split; [reflexivity|]. split; [reflexivity|]. split; [reflexivity|].
  split; [|reflexivity].
  intros [forecast [H _]]. discriminate H.
Qed.

(** * Further properties of the forecasting module *)

(** ** First-seen rows and missing columns in [prepare_data] *)

Lemma drop_duplicates_seen_keeps_first (before after : list Row) (r : Row) :
  forall seen,
    ~ In (row_date r) seen ->
    ~ In (row_date r) (map row_date before) ->
    In r (drop_duplicates_seen seen (before ++ r :: after)).
Proof.
  induction before as [|b tl IH]; intros seen Hs Hb; simpl.
  - destruct (existsb (ts_eqb (row_date r)) seen) eqn:E.
    + apply seen_spec in E. contradiction.
    + now left.
  - simpl in Hb.
    destruct (existsb (ts_eqb (row_date b)) seen).
    + apply IH; [assumption|]. intros H. apply Hb. now right.
    + right. apply IH.
      * intros [H | H]; [apply Hb; now left | contradiction].
      * intros H. apply Hb. now right.
Qed.

Lemma NoDup_index_unique (s : Series) (t : Timestamp) (v v' : float) :
  NoDup (index s) -> In (t, v) s -> In (t, v') s -> v = v'.
Proof.
  unfold index. induction s as [|[t0 v0] tl IH]; simpl; intros Hnd H1 H2; [contradiction|].
  inversion Hnd as [|? ? Hn Hnd']; subst.
  destruct H1 as [E1 | H1], H2 as [E2 | H2].
  - congruence.
  - injection E1 as -> ->. exfalso. apply Hn.
    change t with (fst (t, v')). now apply in_map.
  - injection E2 as -> ->. exfalso. apply Hn.
    change t with (fst (t, v)). now apply in_map.
  - now apply IH.
Qed.

Lemma nth_error_index_values (s : Series) (i : nat) (t : Timestamp) (v : float) :
  nth_error s i = Some (t, v) <->
  nth_error (index s) i = Some t /\ nth_error (values s) i = Some v.
Proof.
  unfold index, values. rewrite !nth_error_map.
  destruct (nth_error s i) as [[t0 v0]|]; simpl; split.
  - intros H; injection H as -> ->. auto.
  - intros [H1 H2]. congruence.
  - discriminate.
  - intros [H _]. discriminate.
Qed.

(** X1: deduplication keeps the first row of every date.  When
    [prepare_data] succeeds, the value retained in the history at the date
    of a raw row that is the first of its date is the value of that row, and
    no other value is retained at that date; when that value is a number the
    series returned holds it at that date too. *)
Theorem first_row_of_a_date_wins
    (self self1 : UniversalForecastModel) (data : DataFrame) (value_column : string)
    (s : Series) (before after : list Row) (r : Row) :
  prepare_data self data value_column = (Some s, self1) ->
  df_rows data = (before ++ r :: after)%list ->
  ~ In (row_date r) (map row_date before) ->
  exists hist,
    historical_data self1 = Some hist /\
    In (row_date r, row_value r value_column) hist /\
    (forall v, In (row_date r, v) hist -> v = row_value r value_column) /\
    (forall q, row_value r value_column = Some q ->
       In (row_date r, Some q) s /\
       forall v, In (row_date r, v) s -> v = Some q).
Proof.
  intros Hp Hrows Hfirst.
  apply prepare_data_success in Hp. destruct Hp as [-> [-> _]].
  exists (selected_series data value_column).
  split; [reflexivity|].
  assert (Hin : In (row_date r, row_value r value_column)
                  (selected_series data value_column)).
  { unfold selected_series.
    apply (in_map (fun r0 => (row_date r0, row_value r0 value_column))).
    apply selected_row_In. unfold drop_duplicates. rewrite Hrows.
    apply drop_duplicates_seen_keeps_first; [intros [] | assumption]. }
  assert (Hnd : NoDup (index (selected_series data value_column))).
  { rewrite index_selected_series.
    apply strictly_ascending_NoDup, selected_rows_ascending. }
  split; [exact Hin|].
  split; [intros v Hv; eapply NoDup_index_unique; eassumption|].
  intros q Hq. rewrite Hq in Hin.
  assert (Hs : In (row_date r, Some q) (prepared_series data value_column)).
  { apply In_nth_error in Hin. destruct Hin as [i Hi].
    apply nth_error_index_values in Hi. destruct Hi as [Hi1 Hi2].
    apply (nth_error_In _ i). apply nth_error_index_values. split.
    - now rewrite index_prepared_series.
    - rewrite values_prepared_series. now apply interpolate_keeps. }
  split; [exact Hs|].
  intros v Hv. eapply NoDup_index_unique; [|exact Hv | exact Hs].
  now rewrite index_prepared_series.
Qed.

Lemma first_row_of_a_date_wins_witness :
  exists hist,
    historical_data (snd (prepare_data fresh_model repeated_dates_frame "price"))
      = Some hist /\
    In (mkTimestamp 2024 2 29 0, Some 110%Q) hist /\
    ~ In (mkTimestamp 2024 2 29 0, Some 777%Q) hist.
Proof.
  destruct (first_row_of_a_date_wins fresh_model
              (set_historical_data fresh_model
                 (selected_series repeated_dates_frame "price"))
              repeated_dates_frame "price"
              (prepared_series repeated_dates_frame "price")
              [] (List.tl (df_rows repeated_dates_frame))
              (price_row 2024 2 29 (Some 110%Q)))
    as [hist [Hh [Hin [Huniq _]]]].
  - vm_compute. reflexivity.
  - reflexivity.
  - intros [].
  - exists hist. split; [exact Hh|]. split; [exact Hin|].
    intros H. apply Huniq in H. discriminate H.
Defined.

(** X2: when the value column is not a column of the frame,
    [prepare_data] returns [None] and leaves the object as it was, however
    many rows there are; [train] returns [False] without calling any fit,
    and [create_forecast] returns no forecast and no success. *)
Theorem missing_column_rejected
    (autots_fit : AutoTSConfig -> FitInput -> FitOutcome)
    (pd_date_range : Timestamp -> nat -> string -> option (list Timestamp))
    (self : UniversalForecastModel) (data : DataFrame) (value_column : string)
    (forecast_months : nat) (model_complexity frequency : string) :
  ~ In value_column (df_columns data) ->
  prepare_data self data value_column = (None, self) /\
  train autots_fit self data value_column = (false, self) /\
  create_forecast autots_fit pd_date_range data value_column
      forecast_months model_complexity frequency
    = (None, init forecast_months frequency model_complexity, false).
Proof.
  intros Hcol.
  assert (Hp : forall s0, prepare_data s0 data value_column = (None, s0)).
  { intros s0.
    destruct (prepare_data_cases s0 data value_column) as [[E _] | [_ [_ Hc]]];
      [exact E|].
    exfalso. apply Hcol. apply existsb_exists in Hc.
    destruct Hc as [c [Hin Heq]]. apply String.eqb_eq in Heq. now subst. }
  assert (Ht : forall s0, train autots_fit s0 data value_column = (false, s0)).
  { intros s0. unfold train. now rewrite Hp. }
  split; [apply Hp|]. split; [apply Ht|].
  unfold create_forecast. rewrite Ht. reflexivity.
Qed.

Lemma missing_column_rejected_witness :
  create_forecast fit_zeroes_then_ets no_other_frequency six_months "salary"
      3 "medium" "ME"
    = (None, init 3 "ME" "medium", false).
Proof.
  apply (missing_column_rejected fit_zeroes_then_ets no_other_frequency
           fresh_model six_months "salary" 3 "medium" "ME").
  simpl. intros [H | [H | []]]; discriminate H.
Defined.

(** ** What [train] leaves behind *)

Lemma string_length_append (s t : string) :
  String.length (s ++ t) = String.length s + String.length t.
Proof. induction s as [|c s IH]; simpl; [reflexivity | now rewrite IH]. Qed.

Lemma truthy_true (s : string) : truthy s = true -> s <> "".
Proof.
  unfold truthy. destruct (String.eqb_spec s ""); [discriminate | auto].
Qed.

Lemma fallback_name_not_bare (n : string) :
  (n ++ " (fallback)")%string <> "" /\ (n ++ " (fallback)")%string <> "ZeroesNaive".
Proof.
  split.
  - intros H. apply (f_equal String.length) in H.
    rewrite string_length_append in H. simpl in H. lia.
  - destruct n as [|c n]; [discriminate|].
    intros H. apply (f_equal String.length) in H.
    simpl in H. rewrite string_length_append in H. simpl in H. lia.
Qed.

Section TrainOutcome.

Variable autots_fit : AutoTSConfig -> FitInput -> FitOutcome.

(** The two ways out of the fallback tier. *)
Lemma fallback_outcome (self : UniversalForecastModel) (args : FallbackArgs) :
  let result := _train_simple_fallback autots_fit self args in
  (fst result = true /\
   training_successful (snd result) = true /\
   exists m n,
     model (snd result) = Some m /\
     model_best_model_name m = Some n /\ n <> "" /\
     best_model_name (snd result) = Some (n ++ " (fallback)")%string) \/
  (fst result = false /\
   training_successful (snd result) = training_successful self /\
   best_model_name (snd result) = best_model_name self).
Proof.
  assert (Hfit : forall s0 input,
    training_successful s0 = training_successful self ->
    best_model_name s0 = best_model_name self ->
    let result :=
      match autots_fit (fallback_config s0) input with
      | FitRaises => (false, record_fit s0 (fallback_config s0) input)
      | FitReturns m =>
          match model_best_model_name m with
          | Some name =>
              if truthy name
              then (true, set_trained (set_model (record_fit s0 (fallback_config s0) input) m)
                            (name ++ " (fallback)"))
              else (false, set_model (record_fit s0 (fallback_config s0) input) m)
          | None => (false, set_model (record_fit s0 (fallback_config s0) input) m)
          end
      end in
    (fst result = true /\
     training_successful (snd result) = true /\
     exists m n,
       model (snd result) = Some m /\
       model_best_model_name m = Some n /\ n <> "" /\
       best_model_name (snd result) = Some (n ++ " (fallback)")%string) \/
    (fst result = false /\
     training_successful (snd result) = training_successful self /\
     best_model_name (snd result) = best_model_name self)).
  { intros s0 input Hts Hbn. cbv zeta.
    destruct (autots_fit (fallback_config s0) input) as [|m]; [right; auto|].
    destruct (model_best_model_name m) as [name|] eqn:En; [|right; auto].
    destruct (truthy name) eqn:Et; [|right; auto].
    left. split; [reflexivity|]. split; [reflexivity|].
    exists m, name. repeat split; [exact En | now apply truthy_true]. }
  cbv zeta. unfold _train_simple_fallback.
  destruct args as [data value_column | ts].
  - destruct (truthy value_column).
    + destruct (prepare_data_cases self data value_column) as [[E _] | [E _]];
        rewrite E.
      * right. auto.
      * apply Hfit; reflexivity.
    + apply Hfit; reflexivity.
  - apply Hfit; reflexivity.
Qed.

(** X3: on an object that has not been trained yet, the value [train]
    returns is the success flag it leaves on the object.  When it is [True]
    a fitted model is stored together with a best model name that is neither
    empty nor the bare 'ZeroesNaive': the name the primary fit reported, or
    the name the fallback fit reported followed by " (fallback)".  When it is
    [False] the stored name is the one from before the call. *)
Theorem train_result_is_success_flag
    (self : UniversalForecastModel) (data : DataFrame) (value_column : string) :
  training_successful self = false ->
  let result := train autots_fit self data value_column in
  fst result = training_successful (snd result) /\
  (fst result = true ->
   exists m n name,
     model (snd result) = Some m /\
     model_best_model_name m = Some n /\
     best_model_name (snd result) = Some name /\
     name <> "" /\ name <> "ZeroesNaive" /\
     (name = n \/ name = (n ++ " (fallback)")%string)) /\
  (fst result = false -> best_model_name (snd result) = best_model_name self).
Proof.
  intros Hts. cbv zeta. unfold train.
  destruct (prepare_data_cases self data value_column) as [[E _] | [E _]]; rewrite E.
  { simpl. rewrite Hts. split; [reflexivity|]. split; [discriminate | reflexivity]. }
  assert (Hfb : forall s0 args,
    training_successful s0 = false ->
    best_model_name s0 = best_model_name self ->
    let result := _train_simple_fallback autots_fit s0 args in
    fst result = training_successful (snd result) /\
    (fst result = true ->
     exists m n name,
       model (snd result) = Some m /\
       model_best_model_name m = Some n /\
       best_model_name (snd result) = Some name /\
       name <> "" /\ name <> "ZeroesNaive" /\
       (name = n \/ name = (n ++ " (fallback)")%string)) /\
    (fst result = false -> best_model_name (snd result) = best_model_name self)).
  { intros s0 args H0 Hb. cbv zeta.
    destruct (fallback_outcome s0 args) as [[R1 [R2 [m [n [M1 [M2 [M3 M4]]]]]]] | [R1 [R2 R3]]].
    - rewrite R1, R2. split; [reflexivity|]. split; [|discriminate].
      intros _. exists m, n, (n ++ " (fallback)")%string.
      destruct (fallback_name_not_bare n) as [N1 N2].
      repeat split; try assumption. now right.
    - rewrite R1, R2, H0. split; [reflexivity|]. split; [discriminate|].
      intros _. now rewrite R3. }
  cbv zeta.
  destruct (autots_fit _ _) as [|m].
  - apply Hfb; reflexivity || exact Hts.
  - destruct (primary_accepts m) as [name|] eqn:Ea.
    + simpl. split; [reflexivity|]. split; [|discriminate].
      intros _. exists m, name, name.
      unfold primary_accepts in Ea.
      destruct (model_best_model_name m) as [n|] eqn:En; [|discriminate].
      destruct (truthy n) eqn:Et; simpl in Ea; [|discriminate].
      destruct (String.eqb_spec n "ZeroesNaive"); simpl in Ea; [discriminate|].
      injection Ea as <-.
      repeat split; try reflexivity; try assumption.
      * now apply truthy_true.
      * now left.
    + apply Hfb; reflexivity || exact Hts.
Qed.

(** The value [train] returns on an untrained object is the flag it
    leaves. *)
Lemma train_leaves_its_result (self : UniversalForecastModel) (data : DataFrame)
    (value_column : string) :
  training_successful self = false ->
  training_successful (snd (train autots_fit self data value_column))
  = fst (train autots_fit self data value_column).
Proof.
  intros Hts. unfold train.
  destruct (prepare_data_cases self data value_column) as [[E _] | [E _]]; rewrite E.
  { simpl. exact Hts. }
  assert (Hfb : forall s0 args,
    training_successful s0 = false ->
    training_successful (snd (_train_simple_fallback autots_fit s0 args))
    = fst (_train_simple_fallback autots_fit s0 args)).
  { intros s0 args H0.
    destruct (fallback_outcome s0 args) as [[R1 [R2 _]] | [R1 [R2 _]]];
      rewrite R1, R2; [reflexivity | exact H0]. }
  cbv zeta.
  destruct (autots_fit _ _) as [|m].
  - apply Hfb. exact Hts.
  - destruct (primary_accepts m); [reflexivity|].
    apply Hfb. exact Hts.
Qed.

End TrainOutcome.

Lemma train_result_is_success_flag_witness :
  fst (train fit_raises_then_naive fresh_model six_months "price") = true /\
  best_model_name (snd (train fit_raises_then_naive fresh_model six_months "price"))
    = Some "LastValueNaive (fallback)".
Proof.
  destruct (train_result_is_success_flag fit_raises_then_naive fresh_model
              six_months "price" eq_refl)
    as [Hflag _].
  split; [|vm_compute; reflexivity].
  rewrite Hflag. vm_compute. reflexivity.
Defined.

Ltac log_grows := simpl; rewrite <- ?app_assoc; reflexivity.

(** X4: [train] calls [AutoTS(...).fit] at most twice, and not at all
    exactly when data preparation fails.  The first call is the primary
    configuration on the prepared series.  A second call is made only when
    the primary fit raised or gave no acceptable best model; it is the
    fallback configuration, on the same prepared series, except that after an
    exception with an empty column name it is given the raw frame. *)
Theorem train_fit_calls
    (autots_fit : AutoTSConfig -> FitInput -> FitOutcome)
    (self : UniversalForecastModel) (data : DataFrame) (value_column : string) :
  let prepared := prepare_data self data value_column in
  let result := train autots_fit self data value_column in
  exists new,
    fit_calls (snd result) = (fit_calls self ++ new)%list /\
    ((new = [] /\ fst prepared = None /\ fst result = false) \/
     exists s,
       fst prepared = Some s /\
       let primary := primary_config (snd prepared) (List.length s) in
       let fallback := fallback_config (snd prepared) in
       ((new = [(primary, Prepared s)] /\ fst result = true /\
         exists m name,
           autots_fit primary (Prepared s) = FitReturns m /\
           primary_accepts m = Some name /\
           best_model_name (snd result) = Some name) \/
        (new = [(primary, Prepared s); (fallback, Prepared s)] /\
         ((autots_fit primary (Prepared s) = FitRaises /\ value_column <> "") \/
          exists m, autots_fit primary (Prepared s) = FitReturns m /\
                    primary_accepts m = None)) \/
        (new = [(primary, Prepared s); (fallback, RawFrame data)] /\
         autots_fit primary (Prepared s) = FitRaises /\ value_column = ""))).
Proof.
  cbv zeta. unfold train.
  destruct (prepare_data_cases self data value_column) as [[E _] | [E [Hl Hc]]];
    rewrite E.
  { exists []. rewrite app_nil_r. split; [reflexivity|]. left. auto. }
  simpl fst. simpl snd.
  set (s := prepared_series data value_column).
  set (self1 := set_historical_data self (selected_series data value_column)).
  set (primary := primary_config self1 (List.length s)).
  destruct (autots_fit primary (Prepared s)) as [|m] eqn:Ef.
  - unfold _train_simple_fallback.
    destruct (truthy value_column) eqn:Et.
    + match goal with |- context [prepare_data ?st data value_column] =>
        destruct (prepare_data_cases st data value_column) as [[E' [Hx|Hx]] | [E' _]];
          [lia | congruence | rewrite E']
      end.
      fold s.
      exists [(primary, Prepared s); (fallback_config self1, Prepared s)].
      split.
      { subst self1.
        match goal with |- context [match autots_fit ?c ?i with _ => _ end] =>
          destruct (autots_fit c i) as [|m'] end; [log_grows|].
        destruct (model_best_model_name m') as [n|]; [|log_grows].
        destruct (truthy n); log_grows. }
      right. exists s. split; [reflexivity|]. right. left.
      split; [reflexivity|]. left. split; [exact Ef | now apply truthy_true].
    + exists [(primary, Prepared s); (fallback_config self1, RawFrame data)].
      split.
      { subst self1.
        match goal with |- context [match autots_fit ?c ?i with _ => _ end] =>
          destruct (autots_fit c i) as [|m'] end; [log_grows|].
        destruct (model_best_model_name m') as [n|]; [|log_grows].
        destruct (truthy n); log_grows. }
      right. exists s. split; [reflexivity|]. right. right.
      split; [reflexivity|]. split; [exact Ef|].
      unfold truthy in Et. destruct (String.eqb_spec value_column ""); [assumption | discriminate].
  - destruct (primary_accepts m) as [name|] eqn:Ea.
    + exists [(primary, Prepared s)]. split; [reflexivity|].
      right. exists s. split; [reflexivity|]. left.
      split; [reflexivity|]. split; [reflexivity|]. exists m, name.
      split; [exact Ef|]. split; [exact Ea | reflexivity].
    + unfold _train_simple_fallback.
      exists [(primary, Prepared s); (fallback_config self1, Prepared s)].
      split.
      { subst self1.
        match goal with |- context [match autots_fit ?c ?i with _ => _ end] =>
          destruct (autots_fit c i) as [|m'] end; [log_grows|].
        destruct (model_best_model_name m') as [n|]; [|log_grows].
        destruct (truthy n); log_grows. }
      right. exists s. split; [reflexivity|]. right. left.
      split; [reflexivity|]. right. exists m. split; [exact Ef | exact Ea].
Qed.

(** ** What [create_forecast] returns *)

Lemma trend_forecast_length
    (pd_date_range : Timestamp -> nat -> string -> option (list Timestamp))
    (self : UniversalForecastModel) (forecast : Series) :
  _simple_trend_forecast pd_date_range self = Some forecast ->
  List.length forecast = forecast_length self.
Proof.
  unfold _simple_trend_forecast.
  destruct (historical_data self) as [hist|]; [|discriminate].
  destruct (trend_values _ _) as [fv|] eqn:Ev; [|discriminate].
  destruct (last_item _) as [last|]; [|discriminate].
  destruct (trend_dates _ _ _ _) as [dates|]; [|discriminate].
  unfold forecast_frame.
  destruct (Nat.eqb_spec (List.length fv) (List.length dates)) as [E|E]; [|discriminate].
  intros H; injection H as <-.
  destruct (combine_length_eq dates fv (eq_sym E)) as [C _].
  rewrite C, <- E. eapply trend_values_length; eassumption.
Qed.

Section CreateForecast.

Variable autots_fit : AutoTSConfig -> FitInput -> FitOutcome.
Variable pd_date_range : Timestamp -> nat -> string -> option (list Timestamp).

(** [predict] returns no frame exactly when the prediction holds none,
    wherever the trend extrapolation has one. *)
Lemma predict_none_iff (self : UniversalForecastModel) :
  _simple_trend_forecast pd_date_range self <> None ->
  (predict pd_date_range self = None <-> predicts_none self = true).
Proof.
  intros Htrend. unfold predict, predicts_none.
  destruct (training_successful self); simpl;
    [|split; [intros H; now contradiction Htrend | discriminate]].
  destruct (model self) as [m|];
    [|split; [intros H; now contradiction Htrend | discriminate]].
  destruct (model_predict m) as [| | |[f|]];
    try (split; [intros H; now contradiction Htrend | discriminate]).
  split; reflexivity.
Qed.

(** Whether [prepare_data] accepts the frame decides the success flag of
    [create_forecast]; with the flag there is a forecast unless the
    prediction of the trained model holds none. *)
Lemma create_forecast_outcome (data : DataFrame) (value_column : string)
    (forecast_months : nat) (model_complexity frequency : string) :
  frequency_supported pd_date_range frequency forecast_months ->
  let result := create_forecast autots_fit pd_date_range data value_column
                  forecast_months model_complexity frequency in
  (6 <= List.length (drop_duplicates (df_rows data)) /\
   In value_column (df_columns data) /\
   snd result = true /\
   (fst (fst result) = None <-> predicts_none (snd (fst result)) = true)) \/
  ((List.length (drop_duplicates (df_rows data)) < 6 \/
    ~ In value_column (df_columns data)) /\
   result = (None, init forecast_months frequency model_complexity, false)).
Proof.
  intros Hfreq. cbv zeta.
  set (self := init forecast_months frequency model_complexity).
  destruct (prepare_data_cases self data value_column) as [[E Hwhy] | [E [Hlen Hcol]]].
  - right. split.
    + destruct Hwhy as [Hl | Hc]; [now left | right].
      intros Hin.
      assert (Hex : existsb (String.eqb value_column) (df_columns data) = true).
      { apply existsb_exists. exists value_column.
        split; [assumption | apply String.eqb_refl]. }
      congruence.
    + unfold create_forecast, train. fold self. rewrite E. reflexivity.
  - left. split; [exact Hlen|]. split.
    { apply existsb_exists in Hcol. destruct Hcol as [c [Hin Heq]].
      apply String.eqb_eq in Heq. now subst. }
    pose proof (train_keeps_history autots_fit _ _ _ _ _ E) as Hhist.
    pose proof (train_settings autots_fit self data value_column) as [Hfl [Hfr _]].
    pose proof (train_leaves_its_result autots_fit self data value_column eq_refl)
      as Hflag.
    unfold create_forecast. fold self.
    destruct (train autots_fit self data value_column) as [success trained] eqn:Et.
    simpl in Hhist, Hfl, Hfr, Hflag.
    destruct (trend_forecast_total pd_date_range trained _ Hhist)
      as [forecast [_ [_ [_ [Hf _]]]]].
    { intros Hnil. pose proof (selected_series_length data value_column) as L.
      rewrite Hnil in L. simpl in L. lia. }
    { rewrite <- Hfl, <- Hfr. exact Hfreq. }
    destruct success; simpl.
    + split; [reflexivity|]. apply predict_none_iff. rewrite Hf. discriminate.
    + rewrite Hf. simpl. split; [reflexivity|].
      unfold predicts_none. rewrite Hflag. simpl. split; discriminate.
Qed.

(** X5: for a frequency the index can be built for, [create_forecast]
    reports success exactly when the frame has at least 6 distinct dates and
    the value column, whatever AutoTS does.  With the success flag it
    returns a forecast, except when the object is trained and the prediction
    of its model holds [None] for a forecast: that [None] is returned as it
    is, beside the flag.  Without the flag it returns no forecast together
    with the untouched fresh object. *)
Theorem create_forecast_succeeds_iff_prepared
    (data : DataFrame) (value_column : string)
    (forecast_months : nat) (model_complexity frequency : string) :
  frequency_supported pd_date_range frequency forecast_months ->
  let result := create_forecast autots_fit pd_date_range data value_column
                  forecast_months model_complexity frequency in
  (snd result = true <->
   6 <= List.length (drop_duplicates (df_rows data)) /\
   In value_column (df_columns data)) /\
  (snd result = true ->
   (fst (fst result) = None <-> predicts_none (snd (fst result)) = true)) /\
  (snd result = false ->
   result = (None, init forecast_months frequency model_complexity, false)).
Proof.
  intros Hfreq. cbv zeta.
  destruct (create_forecast_outcome data value_column forecast_months
              model_complexity frequency Hfreq)
    as [[Hl [Hc [Hs Hf]]] | [Hwhy Hr]].
  - rewrite Hs. repeat split; auto; try apply Hf. discriminate.
  - rewrite Hr. simpl. split; [|split].
    + split; [discriminate|]. intros [Hl Hc]. destruct Hwhy; [lia | contradiction].
    + discriminate.
    + reflexivity.
Qed.

(** X6: [create_apartment_forecast] and [create_salary_forecast] run
    [create_forecast] at frequency 'ME', for which the index can always be
    built: they report success exactly when the frame has at least 6
    distinct dates and the column 'price', respectively 'salary'; with the
    success flag the forecast is missing exactly when the prediction of the
    trained model holds [None] for it. *)
Theorem wrappers_succeed_iff_prepared
    (data : DataFrame) (forecast_months : nat) (model_complexity : string) :
  let apartments := create_apartment_forecast autots_fit pd_date_range data
                      forecast_months model_complexity in
  let salaries := create_salary_forecast autots_fit pd_date_range data
                    forecast_months model_complexity in
  (snd apartments = true <->
   6 <= List.length (drop_duplicates (df_rows data)) /\ In "price" (df_columns data)) /\
  (snd apartments = true ->
   (fst (fst apartments) = None <-> predicts_none (snd (fst apartments)) = true)) /\
  (snd apartments = false -> fst (fst apartments) = None) /\
  (snd salaries = true <->
   6 <= List.length (drop_duplicates (df_rows data)) /\ In "salary" (df_columns data)) /\
  (snd salaries = true ->
   (fst (fst salaries) = None <-> predicts_none (snd (fst salaries)) = true)) /\
  (snd salaries = false -> fst (fst salaries) = None).
Proof.
  cbv zeta. unfold create_apartment_forecast, create_salary_forecast.
  assert (Hme : frequency_supported pd_date_range "ME" forecast_months)
    by (right; left; reflexivity).
  assert (H : forall column,
    let result := create_forecast autots_fit pd_date_range data column
                    forecast_months model_complexity "ME" in
    (snd result = true <->
     6 <= List.length (drop_duplicates (df_rows data)) /\ In column (df_columns data)) /\
    (snd result = true ->
     (fst (fst result) = None <-> predicts_none (snd (fst result)) = true)) /\
    (snd result = false -> fst (fst result) = None)).
  { intros column. cbv zeta.
    destruct (create_forecast_outcome data column forecast_months
                model_complexity "ME" Hme)
      as [[Hl [Hc [Hs Hf]]] | [Hwhy Hr]].
    - rewrite Hs. split; [split; auto|]. split; [intros _; exact Hf | discriminate].
    - rewrite Hr. simpl. split; [|split; [discriminate | reflexivity]].
      split; [discriminate|].
      intros [Hl Hc]. destruct Hwhy; [lia | contradiction]. }
  destruct (H "price") as [A1 [A2 A3]]. destruct (H "salary") as [S1 [S2 S3]].
  split; [exact A1|]. split; [exact A2|]. split; [exact A3|].
  split; [exact S1|]. split; [exact S2 | exact S3].
Qed.

(** X7: a forecast returned by [create_forecast] is either the forecast
    that the stored, successfully trained model gave to [predict], passed on
    as it is, or the trend extrapolation of the retained history, which has
    exactly the requested number of rows. *)
Theorem forecast_provenance
    (data : DataFrame) (value_column : string)
    (forecast_months : nat) (model_complexity frequency : string)
    (forecast : Series) :
  let result := create_forecast autots_fit pd_date_range data value_column
                  forecast_months model_complexity frequency in
  fst (fst result) = Some forecast ->
  snd result = true /\
  ((training_successful (snd (fst result)) = true /\
    exists m, model (snd (fst result)) = Some m /\
              model_predict m = PredictReturns (Some forecast)) \/
   (_simple_trend_forecast pd_date_range (snd (fst result)) = Some forecast /\
    List.length forecast = forecast_months /\
    historical_data (snd (fst result)) = Some (selected_series data value_column))).
Proof.
  cbv zeta. unfold create_forecast.
  set (self := init forecast_months frequency model_complexity).
  pose proof (train_settings autots_fit self data value_column) as [Hfl _].
  destruct (prepare_data_cases self data value_column) as [[E _] | [E _]].
  { unfold train. rewrite E. simpl. discriminate. }
  pose proof (train_keeps_history autots_fit _ _ _ _ _ E) as Hhist.
  destruct (train autots_fit self data value_column) as [success trained] eqn:Et.
  simpl in Hfl, Hhist.
  assert (Htrend : _simple_trend_forecast pd_date_range trained = Some forecast ->
            _simple_trend_forecast pd_date_range trained = Some forecast /\
            List.length forecast = forecast_months /\
            historical_data trained = Some (selected_series data value_column)).
  { intros H. split; [exact H|]. split; [|exact Hhist].
    rewrite (trend_forecast_length _ _ _ H). now rewrite <- Hfl. }
  destruct success; simpl.
  - intros Hp. split; [reflexivity|]. unfold predict in Hp.
    destruct (training_successful trained) eqn:Ets; [|right; auto].
    destruct (model trained) as [m|] eqn:Em; [|right; auto].
    destruct (model_predict m) as [| | |[f|]] eqn:Epr;
      try (right; auto; fail); [|discriminate Hp].
    injection Hp as ->. left. split; [reflexivity|]. exists m. auto.
  - destruct (_simple_trend_forecast pd_date_range trained) as [f|] eqn:Ef;
      [|discriminate].
    intros H. injection H as ->. split; [reflexivity|]. right. auto.
Qed.

End CreateForecast.

Lemma create_forecast_succeeds_iff_prepared_witness :
  snd (create_forecast fit_always_raises no_other_frequency six_months "price"
         3 "medium" "D") = true.
Proof.
  apply (create_forecast_succeeds_iff_prepared fit_always_raises no_other_frequency
           six_months "price" 3 "medium" "D").
  - left. reflexivity.
  - split; [vm_compute; lia | simpl; now left].
Defined.

(** The primary tier succeeds and the prediction of its model holds no
    forecast: [create_forecast] returns [None] beside the success flag. *)
Example create_forecast_without_forecast :
  match create_forecast fit_ets_without_forecast no_other_frequency six_months "price"
          3 "medium" "ME" with
  | (None, model, true) => training_successful model && predicts_none model
  | _ => false
  end = true.
Proof. vm_compute. reflexivity. Qed.

Lemma forecast_provenance_witness :
  exists forecast,
    fst (fst (create_forecast fit_zeroes_then_ets no_other_frequency six_months
                "price" 3 "medium" "ME")) = Some forecast /\
    List.length forecast = 3.
Proof.
  destruct (fst (fst (create_forecast fit_zeroes_then_ets no_other_frequency
                        six_months "price" 3 "medium" "ME")))
    as [forecast|] eqn:E; [|vm_compute in E; discriminate E].
  exists forecast. split; [reflexivity|].
  destruct (forecast_provenance fit_zeroes_then_ets no_other_frequency six_months
              "price" 3 "medium" "ME" forecast E)
    as [_ [[_ [m [Hmodel Hm]]] | [_ [Hl _]]]].
  - vm_compute in Hmodel. injection Hmodel as <-. discriminate Hm.
  - exact Hl.
Defined.

(** ** The trend extrapolation again *)

Lemma first_of_next_month_later (t : Timestamp) :
  forall d d' n n', ts_ltb (mkTimestamp (year t) (month t) d n)
                      (mkTimestamp (year (first_of_next_month t))
                         (month (first_of_next_month t)) d' n') = true.
Proof.
  intros d d' n n'. unfold ts_ltb, ts_compare, first_of_next_month. simpl.
  destruct (Z.eqb_spec (month t) 12) as [E|E]; simpl.
  - destruct (Z.compare_spec (year t) (year t + 1)); [lia | reflexivity | lia].
  - rewrite Z.compare_refl.
    destruct (Z.compare_spec (month t) (month t + 1)); [lia | reflexivity | lia].
Qed.

Lemma month_end_offset_later (t : Timestamp) : ts_ltb t (month_end_offset t) = true.
Proof.
  unfold month_end_offset.
  destruct (Z.ltb_spec (day t) (days_in_month (year t) (month t))) as [H|H].
  - destruct t as [y m d n]. unfold ts_ltb, ts_compare, end_of_month. simpl in *.
    rewrite !Z.compare_refl.
    destruct (Z.compare_spec d (days_in_month y m)); [lia | reflexivity | lia].
  - destruct t as [y m d n]. unfold end_of_month.
    apply (first_of_next_month_later (mkTimestamp y m d n)).
Qed.

Lemma next_day_later (t : Timestamp) : ts_ltb t (next_day t) = true.
Proof.
  unfold next_day.
  destruct (Z.ltb_spec (day t) (days_in_month (year t) (month t))) as [H|H].
  - destruct t as [y m d n]. unfold ts_ltb, ts_compare. simpl.
    rewrite !Z.compare_refl.
    destruct (Z.compare_spec d (d + 1)); [lia | reflexivity | lia].
  - destruct t as [y m d n].
    pose proof (first_of_next_month_later (mkTimestamp y m d n) d 1%Z n n) as L.
    replace (first_of_next_month (mkTimestamp y m d n))
      with (mkTimestamp (year (first_of_next_month (mkTimestamp y m d n)))
              (month (first_of_next_month (mkTimestamp y m d n))) 1 n);
      [exact L|].
    unfold first_of_next_month. simpl. now destruct (m =? 12)%Z.
Qed.

(** A range generated by a step that moves forward is ascending and lies
    after any stamp that is before its start. *)
Lemma generate_range_ascending (step : Timestamp -> Timestamp) :
  (forall t, ts_ltb t (step t) = true) ->
  forall periods cur,
    strictly_ascending (generate_range step cur periods) /\
    forall t, In t (generate_range step cur periods) ->
              t = cur \/ ts_ltb cur t = true.
Proof.
  intros Hstep. unfold strictly_ascending.
  induction periods as [|p IH]; intros cur; simpl.
  - split; [constructor | contradiction].
  - destruct (IH (step cur)) as [Hs Hin].
    assert (Hall : forall t, In t (generate_range step (step cur) p) ->
                             ts_ltb cur t = true).
    { intros t Ht. destruct (Hin t Ht) as [-> | Hlt]; [apply Hstep|].
      eapply ts_ltb_trans; [apply Hstep | exact Hlt]. }
    split.
    + constructor; [exact Hs|]. now apply Forall_forall.
    + intros t [<- | Ht]; [now left | right; now apply Hall].
Qed.

(** X8: for the frequencies 'D' and 'ME' and a non-empty history, the
    stamps of the trend forecast are strictly ascending and every one of them
    is strictly later than the last stamp of the history; at frequency 'D'
    the first one is the day after the last historical stamp and each one is
    the day after the one before. *)
Theorem trend_index_after_history
    (pd_date_range : Timestamp -> nat -> string -> option (list Timestamp))
    (self : UniversalForecastModel) (hist : Series) (last_date : Timestamp) :
  historical_data self = Some hist ->
  frequency self = "D" \/ frequency self = "ME" ->
  last_item (index hist) = Some last_date ->
  exists forecast,
    _simple_trend_forecast pd_date_range self = Some forecast /\
    strictly_ascending (index forecast) /\
    (forall t, In t (index forecast) -> ts_ltb last_date t = true) /\
    (frequency self = "D" ->
     (forall t, hd_error (index forecast) = Some t -> t = next_day last_date) /\
     (forall k t t',
        nth_error (index forecast) k = Some t ->
        nth_error (index forecast) (S k) = Some t' ->
        t' = next_day t)).
Proof.
  intros Hh Hfreq Hlast.
  destruct (trend_forecast_total pd_date_range self hist Hh)
    as [forecast [fv [last [dates [Hfc [_ [Hl [Hd [_ [Hidx _]]]]]]]]]].
  { intros ->. discriminate Hlast. }
  { destruct Hfreq as [-> | ->]; [left | right; left]; reflexivity. }
  rewrite Hlast in Hl. injection Hl as <-.
  exists forecast. split; [exact Hfc|]. rewrite Hidx.
  unfold trend_dates in Hd.
  destruct Hfreq as [Hf | Hf]; rewrite Hf in Hd; simpl in Hd; injection Hd as <-.
  - unfold date_range_D.
    destruct (generate_range_ascending next_day next_day_later
                (forecast_length self) (next_day last_date)) as [Hs Hin].
    split; [exact Hs|]. split.
    + intros t Ht. destruct (Hin t Ht) as [-> | Hlt]; [apply next_day_later|].
      eapply ts_ltb_trans; [apply next_day_later | exact Hlt].
    + intros _. split.
      * intros t Ht. destruct (forecast_length self); simpl in Ht; [discriminate|].
        now injection Ht as <-.
      * apply generate_range_step.
  - unfold date_range_ME. rewrite rollforward_after_month_begin.
    destruct (generate_range_ascending month_end_offset month_end_offset_later
                (forecast_length self)
                (end_of_month (first_of_next_month last_date))) as [Hs Hin].
    split; [exact Hs|].
    assert (Hfirst : ts_ltb last_date (end_of_month (first_of_next_month last_date)) = true).
    { destruct last_date as [y m d n]. unfold end_of_month.
      apply (first_of_next_month_later (mkTimestamp y m d n)). }
    split.
    + intros t Ht. destruct (Hin t Ht) as [-> | Hlt]; [exact Hfirst|].
      eapply ts_ltb_trans; [exact Hfirst | exact Hlt].
    + rewrite Hf. discriminate.
Qed.

Lemma trend_index_after_history_witness :
  exists forecast,
    _simple_trend_forecast no_other_frequency
      (set_historical_data (init 3 "D" "medium") ten_months_line) = Some forecast /\
    index forecast
      = [mkTimestamp 2024 11 1 0; mkTimestamp 2024 11 2 0; mkTimestamp 2024 11 3 0].
Proof.
  destruct (trend_index_after_history no_other_frequency
              (set_historical_data (init 3 "D" "medium") ten_months_line)
              ten_months_line (mkTimestamp 2024 10 31 0) eq_refl
              (or_introl eq_refl) eq_refl)
    as [forecast [Hf _]].
  exists forecast. split; [exact Hf|].
  vm_compute in Hf. injection Hf as <-. reflexivity.
Defined.

Lemma fsum_with_null (l : list float) : existsb isnull l = true -> fsum l = NaN.
Proof.
  induction l as [|[q|] tl IH]; simpl; intros H; [discriminate | | reflexivity].
  rewrite (IH H). reflexivity.
Qed.

Lemma map_constant {A B : Type} (b : B) (l : list A) :
  map (fun _ => b) l = repeat b (List.length l).
Proof. induction l as [|a l IH]; simpl; [reflexivity | now rewrite IH]. Qed.

(** X9: a null in the value column of a row that deduplication keeps (the
    first row of its date) stays in the retained history, and a history of
    at least 2 points with a null gives NaN for every value of the trend
    forecast ([np.polyfit] propagating NaN).  So when both training tiers
    fail on such a frame, [create_forecast] returns no number: with the
    index of the forecast built (always for 'D' and 'ME') it returns, beside
    the success flag, a forecast of the requested length made of NaN only,
    although [prepare_data] had filled the nulls in the series it returned;
    with the frequency alias rejected by [pd.date_range] it returns no
    forecast and no success. *)
Theorem null_in_history_gives_nan_forecast
    (autots_fit : AutoTSConfig -> FitInput -> FitOutcome)
    (pd_date_range : Timestamp -> nat -> string -> option (list Timestamp))
    (data : DataFrame) (value_column : string)
    (forecast_months : nat) (model_complexity frequency : string) (r : Row) :
  fst (prepare_data (init forecast_months frequency model_complexity)
         data value_column) <> None ->
  In r (drop_duplicates (df_rows data)) ->
  isnull (row_value r value_column) = true ->
  fst (train autots_fit (init forecast_months frequency model_complexity)
         data value_column) = false ->
  let result := create_forecast autots_fit pd_date_range data value_column
                  forecast_months model_complexity frequency in
  exists last_date,
    last_item (index (selected_series data value_column)) = Some last_date /\
    historical_data (snd (fst result)) = Some (selected_series data value_column) /\
    In (row_date r, row_value r value_column) (selected_series data value_column) /\
    (index_can_be_built pd_date_range frequency last_date forecast_months ->
     exists forecast,
       fst (fst result) = Some forecast /\ snd result = true /\
       values forecast = repeat NaN forecast_months) /\
    (index_rejected pd_date_range frequency last_date forecast_months ->
     fst (fst result) = None /\ snd result = false).
Proof.
  intros Hprep Hr Hrnull Hfail. cbv zeta.
  set (self := init forecast_months frequency model_complexity) in *.
  destruct (prepare_data_cases self data value_column) as [[E _] | [E [Hlen _]]].
  { rewrite E in Hprep. now contradiction Hprep. }
  assert (Hin : In (row_date r, row_value r value_column)
                  (selected_series data value_column)).
  { unfold selected_series.
    apply (in_map (fun r => (row_date r, row_value r value_column))).
    now apply selected_row_In. }
  assert (Hnull : existsb isnull (values (selected_series data value_column)) = true).
  { apply existsb_exists. exists (row_value r value_column). split; [|exact Hrnull].
    unfold values.
    apply (in_map snd _ (row_date r, row_value r value_column) Hin). }
  pose proof (train_keeps_history autots_fit _ _ _ _ _ E) as Hhist.
  pose proof (train_settings autots_fit self data value_column) as [Hfl [Hfr _]].
  unfold create_forecast. fold self.
  destruct (train autots_fit self data value_column) as [success trained] eqn:Et.
  simpl in Hfail, Hhist, Hfl, Hfr. subst success.
  destruct (last_item_some (index (selected_series data value_column)))
    as [last_date Hlast].
  { destruct (selected_series data value_column); [contradiction Hin | discriminate]. }
  exists last_date. split; [exact Hlast|].
  split; [now destruct (_simple_trend_forecast pd_date_range trained)|].
  split; [exact Hin|]. split.
  - intros Hbuilt.
    destruct (trend_forecast_built pd_date_range trained _ last_date Hhist Hlast)
      as [forecast [fv [dates [Hf [Hv [_ [_ [_ Hvals]]]]]]]].
    { rewrite <- Hfl, <- Hfr. exact Hbuilt. }
    exists forecast. rewrite Hf. split; [reflexivity|]. split; [reflexivity|].
    rewrite Hvals. unfold trend_values in Hv.
    assert (Hn : List.length (values (selected_series data value_column))
                 = List.length (drop_duplicates (df_rows data))).
    { unfold values. rewrite length_map. apply selected_series_length. }
    rewrite Hn in Hv.
    destruct (Nat.ltb_spec (List.length (drop_duplicates (df_rows data))) 2); [lia|].
    unfold np_polyfit1 in Hv. rewrite (fsum_with_null _ Hnull) in Hv.
    destruct (fsum (np_arange 0 (List.length (drop_duplicates (df_rows data)))));
      simpl in Hv; injection Hv as <-.
    all: rewrite map_constant, np_arange_length, <- Hfl; f_equal; simpl; lia.
  - intros Hrej.
    rewrite (trend_forecast_rejected pd_date_range trained _ last_date Hhist Hlast).
    + split; reflexivity.
    + rewrite <- Hfl, <- Hfr. exact Hrej.
Qed.

Lemma null_in_history_gives_nan_forecast_witness :
  exists forecast,
    fst (fst (create_forecast fit_always_raises no_other_frequency
                interior_null_frame "price" 3 "medium" "ME")) = Some forecast /\
    values forecast = [NaN; NaN; NaN].
Proof.
  destruct (null_in_history_gives_nan_forecast fit_always_raises no_other_frequency
              interior_null_frame "price" 3 "medium" "ME"
              (price_row 2024 2 29 NaN))
    as [last_date [_ [_ [_ [Hbuilt _]]]]].
  - vm_compute. discriminate.
  - vm_compute. right. left. reflexivity.
  - reflexivity.
  - vm_compute. reflexivity.
  - destruct Hbuilt as [forecast [Hf [_ Hv]]]; [right; left; reflexivity|].
    exists forecast. split; [exact Hf | exact Hv].
Defined.

(** ** The fitted line minimises the squared error *)

Lemma squared_error_expanded (a b : Q) (xs : list Q) :
  forall qs, List.length qs = List.length xs ->
    (squared_error a b xs qs
     == qsum (qmul_lists qs qs) - 2 * a * qsum (qmul_lists xs qs) - 2 * b * qsum qs
        + a * a * qsum (qmul_lists xs xs) + 2 * a * b * qsum xs
        + b * b * of_nat (List.length xs))%Q.
Proof.
  induction xs as [|x xs IH]; intros [|q qs] Hl; simpl in Hl; try discriminate.
  - simpl. unfold of_nat. simpl. ring.
  - simpl squared_error. simpl qmul_lists. simpl qsum. simpl List.length.
    rewrite of_nat_S, IH by lia. ring.
Qed.

Lemma square_nonneg (w : Q) : (0 <= w * w)%Q.
Proof. unfold Qle, Qmult. simpl. nia. Qed.

Lemma line_square_sum_nonneg (u v : Q) (xs : list Q) :
  (0 <= u * u * qsum (qmul_lists xs xs) + 2 * u * v * qsum xs
        + v * v * of_nat (List.length xs))%Q.
Proof.
  induction xs as [|x xs IH].
  - simpl. unfold of_nat. simpl. setoid_replace (u * u * 0 + 2 * u * v * 0 + v * v * 0)%Q
      with 0%Q by ring. apply Qle_refl.
  - simpl qmul_lists. simpl qsum. simpl List.length. rewrite of_nat_S.
    setoid_replace (u * u * (x * x + qsum (qmul_lists xs xs))
                    + 2 * u * v * (x + qsum xs)
                    + v * v * (of_nat (List.length xs) + 1))%Q
      with ((u * x + v) * (u * x + v)
            + (u * u * qsum (qmul_lists xs xs) + 2 * u * v * qsum xs
               + v * v * of_nat (List.length xs)))%Q by ring.
    pose proof (square_nonneg (u * x + v)) as Hsq.
    lra.
Qed.

(** The normal equations of the fit on [np.arange(n)]. *)
Lemma polyfit_normal_equations (qs : list Q) (slope intercept : Q) :
  2 <= List.length qs ->
  np_polyfit1 (np_arange 0 (List.length qs)) (map Some qs)
    = (Some slope, Some intercept) ->
  let xs := map of_nat (seq 0 (List.length qs)) in
  (slope * qsum (qmul_lists xs xs) + intercept * qsum xs == qsum (qmul_lists xs qs))%Q /\
  (slope * qsum xs + intercept * of_nat (List.length qs) == qsum qs)%Q.
Proof.
  intros Hn Hfit xs.
  rewrite np_arange_numbers, Nat.sub_0_r in Hfit.
  unfold np_polyfit1 in Hfit.
  rewrite !fsum_numbers, !fmul_lists_numbers, !fsum_numbers in Hfit.
  rewrite !length_map, length_seq in Hfit. fold xs in Hfit.
  pose proof (arange_not_degenerate (List.length qs) Hn) as HD. cbv zeta in HD.
  fold xs in HD.
  pose proof (of_nat_ge (List.length qs) 2 Hn) as HN.
  change (of_nat 2) with 2%Q in HN.
  set (N := of_nat (List.length qs)) in *.
  set (Sx := qsum xs) in *. set (Sxx := qsum (qmul_lists xs xs)) in *.
  set (Sy := qsum qs) in *. set (Sxy := qsum (qmul_lists xs qs)) in *.
  injection Hfit as Hs Hi.
  rewrite <- Hi, <- Hs. split; field; (split; [lra | exact HD]) || lra || exact HD.
Qed.

(** X10: on a history of at least 2 numbers, the line that
    [_simple_trend_forecast] fits is the least-squares line of the history
    taken at the positions [0, ..., n - 1]: no slope and intercept give a
    smaller sum of squared deviations.  Every forecast the method returns
    continues that line: it has the requested length and its value at
    position [k] is [slope * (n + k) + intercept].  Arithmetic is exact
    here, where the code rounds. *)
Theorem trend_line_is_least_squares
    (pd_date_range : Timestamp -> nat -> string -> option (list Timestamp))
    (self : UniversalForecastModel) (hist : Series) (qs : list Q) :
  historical_data self = Some hist ->
  values hist = map Some qs ->
  2 <= List.length hist ->
  exists slope intercept,
    np_polyfit1 (np_arange 0 (List.length hist)) (values hist)
      = (Some slope, Some intercept) /\
    (forall a b,
       (squared_error slope intercept (map of_nat (seq 0 (List.length hist))) qs
        <= squared_error a b (map of_nat (seq 0 (List.length hist))) qs)%Q) /\
    (forall forecast,
       _simple_trend_forecast pd_date_range self = Some forecast ->
       List.length forecast = forecast_length self /\
       forall k, k < forecast_length self ->
         nth_error (values forecast) k
           = Some (Some (slope * of_nat (List.length hist + k) + intercept)%Q)).
Proof.
  intros Hh Hqs Hlen.
  assert (Hn : List.length qs = List.length hist).
  { rewrite <- (length_map Some qs), <- Hqs. unfold values. apply length_map. }
  assert (Hfit : exists slope intercept,
             np_polyfit1 (np_arange 0 (List.length qs)) (map Some qs)
             = (Some slope, Some intercept)).
  { rewrite np_arange_numbers. unfold np_polyfit1.
    rewrite !fsum_numbers, !fmul_lists_numbers, !fsum_numbers. eauto. }
  destruct Hfit as [slope [intercept Hfit]].
  exists slope, intercept.
  split; [now rewrite Hqs, <- Hn|]. split.
  - intros a b. rewrite <- Hn in *.
    destruct (polyfit_normal_equations qs slope intercept Hlen Hfit) as [N1 N2].
    cbv zeta in N1, N2.
    assert (Hl : List.length qs = List.length (map of_nat (seq 0 (List.length qs))))
      by now rewrite length_map, length_seq.
    rewrite !squared_error_expanded by exact Hl.
    pose proof (line_square_sum_nonneg (a - slope) (b - intercept)
                  (map of_nat (seq 0 (List.length qs)))) as Hpos.
    rewrite <- Hl in *.
    set (xs := map of_nat (seq 0 (List.length qs))) in *.
    set (N := of_nat (List.length qs)) in *.
    set (Sx := qsum xs) in *. set (Sxx := qsum (qmul_lists xs xs)) in *.
    set (Sy := qsum qs) in *. set (Sxy := qsum (qmul_lists xs qs)) in *.
    set (Syy := qsum (qmul_lists qs qs)) in *.
    rewrite <- N1, <- N2. lra.
  - intros forecast Hfc.
    split; [exact (trend_forecast_length pd_date_range self forecast Hfc)|].
    intros k Hk.
    unfold _simple_trend_forecast in Hfc. rewrite Hh in Hfc.
    destruct (trend_values (values hist) (forecast_length self)) as [fv|] eqn:Hv;
      [|discriminate].
    destruct (last_item (index hist)) as [last|]; [|discriminate].
    destruct (trend_dates _ _ _ _) as [dates|]; [|discriminate].
    unfold forecast_frame in Hfc.
    destruct (Nat.eqb_spec (List.length fv) (List.length dates)) as [E|E];
      [|discriminate].
    injection Hfc as <-.
    destruct (combine_length_eq dates fv (eq_sym E)) as [_ [_ Hvals]].
    unfold values at 1. rewrite Hvals.
    unfold trend_values in Hv. rewrite Hqs, length_map, Hn in Hv.
    destruct (Nat.ltb_spec (List.length hist) 2); [lia|].
    rewrite Hn in Hfit. rewrite Hfit in Hv. injection Hv as <-.
    unfold np_arange. rewrite map_map.
    rewrite nth_error_map_seq by lia. reflexivity.
Qed.

Lemma trend_line_is_least_squares_witness :
  exists slope intercept,
    np_polyfit1 (np_arange 0 3) [Some 1%Q; Some 3%Q; Some 2%Q]
      = (Some slope, Some intercept) /\
    (squared_error slope intercept [of_nat 0; of_nat 1; of_nat 2] [1; 3; 2]
     <= squared_error 1 1 [of_nat 0; of_nat 1; of_nat 2] [1; 3; 2])%Q.
Proof.
  destruct (trend_line_is_least_squares no_other_frequency
              (set_historical_data fresh_model
                 [ (mkTimestamp 2024 1 31 0, Some 1%Q);
                   (mkTimestamp 2024 2 29 0, Some 3%Q);
                   (mkTimestamp 2024 3 31 0, Some 2%Q) ])
              [ (mkTimestamp 2024 1 31 0, Some 1%Q);
                (mkTimestamp 2024 2 29 0, Some 3%Q);
                (mkTimestamp 2024 3 31 0, Some 2%Q) ]
              [1%Q; 3%Q; 2%Q] eq_refl eq_refl)
    as [slope [intercept [Hfit [Hle _]]]].
  - simpl. lia.
  - exists slope, intercept. split; [exact Hfit | exact (Hle 1%Q 1%Q)].
Defined.

(** * Properties of the credential store and the session *)

(** ** Dictionaries *)

Lemma dict_get_set_same {V : Type} (key : string) (value : V) (d : list (string * V)) :
  dict_get key (dict_set key value d) = Some value.
Proof.
  induction d as [|[k v] tl IH]; simpl.
  - now rewrite String.eqb_refl.
  - destruct (key =? k)%string eqn:E; simpl.
    + now rewrite String.eqb_refl.
    + now rewrite E.
Qed.

Lemma dict_get_set_other {V : Type} (key other : string) (value : V)
    (d : list (string * V)) :
  other <> key ->
  dict_get other (dict_set key value d) = dict_get other d.
Proof.
  intros Hne. induction d as [|[k v] tl IH]; simpl.
  - destruct (String.eqb_spec other key); [contradiction | reflexivity].
  - destruct (String.eqb_spec key k) as [->|Hk]; simpl.
    + destruct (String.eqb_spec other k); [contradiction | reflexivity].
    + destruct (other =? k)%string; [reflexivity | exact IH].
Qed.

Lemma dict_get_In {V : Type} (key : string) (d : list (string * V)) :
  In key (dict_keys d) <-> exists v, dict_get key d = Some v.
Proof.
  unfold dict_keys. induction d as [|[k v] tl IH]; simpl.
  - split; [contradiction | intros [v H]; discriminate].
  - destruct (String.eqb_spec key k) as [->|Hk].
    + split; [eauto | auto].
    + rewrite <- IH. split; [intros [H | H]; [congruence | exact H] | auto].
Qed.

Lemma dict_set_keys {V : Type} (key : string) (value : V) (d : list (string * V)) :
  dict_keys (dict_set key value d)
  = if existsb (String.eqb key) (dict_keys d) then dict_keys d
    else (dict_keys d ++ [key])%list.
Proof.
  unfold dict_keys. induction d as [|[k v] tl IH]; simpl; [reflexivity|].
  destruct (String.eqb_spec key k) as [->|Hk]; simpl; [reflexivity|].
  rewrite IH. now destruct (existsb (String.eqb key) (map fst tl)).
Qed.

Section CredentialStore.

Variable sha256_hexdigest : string -> string.

(** X11: after [save_user u p], [authenticate u p'] holds exactly when
    [p'] has the digest of [p], so the password just saved logs in and a
    password saved earlier for the same name no longer does unless its digest
    is the same; the answer for every other user name is what it was.  The
    names in the file stay, in their order, and [u] is added at the end when
    it is new. *)
Theorem save_user_then_authenticate
    (file : UsersFile) (username password attempt other other_password : string) :
  other <> username ->
  authenticate sha256_hexdigest (save_user sha256_hexdigest file username password)
    username password = true /\
  (authenticate sha256_hexdigest (save_user sha256_hexdigest file username password)
     username attempt = true
   <-> sha256_hexdigest attempt = sha256_hexdigest password) /\
  authenticate sha256_hexdigest (save_user sha256_hexdigest file username password)
    other other_password
  = authenticate sha256_hexdigest file other other_password /\
  dict_keys (load_users (save_user sha256_hexdigest file username password))
  = if existsb (String.eqb username) (dict_keys (load_users file))
    then dict_keys (load_users file)
    else (dict_keys (load_users file) ++ [username])%list.
Proof.
  intros Hne. unfold authenticate, save_user. simpl load_users.
  rewrite !dict_get_set_same. simpl.
  split; [apply String.eqb_refl|]. split; [|split].
  - rewrite String.eqb_eq. split; congruence.
  - now rewrite dict_get_set_other.
  - apply dict_set_keys.
Qed.

Lemma register_all_app (file : UsersFile) (l1 l2 : list (string * string)) :
  register_all sha256_hexdigest file (l1 ++ l2)
  = register_all sha256_hexdigest (register_all sha256_hexdigest file l1) l2.
Proof. unfold register_all. apply fold_left_app. Qed.

(** X12: after any sequence of [save_user] calls, [authenticate u p]
    compares the digest of [p] with the digest of the password of the latest
    call for [u]; for a name that no call registered the answer is the one
    the file gave before, and it is [False] when there was no file. *)
Theorem authenticate_after_registrations
    (file : UsersFile) (registrations : list (string * string))
    (username password : string) :
  authenticate sha256_hexdigest
    (register_all sha256_hexdigest file registrations) username password
  = match last_registered username registrations with
    | Some latest =>
        (sha256_hexdigest latest =? sha256_hexdigest password)%string
    | None => authenticate sha256_hexdigest file username password
    end /\
  (last_registered username registrations = None ->
   authenticate sha256_hexdigest
     (register_all sha256_hexdigest None registrations) username password = false).
Proof.
  assert (H : forall regs f,
    authenticate sha256_hexdigest (register_all sha256_hexdigest f regs)
      username password
    = match last_registered username regs with
      | Some latest => (sha256_hexdigest latest =? sha256_hexdigest password)%string
      | None => authenticate sha256_hexdigest f username password
      end).
  { induction regs as [|[u p] tl IH]; intros f; [reflexivity|].
    change (register_all sha256_hexdigest f ((u, p) :: tl))
      with (register_all sha256_hexdigest (save_user sha256_hexdigest f u p) tl).
    rewrite IH. simpl last_registered.
    destruct (last_registered username tl) as [latest|]; [reflexivity|].
    destruct (String.eqb_spec username u) as [->|Hne].
    - unfold authenticate, save_user. simpl load_users.
      now rewrite dict_get_set_same.
    - unfold authenticate, save_user. simpl load_users.
      now rewrite dict_get_set_other. }
  split; [apply H|].
  intros Hnone. rewrite H, Hnone. reflexivity.
Qed.

End CredentialStore.

Lemma save_user_then_authenticate_witness :
  authenticate sample_digest
    (save_user sample_digest (save_user sample_digest None "ann" "first") "ann" "second")
    "ann" "first" = false.
Proof.
  destruct (save_user_then_authenticate sample_digest
              (save_user sample_digest None "ann" "first")
              "ann" "second" "first" "bob" "x")
    as [_ [Hiff _]]; [discriminate|].
  apply Bool.not_true_is_false. intros E. apply Hiff in E. discriminate E.
Defined.

Lemma authenticate_after_registrations_witness :
  authenticate sample_digest
    (register_all sample_digest None [("ann", "first"); ("bob", "x")]) "carol" "x"
  = false.
Proof.
  apply (authenticate_after_registrations sample_digest None
           [("ann", "first"); ("bob", "x")] "carol" "x").
  reflexivity.
Defined.

(** ** The sidebar *)

Section SidebarProperties.

Variable sha256_hexdigest : string -> string.

(** X13: a run of [render_auth_sidebar] that starts unauthenticated leaves
    the session authenticated exactly when the login button was pressed with
    a non-empty user name and a non-empty password that [authenticate]
    accepts against the file as it was before the run; the run then ends in
    [st.rerun()], the session carries that user name, and neither the tokens
    nor the file have changed (a registration submitted in the same run is
    not carried out). *)
Theorem login_needs_valid_credentials
    (w : SidebarInput) (ss : SessionState) (file : UsersFile) :
  is_true (ss_authenticated ss) = false ->
  let result := render_auth_sidebar sha256_hexdigest w ss file in
  let ss' := snd (fst result) in
  (is_true (ss_authenticated ss') = true <->
   login_btn w = true /\ login_user w <> "" /\ login_pass w <> "" /\
   authenticate sha256_hexdigest file (login_user w) (login_pass w) = true) /\
  (is_true (ss_authenticated ss') = true ->
   fst (fst result) = Rerun /\
   ss_username ss' = Some (login_user w) /\
   tokens_of ss' = tokens_of ss /\
   snd result = file) /\
  (is_true (ss_authenticated ss') = false ->
   fst (fst result) = Returns false /\
   ss' = init_session_state ss /\
   snd result = register_tab sha256_hexdigest w file).
Proof.
  intros Hna. cbv zeta. unfold render_auth_sidebar.
  assert (Hinit : is_true (ss_authenticated (init_session_state ss)) = false).
  { unfold init_session_state. simpl. destruct (ss_authenticated ss); [exact Hna | reflexivity]. }
  assert (Htok : tokens_of (init_session_state ss) = tokens_of ss).
  { unfold tokens_of, init_session_state. simpl. now destruct (ss_tokens ss). }
  set (s0 := init_session_state ss) in *. clearbody s0.
  rewrite Hinit. simpl negb. cbv iota. unfold login_tab.
  destruct (login_btn w).
  - destruct (truthy (login_user w)) eqn:Eu; simpl andb.
    + destruct (truthy (login_pass w)) eqn:Ep.
      * destruct (authenticate sha256_hexdigest file (login_user w) (login_pass w)) eqn:Ea.
        -- simpl. split; [|split].
           ++ split; [|reflexivity]. intros _.
              repeat split; try reflexivity; now apply truthy_true.
           ++ intros _. repeat split. exact Htok.
           ++ discriminate.
        -- simpl. rewrite Hinit. split; [|split].
           ++ split; [discriminate|]. intros [_ [_ [_ H]]]. discriminate H.
           ++ discriminate.
           ++ intros _. repeat split.
      * simpl. rewrite Hinit. split; [|split].
        -- split; [discriminate|]. intros [_ [_ [H _]]].
           apply truthy_nonempty in H. congruence.
        -- discriminate.
        -- intros _. repeat split.
    + simpl. rewrite Hinit. split; [|split].
      * split; [discriminate|]. intros [_ [H _]].
        apply truthy_nonempty in H. congruence.
      * discriminate.
      * intros _. repeat split.
  - simpl. rewrite Hinit. split; [|split].
    + split; [discriminate|]. intros [H _]. discriminate H.
    + discriminate.
    + intros _. repeat split.
Qed.

(** X14: registration followed by login.  From any unauthenticated
    session, a run in which only the registration form is submitted, with a
    non-empty user name, a non-empty password and the same password as
    confirmation, writes the file that [save_user] produces and leaves the
    session unauthenticated; a later run that submits the login form with
    that user name and password authenticates the session as that user.
    With a confirmation that differs, the file is left as it was. *)
Theorem register_then_login
    (ss : SessionState) (file : UsersFile) (user pass confirm : string) :
  is_true (ss_authenticated ss) = false ->
  user <> "" ->
  pass <> "" ->
  let registered := render_auth_sidebar sha256_hexdigest
                      (register_input user pass pass) ss file in
  let logged := render_auth_sidebar sha256_hexdigest (login_input user pass)
                  (snd (fst registered)) (snd registered) in
  snd registered = save_user sha256_hexdigest file user pass /\
  fst (fst registered) = Returns false /\
  fst (fst logged) = Rerun /\
  ss_authenticated (snd (fst logged)) = Some true /\
  ss_username (snd (fst logged)) = Some user /\
  (confirm <> pass ->
   snd (render_auth_sidebar sha256_hexdigest (register_input user pass confirm) ss file)
   = file).
Proof.
  intros Hna Hu Hp. cbv zeta.
  assert (Hinit : is_true (ss_authenticated (init_session_state ss)) = false).
  { unfold init_session_state. simpl. destruct (ss_authenticated ss); [exact Hna | reflexivity]. }
  assert (Hinit2 : init_session_state (init_session_state ss) = init_session_state ss).
  { unfold init_session_state. simpl.
    destruct (ss_authenticated ss), (ss_username ss), (ss_tokens ss); reflexivity. }
  assert (Hform : forall c,
            render_auth_sidebar sha256_hexdigest (register_input user pass c) ss file
            = (Returns false, init_session_state ss,
               if (pass =? c)%string then save_user sha256_hexdigest file user pass
               else file)).
  { intros c. unfold render_auth_sidebar.
    set (s0 := init_session_state ss) in *. clearbody s0.
    rewrite Hinit. simpl negb. cbv iota.
    unfold login_tab, register_tab, register_input. simpl.
    rewrite Hinit, (truthy_nonempty _ Hu), (truthy_nonempty _ Hp). reflexivity. }
  rewrite (Hform pass), String.eqb_refl. simpl fst. simpl snd.
  split; [reflexivity|]. split; [reflexivity|].
  assert (Hauth : authenticate sha256_hexdigest
                    (save_user sha256_hexdigest file user pass) user pass = true).
  { unfold authenticate, save_user. simpl load_users.
    rewrite dict_get_set_same. apply String.eqb_refl. }
  assert (Hlogin : render_auth_sidebar sha256_hexdigest (login_input user pass)
                     (init_session_state ss)
                     (save_user sha256_hexdigest file user pass)
                   = (Rerun,
                      mkSession (Some true) (Some user)
                        (ss_tokens (init_session_state ss))
                        (ss_demo_redirect (init_session_state ss)),
                      save_user sha256_hexdigest file user pass)).
  { unfold render_auth_sidebar. rewrite Hinit2.
    set (s0 := init_session_state ss) in *. clearbody s0.
    rewrite Hinit. simpl negb. cbv iota.
    unfold login_tab, login_input. simpl.
    rewrite (truthy_nonempty _ Hu), (truthy_nonempty _ Hp). simpl.
    rewrite Hauth. reflexivity. }
  rewrite Hlogin. simpl.
  split; [reflexivity|]. split; [reflexivity|]. split; [reflexivity|].
  intros Hc. rewrite (Hform confirm). simpl.
  destruct (String.eqb_spec pass confirm); [congruence | reflexivity].
Qed.

(** X15: in a run that starts authenticated, [render_auth_sidebar] never
    touches the file; without the logout button it returns [True], keeps the
    user name and stores each token that was typed under its key, leaving the
    other entries as they were, so that no empty token is ever stored if none
    was; with the logout button it ends in [st.rerun()] with the session
    unauthenticated, the user name empty and no token left. *)
Theorem authenticated_sidebar_run
    (w : SidebarInput) (ss : SessionState) (file : UsersFile) :
  is_true (ss_authenticated ss) = true ->
  (forall k v, In (k, v) (tokens_of ss) -> v <> "") ->
  let result := render_auth_sidebar sha256_hexdigest w ss file in
  let ss' := snd (fst result) in
  snd result = file /\
  (logout_btn w = true ->
   fst (fst result) = Rerun /\
   ss_authenticated ss' = Some false /\ ss_username ss' = Some "" /\
   ss_tokens ss' = Some []) /\
  (logout_btn w = false ->
   fst (fst result) = Returns true /\
   ss_username ss' = ss_username (init_session_state ss) /\
   (forall k v, In (k, v) (tokens_of ss') -> v <> "") /\
   dict_get "avito" (tokens_of ss')
     = (if truthy (avito_token w) then Some (avito_token w)
        else dict_get "avito" (tokens_of ss)) /\
   dict_get "hh" (tokens_of ss')
     = (if truthy (hh_token w) then Some (hh_token w)
        else dict_get "hh" (tokens_of ss)) /\
   (forall k, k <> "avito" -> k <> "hh" ->
      dict_get k (tokens_of ss') = dict_get k (tokens_of ss))).
Proof.
  intros Ha Hne. cbv zeta. unfold render_auth_sidebar.
  assert (Hinit : is_true (ss_authenticated (init_session_state ss)) = true).
  { unfold init_session_state. simpl. destruct (ss_authenticated ss); [exact Ha | discriminate]. }
  assert (Htok : tokens_of (init_session_state ss) = tokens_of ss).
  { unfold tokens_of, init_session_state. simpl. now destruct (ss_tokens ss). }
  set (s0 := init_session_state ss) in *. clearbody s0.
  rewrite Hinit, Htok. simpl negb. cbv iota.
  assert (Hset : forall key value (d : list (string * string)),
            value <> "" ->
            (forall k v, In (k, v) d -> v <> "") ->
            forall k v, In (k, v) (dict_set key value d) -> v <> "").
  { intros key value d Hv. induction d as [|[k0 v0] tl IH]; simpl; intros Hd k v Hin.
    - destruct Hin as [E | []]. now injection E as _ <-.
    - destruct (key =? k0)%string.
      + destruct Hin as [E | Hin]; [now injection E as _ <- |].
        apply (Hd k v). now right.
      + destruct Hin as [E | Hin]; [apply (Hd k v); now left|].
        apply (IH (fun k1 v1 H1 => Hd k1 v1 (or_intror H1)) k v Hin). }
  destruct (logout_btn w); simpl.
  - split; [reflexivity|]. split; [auto | discriminate].
  - split; [reflexivity|]. split; [discriminate|]. intros _.
    rewrite Hinit. split; [reflexivity|]. split; [reflexivity|].
    assert (Hmk : forall a u t d, tokens_of (mkSession a u (Some t) d) = t)
      by reflexivity.
    rewrite !Hmk.
    destruct (truthy (avito_token w)) eqn:Eav, (truthy (hh_token w)) eqn:Ehh;
      cbv beta iota zeta.
    + split; [|split; [|split]].
      * apply Hset; [now apply truthy_true|]. apply Hset; [now apply truthy_true | exact Hne].
      * rewrite dict_get_set_other by discriminate. apply dict_get_set_same.
      * apply dict_get_set_same.
      * intros k K1 K2. now rewrite !dict_get_set_other.
    + split; [|split; [|split]].
      * apply Hset; [now apply truthy_true | exact Hne].
      * apply dict_get_set_same.
      * now rewrite dict_get_set_other by discriminate.
      * intros k K1 K2. now rewrite !dict_get_set_other.
    + split; [|split; [|split]].
      * apply Hset; [now apply truthy_true | exact Hne].
      * now rewrite dict_get_set_other by discriminate.
      * apply dict_get_set_same.
      * intros k K1 K2. now rewrite !dict_get_set_other.
    + split; [exact Hne|]. split; [reflexivity|]. split; reflexivity.
Qed.

End SidebarProperties.

Lemma login_needs_valid_credentials_witness :
  fst (fst (render_auth_sidebar sample_digest (login_input "ann" "wrong") new_session
              (save_user sample_digest None "ann" "first")))
  = Returns false.
Proof.
  apply (login_needs_valid_credentials sample_digest (login_input "ann" "wrong")
           new_session (save_user sample_digest None "ann" "first") eq_refl).
  reflexivity.
Defined.

Lemma register_then_login_witness :
  ss_username
    (snd (fst (render_auth_sidebar sample_digest (login_input "ann" "first")
                 (snd (fst (render_auth_sidebar sample_digest
                              (register_input "ann" "first" "first") new_session None)))
                 (snd (render_auth_sidebar sample_digest
                         (register_input "ann" "first" "first") new_session None)))))
  = Some "ann".
Proof.
  apply (register_then_login sample_digest new_session None "ann" "first" "other"
           eq_refl); discriminate.
Defined.

Lemma authenticated_sidebar_run_witness :
  dict_get "avito"
    (tokens_of
       (snd (fst (render_auth_sidebar sample_digest
                    (mkSidebarInput "" "" false "" "" "" false "t-1" "" false)
                    (mkSession (Some true) (Some "ann") (Some []) None) None))))
  = Some "t-1".
Proof.
  destruct (authenticated_sidebar_run sample_digest
              (mkSidebarInput "" "" false "" "" "" false "t-1" "" false)
              (mkSession (Some true) (Some "ann") (Some []) None) None eq_refl)
    as [_ [_ H]].
  - intros k v [].
  - destruct (H eq_refl) as [_ [_ [_ [Hav _]]]]. exact Hav.
Defined.

(** * Properties of the synthetic series *)

(** ** Days and month ends *)

Example synthetic_dates_one_year :
  synthetic_dates (mkTimestamp 2025 1 9 0) 6
  = [ mkTimestamp 2024 1 31 0; mkTimestamp 2024 2 29 0; mkTimestamp 2024 3 31 0;
      mkTimestamp 2024 4 30 0; mkTimestamp 2024 5 31 0; mkTimestamp 2024 6 30 0;
      mkTimestamp 2024 7 31 0; mkTimestamp 2024 8 31 0; mkTimestamp 2024 9 30 0;
      mkTimestamp 2024 10 31 0; mkTimestamp 2024 11 30 0; mkTimestamp 2024 12 31 0 ].
Proof. vm_compute. reflexivity. Qed.

Example sub_days_over_new_year :
  sub_days 360 (mkTimestamp 2025 1 9 0) = mkTimestamp 2024 1 15 0.
Proof. vm_compute. reflexivity. Qed.

Lemma valid_first_of_next_month (t : Timestamp) :
  (1 <= month t <= 12)%Z -> valid_date (first_of_next_month t).
Proof.
  intros Hm. unfold valid_date, first_of_next_month.
  destruct (Z.eqb_spec (month t) 12); simpl.
  - pose proof (days_in_month_bounds (year t + 1) 1). lia.
  - pose proof (days_in_month_bounds (year t) (month t + 1)). lia.
Qed.

Lemma valid_end_of_month (t : Timestamp) :
  (1 <= month t <= 12)%Z -> valid_date (end_of_month t).
Proof.
  intros Hm. unfold valid_date, end_of_month. simpl.
  pose proof (days_in_month_bounds (year t) (month t)). lia.
Qed.

Lemma valid_next_day (t : Timestamp) : valid_date t -> valid_date (next_day t).
Proof.
  intros [Hm Hd]. unfold next_day.
  destruct (Z.ltb_spec (day t) (days_in_month (year t) (month t))).
  - unfold valid_date. simpl. lia.
  - now apply valid_first_of_next_month.
Qed.

Lemma valid_previous_day (t : Timestamp) : valid_date t -> valid_date (previous_day t).
Proof.
  intros [Hm Hd]. unfold previous_day, last_of_previous_month.
  destruct (Z.ltb_spec 1 (day t)).
  - unfold valid_date. simpl. lia.
  - destruct (Z.eqb_spec (month t) 1); unfold valid_date; simpl.
    + split; [lia|]. unfold days_in_month. simpl. lia.
    + pose proof (days_in_month_bounds (year t) (month t - 1)). lia.
Qed.

Lemma valid_sub_days (n : nat) (t : Timestamp) : valid_date t -> valid_date (sub_days n t).
Proof.
  intros Hv. unfold sub_days. induction n as [|n IH]; [exact Hv|].
  rewrite Nat.iter_succ. now apply valid_previous_day.
Qed.

Lemma next_day_previous_day (t : Timestamp) :
  valid_date t -> next_day (previous_day t) = t.
Proof.
  intros [Hm Hd]. destruct t as [y m d n]. simpl in *.
  unfold previous_day, last_of_previous_month. simpl.
  destruct (Z.ltb_spec 1 d).
  - unfold next_day. simpl.
    destruct (Z.ltb_spec (d - 1) (days_in_month y m)); [|lia].
    f_equal. lia.
  - assert (d = 1%Z) by lia. subst d.
    destruct (Z.eqb_spec m 1).
    + subst m. unfold next_day, first_of_next_month. simpl.
      unfold days_in_month. simpl. f_equal. lia.
    + unfold next_day, first_of_next_month. simpl.
      rewrite Z.ltb_irrefl.
      destruct (Z.eqb_spec (m - 1) 12); [lia|]. f_equal. lia.
Qed.

(** Subtracting days and adding them back. *)
Lemma add_days_sub_days (n : nat) (t : Timestamp) :
  valid_date t -> add_days n (sub_days n t) = t.
Proof.
  intros Hv. unfold add_days, sub_days. induction n as [|n IH]; [reflexivity|].
  rewrite Nat.iter_succ_r, Nat.iter_succ.
  rewrite next_day_previous_day; [exact IH|].
  now apply (valid_sub_days n).
Qed.

Lemma add_days_add (n m : nat) (t : Timestamp) :
  add_days (n + m) t = add_days n (add_days m t).
Proof. unfold add_days. apply Nat.iter_add. Qed.

Lemma nanos_next_day (t : Timestamp) : nanos (next_day t) = nanos t.
Proof.
  unfold next_day.
  destruct (day t <? _)%Z; [reflexivity | apply nanos_first_of_next_month].
Qed.

Lemma nanos_add_days (n : nat) (t : Timestamp) : nanos (add_days n t) = nanos t.
Proof.
  unfold add_days. induction n as [|n IH]; [reflexivity|].
  now rewrite Nat.iter_succ, nanos_next_day.
Qed.

(** Inside a month, adding days adds to the day. *)
Lemma add_days_within_month (k : nat) :
  forall t,
    (day t + Z.of_nat k <= days_in_month (year t) (month t))%Z ->
    add_days k t = mkTimestamp (year t) (month t) (day t + Z.of_nat k) (nanos t).
Proof.
  unfold add_days. induction k as [|k IH]; intros t Hk.
  - simpl. destruct t as [y m d n]. simpl. f_equal. lia.
  - rewrite Nat.iter_succ, IH by lia.
    unfold next_day. simpl.
    destruct (Z.ltb_spec (day t + Z.of_nat k) (days_in_month (year t) (month t)));
      [|lia].
    f_equal. lia.
Qed.

Lemma end_of_month_by_days (t : Timestamp) :
  (day t <= days_in_month (year t) (month t))%Z ->
  end_of_month t
  = add_days (Z.to_nat (days_in_month (year t) (month t) - day t)) t.
Proof.
  intros Hd. rewrite add_days_within_month by lia.
  unfold end_of_month. f_equal. lia.
Qed.

Lemma day_first_of_next_month (t : Timestamp) : day (first_of_next_month t) = 1%Z.
Proof. unfold first_of_next_month. now destruct (month t =? 12)%Z. Qed.

(** From a month end, the next month end is the number of days of the
    next month away. *)
Lemma month_end_offset_by_days (t : Timestamp) :
  is_month_end t = true ->
  exists days,
    days <= 31 /\ month_end_offset t = add_days days t.
Proof.
  intros Hme. rewrite (month_end_offset_on_month_end _ Hme).
  set (f := first_of_next_month t).
  pose proof (days_in_month_bounds (year f) (month f)) as Hb.
  exists (S (Z.to_nat (days_in_month (year f) (month f) - 1))).
  split; [lia|].
  unfold add_days. rewrite Nat.iter_succ_r. fold (add_days (Z.to_nat (days_in_month (year f) (month f) - 1)) (next_day t)).
  assert (Hnext : next_day t = f).
  { unfold next_day. unfold is_month_end in Hme. apply Z.eqb_eq in Hme.
    destruct (Z.ltb_spec (day t) (days_in_month (year t) (month t))); [lia | reflexivity]. }
  rewrite Hnext.
  assert (Hd1 : day f = 1%Z) by apply day_first_of_next_month.
  rewrite (end_of_month_by_days f) by lia.
  rewrite Hd1. reflexivity.
Qed.

Lemma rollforward_by_days (t : Timestamp) :
  valid_date t ->
  exists days,
    days <= 30 /\ rollforward_month_end t = add_days days t /\
    rollforward_month_end t = end_of_month t.
Proof.
  intros [Hm Hd].
  pose proof (days_in_month_bounds (year t) (month t)) as Hb.
  exists (Z.to_nat (days_in_month (year t) (month t) - day t)).
  split; [lia|].
  assert (E : rollforward_month_end t = end_of_month t).
  { unfold rollforward_month_end, is_month_end, month_end_offset.
    destruct (Z.eqb_spec (day t) (days_in_month (year t) (month t))) as [E|E].
    - destruct t as [y m d n]. unfold end_of_month. simpl in *. now subst d.
    - destruct (Z.ltb_spec (day t) (days_in_month (year t) (month t))); [reflexivity | lia]. }
  split; [|exact E]. rewrite E. apply end_of_month_by_days. lia.
Qed.

(** The [k]-th month end from a start is at most [30 + 31 k] days after
    it. *)
Lemma month_ends_by_days (t : Timestamp) (k : nat) :
  valid_date t ->
  exists days,
    days <= 30 + 31 * k /\
    Nat.iter k month_end_offset (rollforward_month_end t) = add_days days t.
Proof.
  intros Hv. induction k as [|k [days [Hle IH]]].
  - destruct (rollforward_by_days t Hv) as [days [Hle [E _]]].
    exists days. split; [lia | exact E].
  - rewrite Nat.iter_succ.
    destruct (rollforward_by_days t Hv) as [_ [_ [_ Eroll]]].
    assert (Hme : is_month_end (Nat.iter k month_end_offset (rollforward_month_end t)) = true).
    { apply iter_month_end_offset. rewrite Eroll. apply is_month_end_end_of_month. }
    destruct (month_end_offset_by_days _ Hme) as [more [Hmore E]].
    exists (more + days). split; [lia|].
    rewrite E, IH. symmetry. apply add_days_add.
Qed.

Lemma add_days_monotone (n m : nat) (t : Timestamp) :
  n <= m -> ts_leb (add_days n t) (add_days m t) = true.
Proof.
  intros Hle. replace m with ((m - n) + n) by lia. rewrite add_days_add.
  generalize (add_days n t). intros u.
  induction (m - n) as [|j IH].
  - simpl. unfold ts_leb. now rewrite (proj2 (ts_compare_eq u u) eq_refl).
  - unfold add_days in *. rewrite Nat.iter_succ.
    destruct (ts_eqb u (Nat.iter j next_day u)) eqn:E.
    + apply ts_eqb_eq in E. rewrite <- E. apply ts_ltb_leb, next_day_later.
    + apply ts_ltb_leb. eapply ts_ltb_trans; [|apply next_day_later].
      apply ts_leb_neq_ltb; [exact IH|]. intros H. apply ts_eqb_eq in H. congruence.
Qed.

Lemma ts_leb_refl (t : Timestamp) : ts_leb t t = true.
Proof. unfold ts_leb. now rewrite (proj2 (ts_compare_eq t t) eq_refl). Qed.

Lemma ts_leb_cases (a b : Timestamp) :
  ts_leb a b = true <-> a = b \/ ts_ltb a b = true.
Proof.
  unfold ts_leb, ts_ltb. destruct (ts_compare a b) eqn:E.
  - apply ts_compare_eq in E. split; auto.
  - split; auto.
  - split; [discriminate|]. intros [H | H]; [|discriminate].
    apply ts_compare_eq in H. congruence.
Qed.

Lemma ts_leb_trans (a b c : Timestamp) :
  ts_leb a b = true -> ts_leb b c = true -> ts_leb a c = true.
Proof.
  rewrite !ts_leb_cases. intros [-> | H1] [-> | H2]; auto.
  right. eapply ts_ltb_trans; eassumption.
Qed.

Lemma ts_leb_ltb_trans (a b c : Timestamp) :
  ts_leb a b = true -> ts_ltb b c = true -> ts_ltb a c = true.
Proof.
  rewrite ts_leb_cases. intros [-> | H1] H2; [exact H2|].
  eapply ts_ltb_trans; eassumption.
Qed.

(** With months between 1 and 12 the order of the stamps follows the
    count of the months. *)
Lemma month_index_lt_ts_ltb (a b : Timestamp) :
  (1 <= month a <= 12)%Z -> (1 <= month b <= 12)%Z ->
  (month_index a < month_index b)%Z -> ts_ltb a b = true.
Proof.
  unfold month_index, ts_ltb, ts_compare. intros Ha Hb Hlt.
  destruct (Z.compare_spec (year a) (year b)); [|reflexivity|lia].
  destruct (Z.compare_spec (month a) (month b)); [lia | reflexivity | lia].
Qed.

Lemma ts_leb_month_index (a b : Timestamp) :
  (1 <= month a <= 12)%Z -> (1 <= month b <= 12)%Z ->
  ts_leb a b = true -> (month_index a <= month_index b)%Z.
Proof.
  unfold month_index, ts_leb, ts_compare. intros Ha Hb.
  destruct (Z.compare_spec (year a) (year b)); [| lia | discriminate].
  destruct (Z.compare_spec (month a) (month b)); [lia | lia | discriminate].
Qed.

Lemma valid_month_end_offset (t : Timestamp) :
  (1 <= month t <= 12)%Z -> (1 <= month (month_end_offset t) <= 12)%Z.
Proof.
  intros Hm. unfold month_end_offset.
  destruct (day t <? _)%Z; [exact Hm|].
  apply (valid_end_of_month (first_of_next_month t)).
  apply (valid_first_of_next_month t Hm).
Qed.

Lemma valid_month_iter (k : nat) (t : Timestamp) :
  (1 <= month t <= 12)%Z ->
  (1 <= month (Nat.iter k month_end_offset t) <= 12)%Z.
Proof.
  intros Hm. induction k as [|k IH]; [exact Hm|].
  rewrite Nat.iter_succ. now apply valid_month_end_offset.
Qed.

Lemma take_while_In {A : Type} (p : A -> bool) (l : list A) (a : A) :
  In a (take_while p l) -> In a l /\ p a = true.
Proof.
  induction l as [|x tl IH]; simpl; [contradiction|].
  destruct (p x) eqn:E; [|contradiction].
  intros [<- | H]; [auto|]. destruct (IH H). auto.
Qed.

Lemma take_while_ascending (p : Timestamp -> bool) (l : list Timestamp) :
  strictly_ascending l -> strictly_ascending (take_while p l).
Proof.
  unfold strictly_ascending. induction 1 as [|a l Hs IH Hall]; simpl; [constructor|].
  destruct (p a); [|constructor].
  constructor; [exact IH|].
  rewrite Forall_forall in *. intros t Ht. apply Hall.
  now apply (take_while_In p l t).
Qed.

Lemma iter_step_monotone (step : Timestamp -> Timestamp) :
  (forall t, ts_ltb t (step t) = true) ->
  forall k cur, ts_leb cur (Nat.iter k step cur) = true.
Proof.
  intros Hstep. induction k as [|k IH]; intros cur; [apply ts_leb_refl|].
  rewrite Nat.iter_succ. eapply ts_leb_trans; [apply IH|].
  apply ts_ltb_leb, Hstep.
Qed.

(** A range generated up to a stop holds exactly the stamps of the
    iteration that are not after the stop, provided the stamp that follows
    the last one tried is after the stop. *)
Lemma range_until_stop (step : Timestamp -> Timestamp) (stop : Timestamp) :
  (forall t, ts_ltb t (step t) = true) ->
  forall tried cur k,
    ts_ltb stop (Nat.iter tried step cur) = true ->
    ts_leb (Nat.iter k step cur) stop = true ->
    k < List.length (take_while (fun t => ts_leb t stop) (generate_range step cur tried)) /\
    nth_error (take_while (fun t => ts_leb t stop) (generate_range step cur tried)) k
    = Some (Nat.iter k step cur).
Proof.
  intros Hstep. induction tried as [|tried IH]; intros cur k Hend Hk.
  - exfalso. simpl in Hend.
    pose proof (iter_step_monotone step Hstep k cur) as Hmono.
    pose proof (ts_leb_ltb_trans _ _ _ (ts_leb_trans _ _ _ Hmono Hk) Hend) as Hc.
    rewrite ts_ltb_irrefl in Hc. discriminate.
  - simpl generate_range. simpl take_while.
    assert (Hcur : ts_leb cur stop = true).
    { eapply ts_leb_trans; [apply (iter_step_monotone step Hstep k) | exact Hk]. }
    rewrite Hcur. destruct k as [|k]; [simpl; split; [lia | reflexivity]|].
    rewrite Nat.iter_succ_r in Hk, Hend.
    destruct (IH (step cur) k Hend Hk) as [Hlt Hnth].
    simpl List.length. simpl nth_error. rewrite Nat.iter_succ_r.
    split; [lia | exact Hnth].
Qed.

Lemma generate_range_In (step : Timestamp -> Timestamp) (periods : nat) :
  forall cur t, In t (generate_range step cur periods) ->
    exists k, k < periods /\ t = Nat.iter k step cur.
Proof.
  induction periods as [|p IH]; intros cur t Hin; [contradiction|].
  destruct Hin as [<- | Hin]; [exists 0; split; [lia | reflexivity]|].
  destruct (IH _ _ Hin) as [k [Hk ->]].
  exists (S k). split; [lia|]. symmetry. apply Nat.iter_succ_r.
Qed.

(** ** [pd.date_range] between two stamps *)

(** The stamps tried are enough: the range holds every month end of the
    iteration that is not after the stop, in order, and nothing else. *)
Lemma date_range_ME_until_complete (start stop : Timestamp) :
  valid_date start ->
  (1 <= month stop <= 12)%Z ->
  let dates := date_range_ME_until start stop in
  let month_end k := Nat.iter k month_end_offset (end_of_month start) in
  strictly_ascending dates /\
  (forall k, ts_leb (month_end k) stop = true ->
             k < List.length dates /\ nth_error dates k = Some (month_end k)) /\
  (forall t, In t dates ->
             ts_leb t stop = true /\ exists k, t = month_end k).
Proof.
  intros Hv Hstop. cbv zeta. unfold date_range_ME_until.
  destruct (rollforward_by_days start Hv) as [_ [_ [_ Eroll]]]. rewrite Eroll.
  set (tried := Z.to_nat (month_index stop - month_index start) + 1).
  split; [|split].
  - apply take_while_ascending.
    apply (generate_range_ascending month_end_offset month_end_offset_later).
  - intros k Hk.
    apply (range_until_stop month_end_offset stop month_end_offset_later); [|exact Hk].
    apply month_index_lt_ts_ltb; [exact Hstop | |].
    + apply valid_month_iter. apply Hv.
    + destruct (iter_month_end_offset tried (end_of_month start)
                  (is_month_end_end_of_month start)) as [_ [Hidx _]].
      rewrite Hidx. change (month_index (end_of_month start)) with (month_index start).
      unfold tried. lia.
  - intros t Ht. apply take_while_In in Ht. destruct Ht as [Hin Hle].
    split; [exact Hle|].
    apply generate_range_In in Hin. destruct Hin as [k [_ ->]]. now exists k.
Qed.

(** The dates shared by the two synthetic series. *)
Lemma synthetic_dates_enough (now : Timestamp) (period_months : nat) :
  valid_date now ->
  let start_date := sub_days (Nat.max period_months 12 * 30) now in
  let dates := synthetic_dates now period_months in
  strictly_ascending dates /\
  (forall k, 31 * k + 30 <= 30 * Nat.max period_months 12 ->
             k < List.length dates) /\
  (forall t, In t dates ->
     is_month_end t = true /\ nanos t = nanos now /\
     ts_leb start_date t = true /\ ts_leb t now = true) /\
  In (end_of_month start_date) dates /\
  (forall t, In t dates -> ts_leb (month_end_offset t) now = true ->
             In (month_end_offset t) dates).
Proof.
  intros Hv. cbv zeta. unfold synthetic_dates.
  set (days := Nat.max period_months 12 * 30).
  set (start := sub_days days now).
  assert (Hvs : valid_date start) by now apply valid_sub_days.
  assert (Hnow : now = add_days days start)
    by (symmetry; now apply add_days_sub_days).
  destruct (date_range_ME_until_complete start now Hvs (proj1 Hv))
    as [Hasc [Hcomplete Hsound]].
  destruct (rollforward_by_days start Hvs) as [_ [_ [_ Eroll]]].
  assert (Hreach : forall k, 31 * k + 30 <= days ->
            ts_leb (Nat.iter k month_end_offset (end_of_month start)) now = true).
  { intros k Hk. rewrite <- Eroll.
    destruct (month_ends_by_days start k Hvs) as [j [Hj ->]].
    rewrite Hnow. apply add_days_monotone. lia. }
  split; [exact Hasc|]. split; [|split; [|split]].
  - intros k Hk. apply Hcomplete, Hreach. unfold days. lia.
  - intros t Ht. destruct (Hsound t Ht) as [Hle [k ->]].
    destruct (iter_month_end_offset k (end_of_month start)
                (is_month_end_end_of_month start)) as [I1 [_ I3]].
    split; [exact I1|]. split.
    + rewrite I3. change (nanos (end_of_month start)) with (nanos start).
      rewrite Hnow. symmetry. apply nanos_add_days.
    + split; [|exact Hle]. rewrite <- Eroll.
      destruct (month_ends_by_days start k Hvs) as [j [_ ->]].
      apply (add_days_monotone 0 j start). lia.
  - destruct (Hcomplete 0) as [_ H0].
    { apply Hreach. unfold days. lia. }
    apply (nth_error_In _ 0 H0).
  - intros t Ht Hnext. destruct (Hsound t Ht) as [_ [k ->]].
    rewrite <- Nat.iter_succ in *.
    destruct (Hcomplete (S k) Hnext) as [_ Hn]. apply (nth_error_In _ _ Hn).
Qed.

(** ** The synthetic frames *)

Lemma synthetic_frame_dates (column : string) (others : list string)
    (dates : list Timestamp) (drawn : nat -> Z) :
  map row_date (df_rows (synthetic_frame column others dates drawn)) = dates.
Proof.
  unfold synthetic_frame. simpl. rewrite map_map. simpl.
  destruct (combine_length_eq (seq 0 (List.length dates)) dates) as [_ [_ H]];
    [apply length_seq | exact H].
Qed.

Lemma synthetic_frame_values (column : string) (others : list string)
    (dates : list Timestamp) (drawn : nat -> Z) (r : Row) :
  In r (df_rows (synthetic_frame column others dates drawn)) ->
  exists i, row_value r column = Some (inject_Z (drawn i)).
Proof.
  unfold synthetic_frame. simpl. intros Hin.
  apply in_map_iff in Hin. destruct Hin as [[i d] [<- _]].
  exists i. simpl. now rewrite String.eqb_refl.
Qed.

Lemma drop_duplicates_seen_distinct (rows : list Row) :
  forall seen,
    NoDup (map row_date rows) ->
    (forall r, In r rows -> ~ In (row_date r) seen) ->
    drop_duplicates_seen seen rows = rows.
Proof.
  induction rows as [|r tl IH]; intros seen Hnd Hseen; [reflexivity|].
  simpl. inversion Hnd as [|? ? Hn Hnd']; subst.
  destruct (existsb (ts_eqb (row_date r)) seen) eqn:E.
  - apply seen_spec in E. exfalso. apply (Hseen r); [now left | exact E].
  - f_equal. apply IH; [exact Hnd'|].
    intros r' Hr' [H | H].
    + apply Hn. rewrite H. now apply in_map.
    + apply (Hseen r'); [now right | exact H].
Qed.

Lemma sort_values_ascending_input (rows : list Row) :
  strictly_ascending (map row_date rows) -> sort_values rows = rows.
Proof.
  unfold strictly_ascending. induction rows as [|r tl IH]; intros Hs; [reflexivity|].
  simpl in Hs. inversion Hs as [|? ? Hs' Hall]; subst.
  simpl. rewrite IH by exact Hs'.
  destruct tl as [|r' tl']; [reflexivity|].
  simpl. inversion Hall as [|? ? Hlt _]; subst.
  now rewrite (ts_ltb_leb _ _ Hlt).
Qed.

(** A frame whose dates are already ascending and whose values are numbers
    comes out of [prepare_data] as it went in. *)
Lemma prepare_data_ascending_numbers (self : UniversalForecastModel)
    (data : DataFrame) (value_column : string) :
  strictly_ascending (map row_date (df_rows data)) ->
  6 <= List.length (df_rows data) ->
  In value_column (df_columns data) ->
  (forall r, In r (df_rows data) -> isnull (row_value r value_column) = false) ->
  drop_duplicates (df_rows data) = df_rows data /\
  prepare_data self data value_column
  = (Some (map (fun r => (row_date r, row_value r value_column)) (df_rows data)),
     set_historical_data self
       (map (fun r => (row_date r, row_value r value_column)) (df_rows data))).
Proof.
  intros Hasc Hlen Hcol Hnum.
  assert (Hdd : drop_duplicates (df_rows data) = df_rows data).
  { apply drop_duplicates_seen_distinct;
      [now apply strictly_ascending_NoDup | intros r _ []]. }
  split; [exact Hdd|].
  destruct (prepare_data_cases self data value_column) as [[_ [Hl|Hc]] | [E _]].
  - rewrite Hdd in Hl. lia.
  - exfalso.
    assert (Hex : existsb (String.eqb value_column) (df_columns data) = true).
    { apply existsb_exists. exists value_column.
      split; [assumption | apply String.eqb_refl]. }
    congruence.
  - rewrite E. unfold prepared_series, selected_series.
    rewrite Hdd, (sort_values_ascending_input _ Hasc).
    assert (Hnn : existsb isnull
                    (values (map (fun r => (row_date r, row_value r value_column))
                               (df_rows data))) = false).
    { unfold values. rewrite map_map. simpl.
      destruct (existsb isnull (map (fun r => row_value r value_column) (df_rows data)))
        eqn:Ex; [|reflexivity].
      apply existsb_exists in Ex. destruct Ex as [v [Hin Hv]].
      apply in_map_iff in Hin. destruct Hin as [r [<- Hr]].
      rewrite (Hnum r Hr) in Hv. discriminate. }
    rewrite Hnn. reflexivity.
Qed.

Lemma synthetic_frame_forecast
    (autots_fit : AutoTSConfig -> FitInput -> FitOutcome)
    (pd_date_range : Timestamp -> nat -> string -> option (list Timestamp))
    (now : Timestamp) (drawn : nat -> Z)
    (period_months forecast_months : nat) (model_complexity column : string)
    (others : list string) :
  valid_date now ->
  let data := synthetic_frame column others
                (synthetic_dates now period_months) drawn in
  let result := create_forecast autots_fit pd_date_range data column
                  forecast_months model_complexity "ME" in
  (forall s0,
     prepare_data s0 data column
     = (Some (map (fun r => (row_date r, row_value r column)) (df_rows data)),
        set_historical_data s0
          (map (fun r => (row_date r, row_value r column)) (df_rows data)))) /\
  snd result = true /\
  (fst (fst result) = None <-> predicts_none (snd (fst result)) = true).
Proof.
  intros now_valid data result.
  destruct (synthetic_dates_enough now period_months now_valid)
    as [Hasc [Hcount _]].
  assert (Hlen : 11 <= List.length (synthetic_dates now period_months))
    by (apply (Hcount 10); lia).
  assert (Hdates : map row_date (df_rows data) = synthetic_dates now period_months)
    by apply synthetic_frame_dates.
  assert (Hrows : 6 <= List.length (df_rows data)).
  { rewrite <- (length_map row_date), Hdates. lia. }
  assert (Hprep : forall s0,
     drop_duplicates (df_rows data) = df_rows data /\
     prepare_data s0 data column
     = (Some (map (fun r => (row_date r, row_value r column)) (df_rows data)),
        set_historical_data s0
          (map (fun r => (row_date r, row_value r column)) (df_rows data)))).
  { intros s0. apply prepare_data_ascending_numbers.
    - now rewrite Hdates.
    - exact Hrows.
    - simpl. now left.
    - intros r Hr. destruct (synthetic_frame_values _ _ _ _ _ Hr) as [i ->].
      reflexivity. }
  split; [intros s0; apply Hprep|].
  destruct (create_forecast_outcome autots_fit pd_date_range data column
              forecast_months model_complexity "ME")
    as [[_ [_ [Hs Hf]]] | [[Hl | Hc] _]].
  - right. left. reflexivity.
  - split; [exact Hs | exact Hf].
  - destruct (Hprep fresh_model) as [Hdd _]. rewrite Hdd in Hl. lia.
  - exfalso. apply Hc. simpl. now left.
Qed.

(** What [show_forecast] makes of a result with the success flag. *)
Lemma show_forecast_cases (result : option Series * UniversalForecastModel * bool) :
  snd result = true ->
  (fst (fst result) = None <-> predicts_none (snd (fst result)) = true) ->
  shown_or_missing (show_forecast result) result.
Proof.
  destruct result as [[[forecast|] trained] flag]; simpl; intros -> Hiff;
    unfold shown_or_missing; simpl; (split; [reflexivity|]).
  - split; [reflexivity|].
    destruct (predicts_none trained); [|reflexivity].
    destruct Hiff as [_ H]. discriminate (H eq_refl).
  - split; [reflexivity|]. now apply Hiff.
Qed.

Section SyntheticSeries.

Variable now : Timestamp.
Hypothesis now_valid : valid_date now.

(** X16: whenever [datetime.now()] is a calendar date, the series that
    [get_apartment_prices] and [get_salary_data] generate have the same
    dates: month ends at the time of day of [now], strictly ascending, none
    before the start date ([now] minus 30 days for each of [max(period, 12)]
    months) and none after [now], beginning with the end of the month of the
    start date and holding each following month end that is not after
    [now].  There are at least 11 of them, and [k + 1] of them whenever
    [31 k + 30] days fit in the window; every price or salary is an
    integer, never a null. *)
Theorem synthetic_series_dates (drawn drawn' : nat -> Z) (period_months : nat) :
  let start_date := sub_days (Nat.max period_months 12 * 30) now in
  let prices := get_apartment_prices now drawn period_months in
  let salaries := get_salary_data now drawn' period_months in
  let dates := map row_date (df_rows prices) in
  map row_date (df_rows salaries) = dates /\
  strictly_ascending dates /\
  11 <= List.length dates /\
  (forall k, 31 * k + 30 <= 30 * Nat.max period_months 12 -> k < List.length dates) /\
  (forall t, In t dates ->
     is_month_end t = true /\ nanos t = nanos now /\
     ts_leb start_date t = true /\ ts_leb t now = true) /\
  In (end_of_month start_date) dates /\
  (forall t, In t dates -> ts_leb (month_end_offset t) now = true ->
             In (month_end_offset t) dates) /\
  (forall r, In r (df_rows prices) ->
             exists z, row_value r "price" = Some (inject_Z z)) /\
  (forall r, In r (df_rows salaries) ->
             exists z, row_value r "salary" = Some (inject_Z z)).
Proof.
  cbv zeta. unfold get_apartment_prices, get_salary_data.
  rewrite !synthetic_frame_dates.
  destruct (synthetic_dates_enough now period_months now_valid)
    as [Hasc [Hcount [Hin [Hfirst Hnext]]]].
  split; [reflexivity|]. split; [exact Hasc|].
  split; [apply (Hcount 10); lia|].
  split; [exact Hcount|]. split; [exact Hin|]. split; [exact Hfirst|].
  split; [exact Hnext|].
  split; intros r Hr; destruct (synthetic_frame_values _ _ _ _ _ Hr) as [i Hi]; eauto.
Qed.

(** X17: on the series that [get_apartment_prices] generates,
    [prepare_data] changes nothing: it returns the dates and prices of the
    frame in their order and retains the same series.  So
    [create_apartment_forecast] always returns the success flag, whatever
    AutoTS does, and with it a forecast, except when the object is trained
    and the prediction of its model holds [None] for a forecast; and so
    does [create_salary_forecast] on the series of [get_salary_data]. *)
Theorem synthetic_series_always_forecast
    (autots_fit : AutoTSConfig -> FitInput -> FitOutcome)
    (pd_date_range : Timestamp -> nat -> string -> option (list Timestamp))
    (self : UniversalForecastModel) (drawn : nat -> Z)
    (period_months forecast_months : nat) (model_complexity : string) :
  let prices := get_apartment_prices now drawn period_months in
  let salaries := get_salary_data now drawn period_months in
  let apartments := create_apartment_forecast autots_fit pd_date_range prices
                      forecast_months model_complexity in
  let wages := create_salary_forecast autots_fit pd_date_range salaries
                 forecast_months model_complexity in
  prepare_data self prices "price"
  = (Some (map (fun r => (row_date r, row_value r "price")) (df_rows prices)),
     set_historical_data self
       (map (fun r => (row_date r, row_value r "price")) (df_rows prices))) /\
  snd apartments = true /\
  (fst (fst apartments) = None <-> predicts_none (snd (fst apartments)) = true) /\
  snd wages = true /\
  (fst (fst wages) = None <-> predicts_none (snd (fst wages)) = true).
Proof.
  cbv zeta.
  destruct (synthetic_frame_forecast autots_fit pd_date_range now drawn
              period_months forecast_months model_complexity
              "price" [] now_valid) as [Hprep [Hs Hf]].
  destruct (synthetic_frame_forecast autots_fit pd_date_range now drawn
              period_months forecast_months model_complexity
              "salary" [] now_valid) as [_ [Hs' Hf']].
  split; [apply Hprep|].
  split; [exact Hs|]. split; [exact Hf|]. split; [exact Hs' | exact Hf'].
Qed.

End SyntheticSeries.

Lemma synthetic_series_dates_witness :
  11 <= List.length
          (map row_date
             (df_rows (get_apartment_prices (mkTimestamp 2025 1 9 0)
                         (fun i => (8000000 + 1000 * Z.of_nat i)%Z) 6))).
Proof.
  destruct (synthetic_series_dates (mkTimestamp 2025 1 9 0)
              ltac:(vm_compute; repeat split; discriminate)
              (fun i => (8000000 + 1000 * Z.of_nat i)%Z)
              (fun i => (120000 + 100 * Z.of_nat i)%Z) 6)
    as [_ [_ [Hlen _]]].
  exact Hlen.
Defined.

Lemma synthetic_series_always_forecast_witness :
  snd (create_apartment_forecast fit_always_raises no_other_frequency
         (get_apartment_prices (mkTimestamp 2025 1 9 0)
            (fun i => (8000000 + 1000 * Z.of_nat i)%Z) 6)
         3 "medium") = true.
Proof.
  apply (synthetic_series_always_forecast (mkTimestamp 2025 1 9 0)
           ltac:(vm_compute; repeat split; discriminate)
           fit_always_raises no_other_frequency fresh_model
           (fun i => (8000000 + 1000 * Z.of_nat i)%Z) 6 3 "medium").
Defined.

(** * Properties of the dispatch and of the forecast pages *)

Section MainProperties.

Variable sha256_hexdigest : string -> string.

Lemma sidebar_when_unauthenticated (w : SidebarInput) (ss : SessionState)
    (file : UsersFile) :
  is_true (ss_authenticated ss) = false ->
  fst (fst (render_auth_sidebar sha256_hexdigest w ss file)) = Rerun \/
  fst (fst (render_auth_sidebar sha256_hexdigest w ss file)) = Returns false.
Proof.
  intros Hna. unfold render_auth_sidebar.
  assert (Hinit : is_true (ss_authenticated (init_session_state ss)) = false).
  { unfold init_session_state. simpl. destruct (ss_authenticated ss); [exact Hna | reflexivity]. }
  set (s0 := init_session_state ss) in *. clearbody s0.
  rewrite Hinit. simpl negb. cbv iota. unfold login_tab.
  destruct (login_btn w); [|right; simpl; now rewrite Hinit].
  destruct (truthy (login_user w) && truthy (login_pass w));
    [|right; simpl; now rewrite Hinit].
  destruct (authenticate _ _ _ _); [left; reflexivity | right; simpl; now rewrite Hinit].
Qed.

Lemma sidebar_when_authenticated (w : SidebarInput) (ss : SessionState)
    (file : UsersFile) :
  is_true (ss_authenticated ss) = true ->
  render_auth_sidebar sha256_hexdigest w ss file
  = if logout_btn w
    then (Rerun, mkSession (Some false) (Some "") (Some []) (ss_demo_redirect ss), file)
    else (Returns true,
          mkSession (ss_authenticated (init_session_state ss))
            (ss_username (init_session_state ss))
            (Some (tokens_after w ss)) (ss_demo_redirect ss),
          file).
Proof.
  intros Ha. unfold render_auth_sidebar, tokens_after.
  assert (Hinit : is_true (ss_authenticated (init_session_state ss)) = true).
  { unfold init_session_state. simpl. destruct (ss_authenticated ss); [exact Ha | discriminate]. }
  assert (Htok : tokens_of (init_session_state ss) = tokens_of ss).
  { unfold tokens_of, init_session_state. simpl. now destruct (ss_tokens ss). }
  assert (Hflag : ss_demo_redirect (init_session_state ss) = ss_demo_redirect ss)
    by reflexivity.
  set (s0 := init_session_state ss) in *. clearbody s0.
  rewrite Hinit, Htok, Hflag. simpl negb. cbv iota.
  destruct (logout_btn w); [reflexivity|].
  simpl. now rewrite Hinit.
Qed.

Lemma has_token_after (w : SidebarInput) (ss : SessionState) a u d :
  has_token "avito" (mkSession a u (Some (tokens_after w ss)) d)
  = (truthy (avito_token w) || has_token "avito" ss)%bool /\
  has_token "hh" (mkSession a u (Some (tokens_after w ss)) d)
  = (truthy (hh_token w) || has_token "hh" ss)%bool.
Proof.
  unfold has_token, tokens_after.
  change (tokens_of (mkSession a u (Some ?t) d)) with t.
  destruct (truthy (avito_token w)) eqn:Eav, (truthy (hh_token w)) eqn:Ehh; simpl.
  - rewrite dict_get_set_other by discriminate.
    rewrite !dict_get_set_same, Eav, Ehh. auto.
  - rewrite dict_get_set_same, Eav.
    now rewrite dict_get_set_other by discriminate.
  - rewrite dict_get_set_same, Ehh.
    now rewrite dict_get_set_other by discriminate.
  - auto.
Qed.

Lemma main_when_unauthenticated (w : MainInput) (ss : SessionState)
    (file : UsersFile) :
  is_true (ss_authenticated ss) = false ->
  fst (fst (main sha256_hexdigest w ss file)) = Rerun \/
  fst (fst (main sha256_hexdigest w ss file)) = Returns LoginPrompt.
Proof.
  intros Ha. unfold main.
  destruct (sidebar_when_unauthenticated (sidebar w) ss file Ha) as [H | H];
    destruct (render_auth_sidebar sha256_hexdigest (sidebar w) ss file)
      as [[[b|] ss1] file1]; simpl in H; try discriminate.
  - left. reflexivity.
  - injection H as ->. right. reflexivity.
Qed.

Lemma main_when_authenticated (w : MainInput) (ss : SessionState)
    (file : UsersFile) :
  is_true (ss_authenticated ss) = true ->
  main sha256_hexdigest w ss file
  = if logout_btn (sidebar w)
    then (Rerun, mkSession (Some false) (Some "") (Some []) (ss_demo_redirect ss), file)
    else
      let ss1 :=
        mkSession (ss_authenticated (init_session_state ss))
          (ss_username (init_session_state ss))
          (Some (tokens_after (sidebar w) ss)) (ss_demo_redirect ss) in
      match app_mode w with
      | ApartmentsMode =>
          if (truthy (avito_token (sidebar w)) || has_token "avito" ss)%bool
          then (Returns ApartmentPage, ss1, file)
          else if demo_btn w then (Rerun, set_demo_redirect ss1, file)
          else (Returns AvitoTokenNeeded, ss1, file)
      | SalariesMode =>
          if (truthy (hh_token (sidebar w)) || has_token "hh" ss)%bool
          then (Returns SalaryPage, ss1, file)
          else if demo_btn w then (Rerun, set_demo_redirect ss1, file)
          else (Returns HHTokenNeeded, ss1, file)
      | DemoMode => (Returns DemoPage, ss1, file)
      end.
Proof.
  intros Ha. unfold main.
  rewrite (sidebar_when_authenticated _ _ _ Ha).
  destruct (logout_btn (sidebar w)); [reflexivity|].
  cbv iota beta zeta.
  destruct (has_token_after (sidebar w) ss
              (ss_authenticated (init_session_state ss))
              (ss_username (init_session_state ss)) (ss_demo_redirect ss))
    as [-> ->].
  destruct (app_mode w);
    destruct (truthy (avito_token (sidebar w)) || has_token "avito" ss)%bool;
    destruct (truthy (hh_token (sidebar w)) || has_token "hh" ss)%bool;
    reflexivity.
Qed.

(** X18: a run of [main] renders something other than the invitation to
    log in only if the session was authenticated when the run began and the
    logout button is not pressed; the users file is then untouched.  It
    reaches [render_apartment_forecast] exactly when, besides, the mode is
    the apartment one and a non-empty Avito token is typed in this run or was
    stored before, and [render_salary_forecast] likewise with the HH token;
    the demonstration page needs no token. *)
Theorem main_gates_the_pages (w : MainInput) (ss : SessionState) (file : UsersFile) :
  let result := main sha256_hexdigest w ss file in
  (forall page,
     fst (fst result) = Returns page -> page <> LoginPrompt ->
     is_true (ss_authenticated ss) = true /\
     logout_btn (sidebar w) = false /\
     snd result = file) /\
  (fst (fst result) = Returns ApartmentPage <->
   is_true (ss_authenticated ss) = true /\ logout_btn (sidebar w) = false /\
   app_mode w = ApartmentsMode /\
   (truthy (avito_token (sidebar w)) || has_token "avito" ss)%bool = true) /\
  (fst (fst result) = Returns SalaryPage <->
   is_true (ss_authenticated ss) = true /\ logout_btn (sidebar w) = false /\
   app_mode w = SalariesMode /\
   (truthy (hh_token (sidebar w)) || has_token "hh" ss)%bool = true) /\
  (fst (fst result) = Returns DemoPage <->
   is_true (ss_authenticated ss) = true /\ logout_btn (sidebar w) = false /\
   app_mode w = DemoMode).
Proof.
  cbv zeta.
  destruct (is_true (ss_authenticated ss)) eqn:Ha.
  - rewrite (main_when_authenticated _ _ _ Ha).
    destruct (logout_btn (sidebar w)).
    + simpl. repeat split; try discriminate; intros; intuition discriminate.
    + destruct (app_mode w);
        destruct (truthy (avito_token (sidebar w)) || has_token "avito" ss)%bool;
        destruct (truthy (hh_token (sidebar w)) || has_token "hh" ss)%bool;
        destruct (demo_btn w); simpl;
        repeat split; try discriminate; try reflexivity;
        intros; intuition discriminate.
  - pose proof (main_when_unauthenticated w ss file Ha) as Hno.
    split; [|split; [|split]].
    + intros page Hr Hp. exfalso. rewrite Hr in Hno.
      destruct Hno as [E | E]; [discriminate E|]. injection E as ->. now apply Hp.
    + split; [intros Hr; rewrite Hr in Hno; destruct Hno; discriminate|].
      intros [H _]. discriminate H.
    + split; [intros Hr; rewrite Hr in Hno; destruct Hno; discriminate|].
      intros [H _]. discriminate H.
    + split; [intros Hr; rewrite Hr in Hno; destruct Hno; discriminate|].
      intros [H _]. discriminate H.
Qed.

End MainProperties.

Lemma init_keeps_authenticated (ss : SessionState) :
  is_true (ss_authenticated (init_session_state ss)) = is_true (ss_authenticated ss).
Proof. unfold init_session_state. simpl. now destruct (ss_authenticated ss). Qed.

Lemma has_token_stored (key : string) (ss : SessionState) :
  has_token key ss = true ->
  exists token, dict_get key (tokens_of ss) = Some token.
Proof.
  unfold has_token. destruct (dict_get key (tokens_of ss)) as [token|]; [eauto | discriminate].
Qed.

(** X19: the button under a token warning stores the flag [demo_redirect]
    and reruns the script, and nothing follows the flag.  The outcome of a
    run of [main] is the same whatever the flag holds; in an authenticated
    run without logout a rerun can only come from that button, it leaves the
    flag set and the tokens as they were missing, and the next run with the
    same sidebar and the same mode shows the token warning again. *)
Theorem demo_redirect_is_not_followed
    (sha256_hexdigest : string -> string)
    (w : MainInput) (ss : SessionState) (file : UsersFile) :
  (forall flag,
     fst (fst (main sha256_hexdigest w
                 (mkSession (ss_authenticated ss) (ss_username ss) (ss_tokens ss) flag)
                 file))
     = fst (fst (main sha256_hexdigest w ss file))) /\
  (is_true (ss_authenticated ss) = true ->
   logout_btn (sidebar w) = false ->
   fst (fst (main sha256_hexdigest w ss file)) = Rerun ->
   let ss' := snd (fst (main sha256_hexdigest w ss file)) in
   demo_btn w = true /\
   app_mode w <> DemoMode /\
   ss_demo_redirect ss' = Some true /\
   snd (main sha256_hexdigest w ss file) = file /\
   forall w',
     sidebar w' = sidebar w -> app_mode w' = app_mode w -> demo_btn w' = false ->
     fst (fst (main sha256_hexdigest w' ss' file))
     = Returns (match app_mode w with
                | SalariesMode => HHTokenNeeded
                | _ => AvitoTokenNeeded
                end)).
Proof.
  split.
  - intros flag. unfold main, render_auth_sidebar.
    set (s1 := init_session_state
                 (mkSession (ss_authenticated ss) (ss_username ss) (ss_tokens ss) flag)).
    set (s0 := init_session_state ss).
    assert (Ha : ss_authenticated s1 = ss_authenticated s0) by reflexivity.
    assert (Hu : ss_username s1 = ss_username s0) by reflexivity.
    assert (Ht : tokens_of s1 = tokens_of s0) by reflexivity.
    clearbody s0 s1. rewrite Ha, Ht.
    destruct (is_true (ss_authenticated s0)) eqn:E0; simpl negb; cbv iota.
    + destruct (logout_btn (sidebar w)); [reflexivity|].
      cbv beta iota zeta. simpl ss_authenticated. rewrite E0.
      simpl negb. cbv iota.
      unfold has_token.
      assert (Hmk : forall a u t d, tokens_of (mkSession a u (Some t) d) = t)
        by reflexivity.
      rewrite !Hmk.
      destruct (app_mode w); [| |reflexivity].
      * match goal with
        | |- context [dict_get "avito" ?t] => destruct (dict_get "avito" t) as [tok|]
        end; [destruct (truthy tok)|]; simpl; destruct (demo_btn w); reflexivity.
      * match goal with
        | |- context [dict_get "hh" ?t] => destruct (dict_get "hh" t) as [tok|]
        end; [destruct (truthy tok)|]; simpl; destruct (demo_btn w); reflexivity.
    + unfold login_tab.
      destruct (login_btn (sidebar w)); [|simpl; rewrite Ha, E0; reflexivity].
      destruct (truthy (login_user (sidebar w)) && truthy (login_pass (sidebar w)));
        [|simpl; rewrite Ha, E0; reflexivity].
      destruct (authenticate _ _ _ _); [reflexivity|].
      simpl. rewrite Ha, E0. reflexivity.
  - intros Ha Hlogout Hrun. cbv zeta.
    rewrite (main_when_authenticated sha256_hexdigest w ss file Ha) in *.
    rewrite Hlogout in *. cbv zeta in *.
    set (ss1 := mkSession (ss_authenticated (init_session_state ss))
                  (ss_username (init_session_state ss))
                  (Some (tokens_after (sidebar w) ss)) (ss_demo_redirect ss)) in *.
    assert (Ha1 : is_true (ss_authenticated (set_demo_redirect ss1)) = true).
    { change (is_true (ss_authenticated (init_session_state ss)) = true).
      now rewrite init_keeps_authenticated. }
    assert (Htok : has_token "avito" (set_demo_redirect ss1)
                   = (truthy (avito_token (sidebar w)) || has_token "avito" ss)%bool /\
                   has_token "hh" (set_demo_redirect ss1)
                   = (truthy (hh_token (sidebar w)) || has_token "hh" ss)%bool).
    { apply (has_token_after (sidebar w) ss
               (ss_authenticated (init_session_state ss))
               (ss_username (init_session_state ss)) (Some true)). }
    destruct Htok as [Hav Hhh].
    destruct (app_mode w) eqn:Emode.
    + destruct (truthy (avito_token (sidebar w)) || has_token "avito" ss)%bool eqn:Etok;
        [discriminate Hrun|].
      destruct (demo_btn w); [|discriminate Hrun].
      split; [reflexivity|]. split; [discriminate|]. split; [reflexivity|].
      split; [reflexivity|].
      intros w' Hside Hmode Hdemo. simpl fst. simpl snd.
      rewrite (main_when_authenticated sha256_hexdigest w' _ file Ha1).
      rewrite Hside, Hlogout, Hmode, Hdemo, Hav.
      apply Bool.orb_false_iff in Etok. destruct Etok as [-> _]. reflexivity.
    + destruct (truthy (hh_token (sidebar w)) || has_token "hh" ss)%bool eqn:Etok;
        [discriminate Hrun|].
      destruct (demo_btn w); [|discriminate Hrun].
      split; [reflexivity|]. split; [discriminate|]. split; [reflexivity|].
      split; [reflexivity|].
      intros w' Hside Hmode Hdemo. simpl fst. simpl snd.
      rewrite (main_when_authenticated sha256_hexdigest w' _ file Ha1).
      rewrite Hside, Hlogout, Hmode, Hdemo, Hhh.
      apply Bool.orb_false_iff in Etok. destruct Etok as [-> _]. reflexivity.
    + discriminate Hrun.
Qed.

Lemma demo_redirect_is_not_followed_witness :
  fst (fst (main sample_digest (choose_mode ApartmentsMode false)
              (snd (fst (main sample_digest (choose_mode ApartmentsMode true)
                           (logged_in []) None)))
              None))
  = Returns AvitoTokenNeeded.
Proof.
  destruct (demo_redirect_is_not_followed sample_digest
              (choose_mode ApartmentsMode true) (logged_in []) None) as [_ H].
  destruct (H ltac:(reflexivity) ltac:(reflexivity) ltac:(reflexivity))
    as [_ [_ [_ [_ Hnext]]]].
  apply (Hnext (choose_mode ApartmentsMode false));
    reflexivity.
Defined.

Section ForecastPages.

Variable sha256_hexdigest : string -> string.
Variable autots_fit : AutoTSConfig -> FitInput -> FitOutcome.
Variable pd_date_range : Timestamp -> nat -> string -> option (list Timestamp).
Variable now : Timestamp.
Variable drawn : nat -> Z.
Hypothesis now_valid : valid_date now.

Lemma page_token_stored (w : MainInput) (ss : SessionState) (file : UsersFile) :
  let result := main sha256_hexdigest w ss file in
  (fst (fst result) = Returns ApartmentPage ->
   exists token, dict_get "avito" (tokens_of (snd (fst result))) = Some token) /\
  (fst (fst result) = Returns SalaryPage ->
   exists token, dict_get "hh" (tokens_of (snd (fst result))) = Some token).
Proof.
  cbv zeta.
  destruct (is_true (ss_authenticated ss)) eqn:Ha.
  - rewrite (main_when_authenticated sha256_hexdigest w ss file Ha).
    destruct (logout_btn (sidebar w)); [split; discriminate|].
    cbv zeta.
    destruct (has_token_after (sidebar w) ss
                (ss_authenticated (init_session_state ss))
                (ss_username (init_session_state ss)) (ss_demo_redirect ss))
      as [Hav Hhh].
    destruct (app_mode w).
    + destruct (truthy (avito_token (sidebar w)) || has_token "avito" ss)%bool eqn:E.
      * split; [|discriminate]. intros _. apply has_token_stored.
        exact Hav.
      * destruct (demo_btn w); split; discriminate.
    + destruct (truthy (hh_token (sidebar w)) || has_token "hh" ss)%bool eqn:E.
      * split; [discriminate|]. intros _. apply has_token_stored.
        exact Hhh.
      * destruct (demo_btn w); split; discriminate.
    + split; discriminate.
  - destruct (main_when_unauthenticated sha256_hexdigest w ss file Ha) as [E | E];
      rewrite E; split; discriminate.
Qed.

(** X20: on a page that [main] reaches, with [datetime.now()] a calendar
    date, the forecast button never ends in the warning about a missing
    token, and [create_apartment_forecast] returns the success flag for the
    generated prices whatever AutoTS does.  [render_apartment_forecast]
    shows the forecast returned with it; its error message appears exactly
    when the object is trained and the prediction of its model holds [None]
    for a forecast, never for a failed training or a failing prediction.
    [render_salary_forecast] does the same with [create_salary_forecast];
    without the button nothing is requested. *)
Theorem forecast_page_always_shows_forecast
    (w : MainInput) (ss : SessionState) (file : UsersFile) (p : PageInput) :
  let result := main sha256_hexdigest w ss file in
  let ss1 := snd (fst result) in
  (fst (fst result) = Returns ApartmentPage ->
   if page_btn p
   then shown_or_missing
          (render_apartment_forecast autots_fit pd_date_range now drawn p ss1)
          (create_apartment_forecast autots_fit pd_date_range
             (get_apartment_prices now drawn (period p))
             (page_forecast_months p) (page_model_complexity p))
   else render_apartment_forecast autots_fit pd_date_range now drawn p ss1
        = NothingRequested) /\
  (fst (fst result) = Returns SalaryPage ->
   if page_btn p
   then shown_or_missing
          (render_salary_forecast autots_fit pd_date_range now drawn p ss1)
          (create_salary_forecast autots_fit pd_date_range
             (get_salary_data now drawn (period p))
             (page_forecast_months p) (page_model_complexity p))
   else render_salary_forecast autots_fit pd_date_range now drawn p ss1
        = NothingRequested).
Proof.
  intros result ss1.
  destruct (page_token_stored w ss file) as [Hav Hhh].
  fold result in Hav, Hhh. fold ss1 in Hav, Hhh. clearbody ss1. clearbody result.
  split; intros Hpage.
  - destruct (Hav Hpage) as [token Htoken].
    unfold render_apartment_forecast. rewrite Htoken.
    destruct (page_btn p); [|reflexivity].
    destruct (synthetic_frame_forecast autots_fit pd_date_range now drawn
                (period p) (page_forecast_months p) (page_model_complexity p)
                "price" [] now_valid)
      as [_ [Hs Hf]].
    cbv zeta. apply show_forecast_cases; [exact Hs | exact Hf].
  - destruct (Hhh Hpage) as [token Htoken].
    unfold render_salary_forecast. rewrite Htoken.
    destruct (page_btn p); [|reflexivity].
    destruct (synthetic_frame_forecast autots_fit pd_date_range now drawn
                (period p) (page_forecast_months p) (page_model_complexity p)
                "salary" [] now_valid)
      as [_ [Hs Hf]].
    cbv zeta. apply show_forecast_cases; [exact Hs | exact Hf].
Qed.

End ForecastPages.

Lemma forecast_page_always_shows_forecast_witness :
  render_apartment_forecast fit_ets_without_forecast no_other_frequency
    (mkTimestamp 2025 1 9 0) (fun i => (8000000 + 1000 * Z.of_nat i)%Z)
    (mkPageInput 24 12 "medium" true)
    (snd (fst (main sample_digest (choose_mode ApartmentsMode false)
                 (logged_in [("avito", "token")]) None)))
  = ForecastError.
Proof.
  destruct (forecast_page_always_shows_forecast sample_digest
              fit_ets_without_forecast no_other_frequency
              (mkTimestamp 2025 1 9 0) (fun i => (8000000 + 1000 * Z.of_nat i)%Z)
              ltac:(vm_compute; repeat split; discriminate)
              (choose_mode ApartmentsMode false)
              (logged_in [("avito", "token")]) None
              (mkPageInput 24 12 "medium" true)) as [H _].
  pose proof (H ltac:(reflexivity)) as H'.
  cbv beta iota delta [page_btn] in H'.
  destruct H' as [_ H'].
  destruct (fst (fst (create_apartment_forecast fit_ets_without_forecast
                        no_other_frequency
                        (get_apartment_prices (mkTimestamp 2025 1 9 0)
                           (fun i => (8000000 + 1000 * Z.of_nat i)%Z)
                           (period (mkPageInput 24 12 "medium" true)))
                        (page_forecast_months (mkPageInput 24 12 "medium" true))
                        (page_model_complexity (mkPageInput 24 12 "medium" true)))))
    as [forecast|] eqn:E.
  - vm_compute in E. discriminate E.
  - exact (proj1 H').
Defined.

(** * Properties of the demonstration mode *)

Section FitLog.

Variable autots_fit : AutoTSConfig -> FitInput -> FitOutcome.




End FitLog.


